(** * Date/time column detection of the chart analyzer (data_analysis.py)

    A shallow embedding of [auto_convert_datetime] (data_analysis.py, lines
    64-112) and of the manual conversion button (lines 329-366), with the
    properties of the specification stated and proved over it.

    The pandas table is an ordered list of named columns; the table the
    function mutates in place is threaded through a state record together with
    the two accumulators of the function and the state of the random
    generator that [Series.sample] draws from.  An exception leaves the loop
    with the table as mutated so far.

    pandas and dateutil are outside the repository: their value parsers are
    the fields of a [Library] record, and the properties are proved for
    every library.  [Reference] is one small library to evaluate the
    detector with on concrete tables.

    The second part embeds the code around the detector: the two file
    loaders (lines 115-169), the part of a script run that loads the table
    (lines 260-300), the date range filter (lines 369-396), the column
    selector (lines 399-418), the reset button (lines 424-427), and the
    chart options and the preparation of the chart data (lines 495-587),
    with the session state as a record and what the widgets return as
    arguments.  The time zone database and the pandas calls on the chart
    data are parameters, as the value parsers are. *)

From Stdlib Require Import ZArith Floats Uint63 Ascii Lia.
From stdpp Require Import base option list gmap strings.

Local Set Warnings "-inexact-float,-clear-no-such-hyp,-abstract-large-number".

(** ** Data model *)

(** A value of a column.  [Missing] stands for NaN, None and NaT alike (what
    [dropna] drops); numeric columns are modelled at integer values; a
    [Stamp] is a pandas Timestamp, in nanoseconds since 1970-01-01. *)
Inductive cell : Type :=
  | Missing
  | Num (v : Z)
  | Str (s : string)
  | Stamp (ns : Z).

(** The dtypes the detector tells apart: the numeric ones (int64, float64:
    [is_numeric_dtype]), datetime64[ns], and object (text, mixed values). *)
Inductive dtype : Type := Numeric | Object | Datetime.

Record Series : Type := mkSeries { dtype_of : dtype; values : list cell }.

(** [df.columns] is ordered; [df[name]] reads the column of that name
    (column names are unique in the tables the application loads). *)
Abbreviation DataFrame := (list (string * Series)).

#[global] Instance cell_eq_dec : EqDecision cell.
Proof. solve_decision. Defined.

#[global] Instance dtype_eq_dec : EqDecision dtype.
Proof. solve_decision. Defined.

Definition columns (d : DataFrame) : list string := d.*1.

(** [df[name]]: KeyError is [None]. *)
Fixpoint getitem (d : DataFrame) (name : string) : option Series :=
  match d with
  | [] => None
  | (n, s) :: rest => if decide (n = name) then Some s else getitem rest name
  end.

(** [df[name] = s]: an existing column is replaced where it stands, a new
    one is added after the last column. *)
Fixpoint setitem (d : DataFrame) (name : string) (s : Series) : DataFrame :=
  match d with
  | [] => [(name, s)]
  | (n, s0) :: rest =>
      if decide (n = name) then (name, s) :: rest
      else (n, s0) :: setitem rest name s
  end.

Definition is_missing (c : cell) : bool :=
  match c with Missing => true | _ => false end.

(** [series.dropna()], as the list of its values. *)
Definition dropna (s : Series) : list cell :=
  filter (λ c, is_missing c = false) (values s).

Definition is_numeric_dtype (s : Series) : bool :=
  match dtype_of s with Numeric => true | _ => false end.

(** [series.max()] of a numeric column skips missing values; it is NaN
    ([None]) when there is none left. *)
Definition series_max (s : Series) : option Z :=
  foldr (λ c acc,
           match c, acc with
           | Num v, Some m => Some (Z.max v m)
           | Num v, None => Some v
           | _, _ => acc
           end) None (values s).

(** [series.max() > 1e9]; a comparison with NaN is False.  On integers the
    comparison with the float 1e9 is the comparison with 10^9. *)
Definition max_gt_1e9 (s : Series) : bool :=
  match series_max s with
  | Some m => bool_decide (1000000000 < m)%Z
  | None => false
  end.

(** ** Exceptions and the external library *)

Inductive exn : Type :=
  | ZeroDivisionError
  | KeyError (name : string)
  | ConversionError (text : string).

(** How [pd.to_datetime] is asked to read the values: [unit='s'],
    [unit='ms'], [format=fmt], or none of these (the parser guesses). *)
Inductive how : Type := Unit_s | Unit_ms | Format (fmt : string) | Infer.

(** The [errors=] argument of [pd.to_datetime]; the default is [Raise]. *)
Inductive errors : Type := Raise | Coerce.

Record Library : Type := {
  (** [dateutil.parser.parse(str(val))] returns (does not raise) *)
  parse : cell -> bool;
  (** the Timestamp pandas reads a non-missing value as, in the column it
      stands in; [None] when the value cannot be read *)
  convert : how -> Series -> cell -> option Z;
  (** the error text of a call pandas refuses whatever [errors=] says (a
      malformed format string, a dtype it does not convert) *)
  refuses : how -> Series -> option string;
  (** the error text for a value that cannot be read under [errors='raise'] *)
  complaint : how -> cell -> string
}.

(** ** Random sampling *)

(** The state of the random generator: the draws still to come (0 once they
    are used up). *)
Abbreviation Rng := (list nat).

(** [Series.sample(n)] on the values [xs]: [n] draws without replacement
    (the default [replace=False]), each draw removing the value it takes.
    Line 93 never asks for more values than there are. *)
Fixpoint sample (r : Rng) (n : nat) (xs : list cell) : list cell * Rng :=
  match n with
  | O => ([], r)
  | S n' =>
      let i := (hd 0 r mod length xs)%nat in
      match xs !! i with
      | Some x =>
          let '(ys, r') := sample (tl r) n' (delete i xs) in (x :: ys, r')
      | None => ([], r)
      end
  end.

(** ** Float division and the threshold *)

(** The float of a count (exact below 2^53; line 105 divides counts of at
    most 10). *)
Definition float_of_nat (n : nat) : float :=
  PrimFloat.of_uint63 (Uint63.of_Z (Z.of_nat n)).

(** [a / b] on Python ints: the binary64 quotient, ZeroDivisionError when
    [b] is 0. *)
Definition truediv (a b : nat) : exn + float :=
  match b with
  | O => inl ZeroDivisionError
  | S _ => inr (PrimFloat.div (float_of_nat a) (float_of_nat b))
  end.

(** [q > 0.7], the literal being the binary64 number nearest to 7/10. *)
Definition gt_0_7 (q : float) : bool := PrimFloat.ltb 0.7%float q.

(** ** The detector *)

Record State : Type := mkState {
  df : DataFrame;
  date_cols : list string;
  converted_cols : gmap string string;
  rng : Rng
}.

Inductive outcome : Type :=
  | Returned (st : State)
  | Raised (e : exn) (st : State).

Definition state_of (o : outcome) : State :=
  match o with Returned st => st | Raised _ st => st end.

(** Lines 65-66: both accumulators start empty. *)
Definition initial (r : Rng) (d : DataFrame) : State :=
  {| df := d; date_cols := []; converted_cols := ∅; rng := r |}.

Definition datetime_name (col : string) : string := col +:+ "_datetime".

Section Detector.

Variable lib : Library.

(** One value under [pd.to_datetime]: a missing value becomes NaT, any
    other value is read by the library ([None]: it cannot be read). *)
Definition read_cell (h : how) (s : Series) (c : cell) : option cell :=
  match c with
  | Missing => Some Missing
  | _ => Stamp <$> convert lib h s c
  end.

(** [pd.to_datetime(s, <h>, errors=<e>)], by the contract pandas documents
    for [errors]: under ['raise'] a value that cannot be read raises, under
    ['coerce'] it is set to NaT.  The result is of date/time dtype and has
    one value per value of [s]. *)
Definition to_datetime (s : Series) (h : how) (e : errors) : exn + Series :=
  match refuses lib h s with
  | Some text => inl (ConversionError text)
  | None =>
      match e with
      | Coerce =>
          inr (mkSeries Datetime
                 (map (λ c, default Missing (read_cell h s c)) (values s)))
      | Raise =>
          match list_find (λ c, read_cell h s c = None) (values s) with
          | Some (_, c) => inl (ConversionError (complaint lib h c))
          | None =>
              inr (mkSeries Datetime
                     (map (λ c, default Missing (read_cell h s c)) (values s)))
          end
      end
  end.

(** Lines 75-77: the derived column, the record of it, the date column. *)
Definition derive (col : string) (converted : Series) (st : State) : State :=
  {| df := setitem (df st) (datetime_name col) converted;
     date_cols := date_cols st ++ [datetime_name col];
     converted_cols := <[col := datetime_name col]> (converted_cols st);
     rng := rng st |}.

(** Lines 107-108: the column replaced by its conversion. *)
Definition convert_in_place (col : string) (converted : Series) (st : State)
  : State :=
  {| df := setitem (df st) col converted;
     date_cols := date_cols st ++ [col];
     converted_cols := converted_cols st;
     rng := rng st |}.

Definition with_rng (r : Rng) (st : State) : State :=
  {| df := df st; date_cols := date_cols st;
     converted_cols := converted_cols st; rng := r |}.

(** Lines 73-80 and 83-90: one [try] block of the timestamp branch;
    [None] is the [except: pass]. *)
Definition try_unit (col : string) (s : Series) (u : how) (st : State)
  : option State :=
  match to_datetime s u Raise with
  | inr converted => Some (derive col converted st)
  | inl _ => None
  end.

(** Lines 71-90: [Some] is a [continue]. *)
Definition timestamp_branch (col : string) (s : Series) (st : State)
  : option State :=
  if is_numeric_dtype s && max_gt_1e9 s then
    match try_unit col s Unit_s st with
    | Some st' => Some st'
    | None => try_unit col s Unit_ms st
    end
  else None.

(** Lines 96-102 *)
Definition count_parsed (smp : list cell) : nat :=
  length (filter (λ c, parse lib c = true) smp).

(** Lines 93-110 *)
Definition sample_branch (col : string) (s : Series) (st : State) : outcome :=
  let nonmissing := dropna s in
  let '(smp, r') := sample (rng st) (min 10 (length nonmissing)) nonmissing in
  let st1 := with_rng r' st in
  let date_count := count_parsed smp in
  match truediv date_count (length smp) with
  | inl e => Raised e st1
  | inr q =>
      if gt_0_7 q then
        match to_datetime s Infer Coerce with
        | inr converted => Returned (convert_in_place col converted st1)
        | inl _ => Returned st1
        end
      else Returned st1
  end.

(** The body of the loop of line 69.  The column [df[col]] is read once
    here: nothing writes the table between line 71 and the reads of lines
    74, 84, 93 and 107 (a [try] block that fails fails at its first line). *)
Definition loop_body (col : string) (st : State) : outcome :=
  match getitem (df st) col with
  | None => Raised (KeyError col) st
  | Some s =>
      match timestamp_branch col s st with
      | Some st' => Returned st'
      | None => sample_branch col s st
      end
  end.

(** [for col in cols: ...]; an exception ends the loop. *)
Fixpoint for_each (cols : list string) (st : State) : outcome :=
  match cols with
  | [] => Returned st
  | col :: rest =>
      match loop_body col st with
      | Returned st' => for_each rest st'
      | Raised e st' => Raised e st'
      end
  end.

(** Lines 64-112.  [df.columns] is read once, when the loop starts: the
    columns added on the way are not visited. *)
Definition auto_convert_datetime (r : Rng) (d : DataFrame) : outcome :=
  for_each (columns d) (initial r d).

End Detector.

(** ** The manual conversion button (lines 329-366) *)

(** The entries of the format selectbox (lines 313-321). *)
Inductive date_format : Type :=
  | AutoDetect
  | TimestampSeconds
  | TimestampMillis
  | IsoFormat
  | UsFormat
  | EuFormat
  | Custom (custom_format : string).

(** The arguments each entry passes to [pd.to_datetime] (lines 331-358). *)
Definition how_of (f : date_format) : how :=
  match f with
  | TimestampSeconds => Unit_s
  | TimestampMillis => Unit_ms
  | IsoFormat => Format "%Y-%m-%d"
  | UsFormat => Format "%m/%d/%Y"
  | EuFormat => Format "%d/%m/%Y"
  | Custom custom_format => Format custom_format
  | AutoDetect => Infer
  end.

(** [st.session_state.df] and [st.session_state.date_columns] *)
Record Session : Type := mkSession {
  session_df : DataFrame;
  date_columns : list string
}.

(** What the user is shown: [st.success] names the new column (line 364),
    [st.error] carries [str(e)] (line 366). *)
Inductive message : Type :=
  | Success (new_col_name : string)
  | Error (text : string).

(** [str(e)] *)
Definition exn_text (e : exn) : string :=
  match e with
  | ZeroDivisionError => "division by zero"
  | KeyError name => "'" +:+ name +:+ "'"
  | ConversionError text => text
  end.

(** The handler of the button: every branch converts with
    [errors='coerce'] and writes the column [new_col_name]. *)
Definition convert_button (lib : Library) (f : date_format)
    (date_col new_col_name : string) (ss : Session) : Session * message :=
  match getitem (session_df ss) date_col with
  | None => (ss, Error (exn_text (KeyError date_col)))
  | Some s =>
      match to_datetime lib s (how_of f) Coerce with
      | inl e => (ss, Error (exn_text e))
      | inr converted =>
          ({| session_df := setitem (session_df ss) new_col_name converted;
              date_columns :=
                if decide (new_col_name ∈ date_columns ss)
                then date_columns ss
                else date_columns ss ++ [new_col_name] |},
           Success new_col_name)
      end
  end.

(** ** A reference library

    A small stand-in for pandas and dateutil, to run the detector on
    concrete tables of texts and of Unix timestamps: timestamps within the
    range of a nanosecond Timestamp, and [strptime] for the directives
    %Y %m %d %H %M %S %z.  As the permissive parser it knows four layouts
    only (ISO dates, ISO date and time, the latter with a UTC offset, US
    dates).  Without a format a column is read with the layout of its
    first text, and a column of texts with different UTC offsets is
    refused, as pandas 3 does.  dateutil also reads a
    bare number, as a day of the current month or as a year; the stand-in
    has no current date and takes a number as not read, so the example
    tables have no numeric column that reaches the sampling step with a
    value in it. *)
Module Reference.

Local Open Scope Z_scope.

(** Days since 1970-01-01 of a date of the Gregorian calendar. *)
Definition days_from_civil (y m d : Z) : Z :=
  let y' := if m <=? 2 then y - 1 else y in
  let era := y' / 400 in
  let yoe := y' - era * 400 in
  let doy := (153 * (if m >? 2 then m - 3 else m + 9) + 2) / 5 + d - 1 in
  let doe := yoe * 365 + yoe / 4 - yoe / 100 + doy in
  era * 146097 + doe - 719468.

Definition is_leap (y : Z) : bool :=
  ((y mod 4 =? 0) && negb (y mod 100 =? 0)) || (y mod 400 =? 0).

Definition days_in_month (y m : Z) : Z :=
  if m =? 2 then (if is_leap y then 29 else 28)
  else if (m =? 4) || (m =? 6) || (m =? 9) || (m =? 11) then 30
  else 31.

(** The fields of a date and time; [tm_off] is the UTC offset the text
    gives, in seconds east of UTC, when it gives one. *)
Record tm : Type := mkTm {
  tm_year : Z; tm_mon : Z; tm_mday : Z;
  tm_hour : Z; tm_min : Z; tm_sec : Z;
  tm_off : option Z
}.

Definition tm_valid (t : tm) : bool :=
  (1 <=? tm_year t) && (tm_year t <=? 9999) &&
  (1 <=? tm_mon t) && (tm_mon t <=? 12) &&
  (1 <=? tm_mday t) && (tm_mday t <=? days_in_month (tm_year t) (tm_mon t)) &&
  (tm_hour t <? 24) && (tm_min t <? 60) && (tm_sec t <? 62).

(** The instant of a text with an offset, the wall-clock time of a text
    without. *)
Definition tm_nanoseconds (t : tm) : Z :=
  ((days_from_civil (tm_year t) (tm_mon t) (tm_mday t) * 86400
    + tm_hour t * 3600 + tm_min t * 60 + tm_sec t
    - default 0 (tm_off t)) * 1000000000).

(** The range of a nanosecond Timestamp (the least int64 is NaT). *)
Definition in_bounds (ns : Z) : option Z :=
  if (- 9223372036854775807 <=? ns) && (ns <=? 9223372036854775807)
  then Some ns else None.

Definition digit (a : ascii) : option Z :=
  let n := Z.of_nat (nat_of_ascii a) in
  if (48 <=? n) && (n <=? 57) then Some (n - 48) else None.

(** Exactly [n] digits. *)
Fixpoint digits (n : nat) (acc : Z) (s : string) : option (Z * string) :=
  match n with
  | O => Some (acc, s)
  | S n' =>
      match s with
      | String a s' =>
          match digit a with
          | Some v => digits n' (10 * acc + v) s'
          | None => None
          end
      | EmptyString => None
      end
  end.

(** One or two digits, two when there are two. *)
Definition digits_1_2 (s : string) : option (Z * string) :=
  match digits 2 0 s with
  | Some r => Some r
  | None => digits 1 0 s
  end.

(** A UTC offset: [Z], or a sign, two digits, an optional colon and two
    digits. *)
Definition utc_offset (s : string) : option (Z * string) :=
  match s with
  | String a s1 =>
      if decide (a = "Z"%char) then Some (0, s1)
      else if bool_decide (a ∈ ["+"; "-"]%char) then
        '(h, s2) ← digits 2 0 s1;
        let s3 :=
          match s2 with
          | String b s' => if decide (b = ":"%char) then s' else s2
          | EmptyString => s2
          end in
        '(m, s4) ← digits 2 0 s3;
        Some ((if decide (a = "-"%char) then -1 else 1) * (h * 3600 + m * 60),
              s4)
      else None
  | EmptyString => None
  end.

Definition set_field (d : ascii) (t : tm) (s : string) : option (tm * string) :=
  if decide (d = "Y"%char) then
    '(v, s') ← digits 4 0 s;
    Some (mkTm v (tm_mon t) (tm_mday t) (tm_hour t) (tm_min t) (tm_sec t)
            (tm_off t), s')
  else if decide (d = "m"%char) then
    '(v, s') ← digits_1_2 s;
    Some (mkTm (tm_year t) v (tm_mday t) (tm_hour t) (tm_min t) (tm_sec t)
            (tm_off t), s')
  else if decide (d = "d"%char) then
    '(v, s') ← digits_1_2 s;
    Some (mkTm (tm_year t) (tm_mon t) v (tm_hour t) (tm_min t) (tm_sec t)
            (tm_off t), s')
  else if decide (d = "H"%char) then
    '(v, s') ← digits_1_2 s;
    Some (mkTm (tm_year t) (tm_mon t) (tm_mday t) v (tm_min t) (tm_sec t)
            (tm_off t), s')
  else if decide (d = "M"%char) then
    '(v, s') ← digits_1_2 s;
    Some (mkTm (tm_year t) (tm_mon t) (tm_mday t) (tm_hour t) v (tm_sec t)
            (tm_off t), s')
  else if decide (d = "S"%char) then
    '(v, s') ← digits_1_2 s;
    Some (mkTm (tm_year t) (tm_mon t) (tm_mday t) (tm_hour t) (tm_min t) v
            (tm_off t), s')
  else if decide (d = "z"%char) then
    '(v, s') ← utc_offset s;
    Some (mkTm (tm_year t) (tm_mon t) (tm_mday t) (tm_hour t) (tm_min t)
            (tm_sec t) (Some v), s')
  else None.

Definition known_directive (d : ascii) : bool :=
  bool_decide (d ∈ ["Y"; "m"; "d"; "H"; "M"; "S"; "z"]%char).

(** A format string is malformed when a % is followed by no known
    directive. *)
Fixpoint bad_directive (fmt : string) : option string :=
  match fmt with
  | EmptyString => None
  | String a fmt' =>
      if decide (a = "%"%char) then
        match fmt' with
        | EmptyString => Some "stray % in format"
        | String d fmt'' =>
            if known_directive d then bad_directive fmt''
            else Some (String d " is a bad directive in format")
        end
      else bad_directive fmt'
  end.

(** The text against the format, field by field; all of the text must be
    used. *)
Fixpoint strptime_from (fmt : string) (s : string) (t : tm) : option tm :=
  match fmt with
  | EmptyString => match s with EmptyString => Some t | _ => None end
  | String a fmt' =>
      if decide (a = "%"%char) then
        match fmt' with
        | EmptyString => None
        | String d fmt'' =>
            match set_field d t s with
            | Some (t', s') => strptime_from fmt'' s' t'
            | None => None
            end
        end
      else
        match s with
        | String b s' => if decide (a = b) then strptime_from fmt' s' t else None
        | EmptyString => None
        end
  end.

Definition strptime (fmt : string) (s : string) : option Z :=
  t ← strptime_from fmt s (mkTm 1900 1 1 0 0 0 None);
  if tm_valid t then in_bounds (tm_nanoseconds t) else None.

(** The UTC offset a text gives when read with a format. *)
Definition strptime_offset (fmt : string) (s : string) : option Z :=
  t ← strptime_from fmt s (mkTm 1900 1 1 0 0 0 None);
  if tm_valid t then tm_off t else None.

Definition layouts : list string :=
  ["%Y-%m-%d"; "%Y-%m-%d %H:%M:%S"; "%Y-%m-%d %H:%M:%S%z"; "%m/%d/%Y"]%string.

(** The first layout that reads the text. *)
Definition guess (s : string) : option Z :=
  foldr (λ fmt acc, match strptime fmt s with Some t => Some t | None => acc end)
        None layouts.

Definition ref_parse (c : cell) : bool :=
  match c with
  | Str s => bool_decide (is_Some (foldr (λ fmt acc,
               match strptime_from fmt s (mkTm 1900 1 1 0 0 0 None) with
               | Some t => if tm_valid t then Some t else acc
               | None => acc
               end) None layouts))
  | Stamp _ => true
  | Num _ | Missing => false
  end.

(** The first value of a column that is not missing, when it is a text. *)
Definition first_text (l : list cell) : option string :=
  match list_find (λ c, c ≠ Missing) l with
  | Some (_, Str x) => Some x
  | _ => None
  end.

(** The layout pandas infers for a column when no format is given: the
    one that reads the first text of the column ([None]: the column does
    not start with a text, or with a text of none of the layouts). *)
Definition inferred_layout (s : Series) : option string :=
  x ← first_text (values s);
  snd <$> list_find (λ fmt, is_Some (strptime fmt x)) layouts.

(** Without a format, every text of the column is read with the layout
    inferred from its first text, and a text of another layout is not
    read; only when no layout can be inferred is each text read on its
    own. *)
Definition ref_convert (h : how) (s : Series) (c : cell) : option Z :=
  match h, c with
  | _, Stamp ns => Some ns
  | Unit_s, Num v => in_bounds (v * 1000000000)
  | Unit_ms, Num v => in_bounds (v * 1000000)
  | Format fmt, Str x => strptime fmt x
  | Infer, Str x =>
      match inferred_layout s with
      | Some fmt => strptime fmt x
      | None => guess x
      end
  | Infer, Num v => in_bounds v
  | _, _ => None
  end.

(** The UTC offsets of the texts of a column, read as [ref_convert]
    reads them without a format. *)
Definition offsets (s : Series) : list Z :=
  omap (λ c,
          match c with
          | Str x =>
              match inferred_layout s with
              | Some fmt => strptime_offset fmt x
              | None =>
                  foldr (λ fmt acc,
                           match strptime fmt x with
                           | Some _ => strptime_offset fmt x
                           | None => acc
                           end) None layouts
              end
          | _ => None
          end) (values s).

(** A call is refused as a whole, whatever [errors] says, for a format
    with an unknown directive and, without a format, for a column of
    texts with different UTC offsets (pandas 3); a column that is of
    date/time dtype already is taken as it is. *)
Definition ref_refuses (h : how) (s : Series) : option string :=
  match h with
  | Format fmt => bad_directive fmt
  | Infer =>
      match dtype_of s with
      | Datetime => None
      | _ =>
          match offsets s with
          | o :: rest =>
              if forallb (Z.eqb o) rest then None
              else Some "Mixed timezones detected. Pass utc=True in to_datetime or tz='UTC' in DatetimeIndex to convert to a common timezone."%string
          | [] => None
          end
      end
  | _ => None
  end.

Definition lib : Library :=
  {| parse := ref_parse;
     convert := ref_convert;
     refuses := ref_refuses;
     complaint := λ _ _, "Out of bounds nanosecond timestamp"%string |}.

End Reference.

(** ** Example tables *)

Module Examples.

Import Reference.

Definition start (d : DataFrame) : State := initial [] d.

(** Seconds since the epoch, one day apart (2023-11-14 22:13:20 onwards). *)
Definition ts : Series :=
  mkSeries Numeric [Num 1700000000; Num 1700086400; Num 1700172800].

Definition ts_datetime : Series :=
  mkSeries Datetime [Stamp 1700000000000000000; Stamp 1700086400000000000;
                     Stamp 1700172800000000000].


(** Ten texts, seven of them dates. *)
Definition seven_of_ten : Series :=
  mkSeries Object
    [Str "2023-01-01"; Str "2023-01-02"; Str "2023-01-03"; Str "2023-01-04";
     Str "2023-01-05"; Str "01/06/2023"; Str "01/07/2023";
     Str "n/a"; Str "unknown"; Str "-"].

(** Five texts, four of them dates. *)
Definition four_of_five : Series :=
  mkSeries Object
    [Str "2023-01-01"; Str "01/02/2023"; Str "not-a-date"; Str "2023-01-04";
     Str "2023-01-05"].

(** Read with the layout of the first text: the text of the other layout
    and the text that is no date are missing. *)
Definition four_of_five_datetime : Series :=
  mkSeries Datetime
    [Stamp 1672531200000000000; Missing; Missing;
     Stamp 1672790400000000000; Stamp 1672876800000000000].

(** Three texts, all of them dates. *)
Definition three_dates : Series :=
  mkSeries Object [Str "2023-01-01"; Str "01/02/2023"; Str "2023-01-03"].

Definition three_dates_datetime : Series :=
  mkSeries Datetime
    [Stamp 1672531200000000000; Missing; Stamp 1672704000000000000].

Definition both : DataFrame := [("ts", ts); ("d", three_dates)].

Definition both_converted : State :=
  {| df := [("ts", ts); ("d", three_dates_datetime);
            ("ts_datetime", ts_datetime)];
     date_cols := ["ts_datetime"; "d"];
     converted_cols := {["ts" := "ts_datetime"]};
     rng := [] |}.

(** What a second run on that table returns: [ts_datetime] is listed once
    for [ts] and once for itself. *)
Definition both_again : State :=
  {| df := [("ts", ts); ("d", three_dates_datetime);
            ("ts_datetime", ts_datetime)];
     date_cols := ["ts_datetime"; "d"; "ts_datetime"];
     converted_cols := {["ts" := "ts_datetime"]};
     rng := [] |}.

(** Three texts with a date, a time and a UTC offset, the offsets not
    all the same. *)
Definition mixed_offsets : Series :=
  mkSeries Object
    [Str "2023-01-01 00:00:00+01:00"; Str "2023-01-02 00:00:00+02:00";
     Str "2023-01-03 00:00:00+01:00"].





End Examples.

(** ** Predicates of the specification *)

(** A Timestamp or NaT. *)
Definition stamp_or_missing (c : cell) : Prop :=
  match c with Missing | Stamp _ => True | _ => False end.

(** A column of date/time dtype holds Timestamps and NaT only. *)
Definition typed_datetime (s : Series) : Prop :=
  dtype_of s = Datetime → Forall stamp_or_missing (values s).

(** The sample of line 93 and the generator after it. *)
Definition drawn (st : State) (s : Series) : list cell * Rng :=
  sample (rng st) (min 10 (length (dropna s))) (dropna s).

(** Every record of a conversion names a column of the table, called after
    its source. *)
Definition conversions_recorded (st : State) : Prop :=
  ∀ source derived,
    converted_cols st !! source = Some derived →
    derived = datetime_name source ∧ derived ∈ columns (df st).

Section Predicates.

Variable lib : Library.

Implicit Types (st : State) (col : string) (s converted : Series)
  (d : DataFrame).

(** What the three branches of one iteration come to. *)
Inductive body_case (col : string) (st : State) : outcome → Prop :=
  | case_key_error :
      getitem (df st) col = None →
      body_case col st (Raised (KeyError col) st)
  | case_seconds s converted :
      getitem (df st) col = Some s →
      is_numeric_dtype s = true → max_gt_1e9 s = true →
      to_datetime lib s Unit_s Raise = inr converted →
      body_case col st (Returned (derive col converted st))
  | case_milliseconds s e converted :
      getitem (df st) col = Some s →
      is_numeric_dtype s = true → max_gt_1e9 s = true →
      to_datetime lib s Unit_s Raise = inl e →
      to_datetime lib s Unit_ms Raise = inr converted →
      body_case col st (Returned (derive col converted st))
  | case_empty_sample s :
      getitem (df st) col = Some s →
      timestamp_branch lib col s st = None →
      (drawn st s).1 = [] →
      body_case col st (Raised ZeroDivisionError (with_rng (drawn st s).2 st))
  | case_in_place s converted :
      getitem (df st) col = Some s →
      timestamp_branch lib col s st = None →
      (drawn st s).1 ≠ [] →
      gt_0_7 (PrimFloat.div
                (float_of_nat (count_parsed lib (drawn st s).1))
                (float_of_nat (length (drawn st s).1))) = true →
      to_datetime lib s Infer Coerce = inr converted →
      body_case col st
        (Returned (convert_in_place col converted (with_rng (drawn st s).2 st)))
  | case_left_alone s :
      getitem (df st) col = Some s →
      timestamp_branch lib col s st = None →
      (drawn st s).1 ≠ [] →
      gt_0_7 (PrimFloat.div
                (float_of_nat (count_parsed lib (drawn st s).1))
                (float_of_nat (length (drawn st s).1))) = false
      ∨ (∃ e, to_datetime lib s Infer Coerce = inl e) →
      body_case col st (Returned (with_rng (drawn st s).2 st)).

(** The table after one iteration: as it was, or with one column written,
    the column being of date/time dtype, as long as the one it was read
    from, and made of Timestamps and NaT. *)
Definition one_write (d d' : DataFrame) : Prop :=
  d' = d ∨
  ∃ name s converted h e,
    (s ∈ d.*2) ∧ to_datetime lib s h e = inr converted ∧
    d' = setitem d name converted.

(** The columns the timestamp branch derives a column from. *)
Definition qualifies (s : Series) : Prop :=
  is_numeric_dtype s = true ∧ max_gt_1e9 s = true ∧
  ∃ converted, to_datetime lib s Unit_s Raise = inr converted ∨
               to_datetime lib s Unit_ms Raise = inr converted.

(** Every such column has its derived column in the table, unless it is
    still to be visited. *)
Definition saturated (pending : list string) (d : DataFrame) : Prop :=
  ∀ c s, getitem d c = Some s → qualifies s →
         c ∈ pending ∨ datetime_name c ∈ columns d.

(** The column the timestamp branch derives from [s] (lines 74 and 84). *)
Definition derived_of (s : Series) : option Series :=
  match to_datetime lib s Unit_s Raise with
  | inr converted => Some converted
  | inl _ =>
      match to_datetime lib s Unit_ms Raise with
      | inr converted => Some converted
      | inl _ => None
      end
  end.

(** Every column the timestamp branch derives from has its derived column
    in the table, holding what the branch derives, unless it is still to
    be visited. *)
Definition derived_kept (pending : list string) (d : DataFrame) : Prop :=
  ∀ x sx converted,
    getitem d x = Some sx →
    is_numeric_dtype sx = true → max_gt_1e9 sx = true →
    derived_of sx = Some converted →
    x ∈ pending ∨ getitem d (datetime_name x) = Some converted.

End Predicates.

(** * The application around the detector

    The loaders, the upload handler and the handlers of the widgets that
    read and write the table of the session (data_analysis.py, lines
    115-169, 260-289 and 368-578).  What the Streamlit widgets return (the
    boxes ticked, the dates entered, the button pressed) is an argument of
    each handler. *)

(** The exceptions this code can raise besides those of the detector. *)
Inductive pyexn : Type :=
  | LookupKeyError (name : string)
  | AttributeError
  | NameError (name : string)
  | ValueError
  | IndexError
  | TypeError
  | LocalTimeError (text : string).

(** ** The file loaders (lines 115-169) *)

Section Loaders.

(** A row of the file; [pd.concat(..., ignore_index=True)] and [head] work
    on rows whatever they hold. *)
Context {Row : Type}.

(** What a loader returns, and the row count of its [st.info] message when
    it shows one. *)
Inductive load_outcome : Type :=
  | Loaded (rows : list Row) (info : option nat)
  | LoadRaised (e : pyexn).

(** Lines 128-134: the chunks [pd.read_csv(file, chunksize=...)] yields are
    appended to [chunk_list] until more than [sample_size] rows are held. *)
Fixpoint read_chunks (sample_size : nat) (chunk_list chunks : list (list Row))
  : list (list Row) :=
  match chunks with
  | [] => chunk_list
  | chunk :: rest =>
      let chunk_list' := chunk_list ++ [chunk] in
      if sample_size <? length (concat chunk_list') then chunk_list'
      else read_chunks sample_size chunk_list' rest
  end.

(** Lines 115-144.  [pd.concat] of no chunk at all raises ValueError. *)
Definition read_large_csv (chunks : list (list Row)) (sample_size : nat)
  : load_outcome :=
  match read_chunks sample_size [] chunks with
  | [] => LoadRaised ValueError
  | chunk_list =>
      let df := concat chunk_list in
      if sample_size <? length df
      then Loaded (take sample_size df) (Some (length df))
      else Loaded df None
  end.

(** Lines 147-169.  [sheet] gives the rows of a sheet of the workbook,
    [choice] is the sheet picked in the selectbox of line 154. *)
Definition read_excel_with_sampling (sheet_names : list string)
    (choice : string) (sheet : string → list Row) (sample_size : nat)
  : load_outcome :=
  match
    (if 1 <? length sheet_names then Some choice else sheet_names !! 0)
  with
  | None => LoadRaised IndexError
  | Some sheet_name =>
      let total_rows := length (sheet sheet_name) in
      if sample_size <? total_rows
      then Loaded (take sample_size (sheet sheet_name)) (Some total_rows)
      else Loaded (sheet sheet_name) None
  end.

End Loaders.

(** ** The state of the session (lines 172-187) *)

Record App : Type := mkApp {
  app_df : option DataFrame;
  app_original_df : option DataFrame;
  app_selected_columns : list string;
  app_date_columns : list string;
  app_date_conversions : gmap string string
}.

Definition set_df (d : option DataFrame) (app : App) : App :=
  {| app_df := d; app_original_df := app_original_df app;
     app_selected_columns := app_selected_columns app;
     app_date_columns := app_date_columns app;
     app_date_conversions := app_date_conversions app |}.

(** ** The upload handler (lines 260-289) *)

Inductive file_kind : Type := CsvFile | ExcelFile | OtherFile.

(** [s.endswith(suffix)] *)
Definition endswith (s suffix : string) : bool :=
  let n := String.length s in
  let m := String.length suffix in
  (m <=? n) && bool_decide (String.substring (n - m) m s = suffix).

(** The tests of lines 262 and 270. *)
Definition file_kind_of (name : string) : file_kind :=
  if endswith name ".csv" then CsvFile
  else if endswith name ".xlsx" || endswith name ".xls" then ExcelFile
  else OtherFile.

(** The messages of lines 260-300: the two [st.success] of lines 268 and
    273, the count of line 283, the [st.info] of line 285, the [st.error]
    of line 288 with [str(e)], and the [st.success] of line 300 with the
    row count. *)
Inductive notice : Type :=
  | CsvLoaded
  | ExcelLoaded
  | DatesDetected (n : nat)
  | NoDatesDetected
  | ReadError (text : string)
  | SampleGenerated (rows : nat).

(** [str(e)] *)
Definition pyexn_text (e : pyexn) : string :=
  match e with
  | LookupKeyError name => "'" +:+ name +:+ "'"
  | AttributeError => "'NoneType' object has no attribute 'copy'"
  | NameError name => "name '" +:+ name +:+ "' is not defined"
  | ValueError => "No objects to concatenate"
  | IndexError => "list index out of range"
  | TypeError => "Invalid comparison"
  | LocalTimeError text => text
  end.

(** Lines 287-289 *)
Definition read_failed (text : string) (notices : list notice) (r : Rng)
    (app : App) : App * list notice * Rng :=
  (set_df None app, notices ++ [ReadError text], r).

(** Lines 260-289, for an uploaded file called [name]; [loaded] is what
    the loader of the branch taken returns ([inl]: it raised). *)
Definition upload (lib : Library) (r : Rng) (name : string)
    (use_sampling : bool) (loaded : string + DataFrame) (app : App)
  : App * list notice * Rng :=
  let after_load : string + (App * list notice) :=
    match file_kind_of name with
    | CsvFile =>
        match loaded with
        | inl text => inl text
        | inr d =>
            inr (set_df (Some d) app, if use_sampling then [] else [CsvLoaded])
        end
    | ExcelFile =>
        match loaded with
        | inl text => inl text
        | inr d => inr (set_df (Some d) app, [ExcelLoaded])
        end
    | OtherFile => inr (app, [])
    end in
  match after_load with
  | inl text => read_failed text [] r app
  | inr (app1, notices) =>
      match app_df app1 with
      | None => read_failed (pyexn_text AttributeError) notices r app1
      | Some d =>
          let app2 :=
            {| app_df := Some d; app_original_df := Some d;
               app_selected_columns := app_selected_columns app1;
               app_date_columns := app_date_columns app1;
               app_date_conversions := app_date_conversions app1 |} in
          match auto_convert_datetime lib r d with
          | Raised e st => read_failed (exn_text e) notices (rng st) app2
          | Returned st =>
              ({| app_df := Some (df st); app_original_df := Some d;
                  app_selected_columns := app_selected_columns app1;
                  app_date_columns := date_cols st;
                  app_date_conversions := converted_cols st |},
               notices ++
                 [match date_cols st with
                  | [] => NoDatesDetected
                  | _ => DatesDetected (length (date_cols st))
                  end],
               rng st)
          end
      end
  end.

(** ** A script run up to the table (lines 260-300)

    Streamlit runs the script from the top at every interaction and after
    every [st.rerun()]: these lines run each time, before any section that
    shows the table. *)

(** [len(df)] *)
Definition nrows (d : DataFrame) : nat :=
  match d with
  | [] => 0
  | (_, s) :: _ => length (values s)
  end.

(** Lines 293-300, for the table [create_sample_data] returns.  No [try]
    stands around the detector here: its exception ends the run, with the
    session table as mutated so far and the lists as they were. *)
Definition generate (lib : Library) (r : Rng) (d : DataFrame) (app : App)
  : exn * App * Rng + App * list notice * Rng :=
  match auto_convert_datetime lib r d with
  | Raised e st =>
      inl (e,
           {| app_df := Some (df st); app_original_df := Some d;
              app_selected_columns := app_selected_columns app;
              app_date_columns := app_date_columns app;
              app_date_conversions := app_date_conversions app |},
           rng st)
  | Returned st =>
      inr ({| app_df := Some (df st); app_original_df := Some d;
              app_selected_columns := app_selected_columns app;
              app_date_columns := date_cols st;
              app_date_conversions := converted_cols st |},
           [SampleGenerated (nrows (df st))], rng st)
  end.

(** What the run finds: a file in the uploader, with what its loader
    returns in this run, or none, and then the table of the sample-data
    button when it is pressed in this run. *)
Inductive source : Type :=
  | FileUploaded (name : string) (use_sampling : bool)
      (loaded : string + DataFrame)
  | NoFile (generated : option DataFrame).

(** Lines 260-300. *)
Definition data_processing (lib : Library) (r : Rng) (src : source)
    (app : App) : exn * App * Rng + App * list notice * Rng :=
  match src with
  | FileUploaded name use_sampling loaded =>
      inr (upload lib r name use_sampling loaded app)
  | NoFile None => inr (app, [], r)
  | NoFile (Some d) => generate lib r d app
  end.

(** ** The reset button (lines 424-427)

    The handler ends with [st.rerun()]: what it leaves in the session is
    what the next run starts from, and that run passes through
    [data_processing] before the table is shown again. *)

Definition reset (app : App) : pyexn + App :=
  match app_original_df app with
  | None => inl AttributeError
  | Some d =>
      inr {| app_df := Some d; app_original_df := Some d;
             app_selected_columns := columns d;
             app_date_columns := app_date_columns app;
             app_date_conversions := app_date_conversions app |}
  end.

(** ** The column selector (lines 399-418) *)

(** [l.remove(x)]: the first [x] of the list (the code calls it on a list
    that has one). *)
Fixpoint list_remove (x : string) (l : list string) : list string :=
  match l with
  | [] => []
  | y :: rest => if decide (y = x) then rest else y :: list_remove x rest
  end.

(** [st.checkbox(column, value=..., key=...)]: the state the widget holds
    for this key, and [value] when it holds none. *)
Definition checkbox (widget : string → option bool) (value : bool)
    (column : string) : bool :=
  default value (widget column).

(** Lines 409-414 for one column. *)
Definition tick (widget : string → option bool) (column : string)
    (selected : list string) : list string :=
  if checkbox widget (bool_decide (column ∈ selected)) column then
    if bool_decide (column ∈ selected) then selected else selected ++ [column]
  else
    if bool_decide (column ∈ selected) then list_remove column selected
    else selected.

(** The loop of line 407 from index [i] on.  [enumerate(all_columns)] reads
    the list by index, as it is at that moment; when [aliased],
    [selected_columns] is the very list [all_columns] (line 402) and a
    removal shortens the list under iteration.  [fuel] bounds the turns;
    the length of the list is enough ([checkbox_loop_fuel]). *)
Fixpoint checkbox_loop (widget : string → option bool) (aliased : bool)
    (fuel i : nat) (all_columns selected : list string) : list string :=
  match fuel with
  | O => selected
  | S fuel' =>
      match all_columns !! i with
      | None => selected
      | Some column =>
          let selected' := tick widget column selected in
          checkbox_loop widget aliased fuel' (S i)
            (if aliased then selected' else all_columns) selected'
      end
  end.

(** Lines 400-414: [selected_columns] after the checkboxes are drawn. *)
Definition column_selector (widget : string → option bool)
    (all_columns selected_columns : list string) : list string :=
  match selected_columns with
  | [] => checkbox_loop widget true (length all_columns) 0 all_columns all_columns
  | _ =>
      checkbox_loop widget false (length all_columns) 0 all_columns
        selected_columns
  end.

(** Lines 400-414 on the session, for the table [d] it holds. *)
Definition draw_selector (widget : string → option bool) (d : DataFrame)
    (app : App) : App :=
  {| app_df := app_df app; app_original_df := app_original_df app;
     app_selected_columns :=
       column_selector widget (columns d) (app_selected_columns app);
     app_date_columns := app_date_columns app;
     app_date_conversions := app_date_conversions app |}.

(** [df[names]]: the columns of these names, in this order; KeyError when
    one of them is no column. *)
Fixpoint getitems (d : DataFrame) (names : list string) : pyexn + DataFrame :=
  match names with
  | [] => inr []
  | c :: rest =>
      match getitem d c with
      | None => inl (LookupKeyError c)
      | Some s =>
          match getitems d rest with
          | inl e => inl e
          | inr d' => inr ((c, s) :: d')
          end
      end
  end.

(** Lines 416-418: the button that applies the selection; like the reset
    button it ends with [st.rerun()]. *)
Definition apply_selection (d : DataFrame) (app : App) : pyexn + App :=
  match getitems d (app_selected_columns app) with
  | inl e => inl e
  | inr d' => inr (set_df (Some d') app)
  end.

(** ** The date range filter (lines 369-396)

    [selected_tz] is what the sidebar leaves (lines 239-244): ['UTC'] by
    default, nothing for the local-time entry, or the zone chosen.  The
    table model keeps the instants of a date/time column and not whether
    pandas holds the column with a time zone; that is the argument
    [column_tz] of the section ([None]: a tz-naive column, whose Stamps
    are wall-clock times; [Some tz]: a tz-aware one, whose Stamps are UTC
    instants). *)

Definition day_ns : Z := 86400000000000.

(** The time zone database (pytz, behind pandas). *)
Record Zones : Type := {
  (** the UTC offset of a zone at an instant, in nanoseconds *)
  utcoffset : string → Z → Z;
  (** [pd.Timestamp(date).tz_localize(tz)]: the instant of a wall-clock
      time in a zone; it raises for a time the zone does not have, or has
      twice ([inl], with the text of the exception) *)
  localize : string → Z → string + Z
}.

(** [pd.Timestamp(date)]: midnight of that day. *)
Definition timestamp_of_day (day : Z) : Z := (day * day_ns)%Z.

(** The date [st.date_input] shows for a Timestamp given as its value. *)
Definition date_of (ns : Z) : Z := (ns / day_ns)%Z.

(** [(value >= lo) & (value <= hi)]; a comparison with NaT is False. *)
Definition between (lo hi : Z) (c : cell) : bool :=
  match c with
  | Stamp t => (lo <=? t)%Z && (t <=? hi)%Z
  | _ => false
  end.

(** The values at the positions where the mask holds. *)
Fixpoint select_mask {A : Type} (mask : list bool) (l : list A) : list A :=
  match mask, l with
  | b :: mask', x :: l' =>
      if b then x :: select_mask mask' l' else select_mask mask' l'
  | _, _ => []
  end.

(** [df.loc[mask]] *)
Definition loc (mask : list bool) (d : DataFrame) : DataFrame :=
  map (λ x, (x.1, mkSeries (dtype_of x.2) (select_mask mask (values x.2)))) d.

(** [series.notnull().any()] *)
Definition notnull_any (s : Series) : bool :=
  existsb (λ c, negb (is_missing c)) (values s).

(** [series.min()] and [series.max()] of a date/time column. *)
Definition stamp_fold (f : Z → Z → Z) (s : Series) : option Z :=
  foldr (λ c acc,
           match c, acc with
           | Stamp t, Some m => Some (f t m)
           | Stamp t, None => Some t
           | _, _ => acc
           end) None (values s).

Inductive date_section_result : Type :=
  | NoDateColumns
  | CannotFilter
  | Offered (min_date max_date : Z)
  | Filtered (d : DataFrame) (rows : nat).

(** The date [st.date_input] shows for a Timestamp of the column: its
    date, in the zone of the column when it has one. *)
Definition shown_date (zones : Zones) (column_tz : option string) (ns : Z)
  : Z :=
  match column_tz with
  | None => date_of ns
  | Some tz => date_of (ns + utcoffset zones tz ns)
  end.

(** Lines 385-390: the two Timestamps the column is compared with, tz-aware
    exactly when a zone is selected. *)
Definition bounds (zones : Zones) (selected_tz : option string)
    (start_date end_date : Z) : pyexn + Z * Z :=
  match selected_tz with
  | None => inr (timestamp_of_day start_date, timestamp_of_day end_date)
  | Some tz =>
      match localize zones tz (timestamp_of_day start_date) with
      | inl text => inl (LocalTimeError text)
      | inr lo =>
          match localize zones tz (timestamp_of_day end_date) with
          | inl text => inl (LocalTimeError text)
          | inr hi => inr (lo, hi)
          end
      end
  end.

(** Lines 369-396.  [selection] is the date column picked (line 371),
    [start_date] and [end_date] the dates entered ([None]: the default,
    the date of the least and of the greatest value), [pressed] the
    button of line 383.  The column picked holds Timestamps ([TypeError]
    stands for what a column without any would raise).  Comparing a
    tz-naive column with a tz-aware Timestamp, or a tz-aware column with a
    tz-naive one, raises TypeError (line 389). *)
Definition date_section (zones : Zones) (selected_tz column_tz : option string)
    (date_columns : list string) (selection : string)
    (start_date end_date : option Z) (pressed : bool) (d : DataFrame)
  : pyexn + date_section_result :=
  match date_columns with
  | [] => inr NoDateColumns
  | _ =>
      match getitem d selection with
      | None => inl (LookupKeyError selection)
      | Some s =>
          if notnull_any s then
            match stamp_fold Z.min s, stamp_fold Z.max s with
            | Some min_date, Some max_date =>
                if pressed then
                  match
                    bounds zones selected_tz
                      (default (shown_date zones column_tz min_date) start_date)
                      (default (shown_date zones column_tz max_date) end_date)
                  with
                  | inl e => inl e
                  | inr (lo, hi) =>
                      match selected_tz, column_tz with
                      | None, None | Some _, Some _ =>
                          let filtered :=
                            loc (map (between lo hi) (values s)) d in
                          inr (Filtered filtered (nrows filtered))
                      | _, _ => inl TypeError
                      end
                  end
                else inr (Offered min_date max_date)
            | _, _ => inl TypeError
            end
          else inr CannotFilter
      end
  end.

(** The section on the session: it is drawn when the session has a table
    (line 303), and a filter replaces that table (line 391). *)
Definition date_filter (zones : Zones) (selected_tz column_tz : option string)
    (selection : string) (start_date end_date : option Z) (pressed : bool)
    (app : App) : pyexn + App * option date_section_result :=
  match app_df app with
  | None => inr (app, None)
  | Some d =>
      match
        date_section zones selected_tz column_tz (app_date_columns app)
          selection start_date end_date pressed d
      with
      | inl e => inl e
      | inr (Filtered d' rows) =>
          inr (set_df (Some d') app, Some (Filtered d' rows))
      | inr res => inr (app, Some res)
      end
  end.

(** ** The chart options and the preparation of the chart data
    (lines 480-499, 526-537 and 544-587) *)

Module Chart.

(** The values of [chart_options] (lines 208-218). *)
Inductive chart_type : Type :=
  | Line | Bar | Scatter | Pie | Box | Heatmap | Area | Histogram | Timeseries.

(** The entries of the frequency selectbox (line 497), the first being
    the one that leaves the data as they are. *)
Inductive frequency : Type := Raw | Daily | Weekly | Monthly | Quarterly | Yearly.

(** The labels [agg_method] takes: none, mean, sum, maximum, minimum,
    count (lines 499, 529 and 537). *)
Inductive aggregation : Type :=
  | AggNone | AggMean | AggSum | AggMax | AggMin | AggCount.

#[global] Instance chart_type_eq_dec : EqDecision chart_type.
Proof. solve_decision. Defined.

#[global] Instance frequency_eq_dec : EqDecision frequency.
Proof. solve_decision. Defined.

#[global] Instance aggregation_eq_dec : EqDecision aggregation.
Proof. solve_decision. Defined.

(** The options of the two aggregation selectboxes (lines 499 and 529). *)
Definition timeseries_methods : list aggregation :=
  [AggMean; AggSum; AggMax; AggMin].

Definition large_table_methods : list aggregation :=
  [AggNone; AggMean; AggSum; AggCount].

(** What the user picked in the widgets that are drawn. *)
Record widgets : Type := mkWidgets {
  resample_choice : frequency;
  timeseries_method : aggregation;
  large_table_method : aggregation;
  sample_box : option bool
}.

(** The variables the options leave bound: [resample_freq] (bound for the
    time series chart only), [agg_method] and [sample_data]. *)
Record options : Type := mkOptions {
  resample_freq : option frequency;
  agg_method : aggregation;
  sample_data : bool
}.

(** Lines 495-499 and 526-537, for a table of [n] rows.  A name that is
    read while unbound raises NameError; [or] reads its second operand
    only when the first is false. *)
Definition configure (n : nat) (ct : chart_type) (w : widgets)
  : pyexn + options :=
  let resample_freq :=
    if decide (ct = Timeseries) then Some (resample_choice w) else None in
  if 10000 <? n then
    let agg_method :=
      if decide (ct = Timeseries) then timeseries_method w
      else large_table_method w in
    if decide (agg_method = AggNone) then
      match resample_freq with
      | None => inl (NameError "resample_freq")
      | Some f =>
          inr (mkOptions resample_freq agg_method
                 (default (bool_decide (f ≠ Raw)) (sample_box w)))
      end
    else
      inr (mkOptions resample_freq agg_method (default true (sample_box w)))
  else inr (mkOptions resample_freq AggNone false).

(** [freq_map] (lines 559-565) *)
Definition freq_map (f : frequency) : option string :=
  match f with
  | Raw => None
  | Daily => Some "D"
  | Weekly => Some "W"
  | Monthly => Some "M"
  | Quarterly => Some "Q"
  | Yearly => Some "Y"
  end.

(** The dictionary of lines 568-573 *)
Definition agg_func (a : aggregation) : option string :=
  match a with
  | AggMean => Some "mean"
  | AggSum => Some "sum"
  | AggMax => Some "max"
  | AggMin => Some "min"
  | AggNone | AggCount => None
  end.

(** What the [try] block of line 542 raises before the chart is drawn:
    KeyError for a column, KeyError for a label the dictionary of line 568
    does not hold, NameError, and what pandas raises in [resample] or in
    [groupby]. *)
Inductive chart_error : Type :=
  | ColumnKeyError (name : string)
  | MethodKeyError (label : aggregation)
  | UnboundName (name : string)
  | LibraryError (text : string).

(** What pandas answers to the two calls that work on the data of the
    chart ([Some text]: it raises), for the table, sampled or not, the
    columns and the function they are made with. *)
Record Pandas : Type := {
  (** [chart_data.set_index(x)[y].resample(rule).agg(func)] (line 575) *)
  resample_error :
    DataFrame → bool → string → string → string → string → option string;
  (** [chart_data.groupby([x, group]).agg({y: func})] (lines 583-585) *)
  groupby_error :
    DataFrame → bool → string → string → string → string → option string
}.

(** What is done to [chart_data] before it is drawn: sampled (line 548),
    resampled with a rule and a function (line 575), grouped with a
    function (lines 583-585). *)
Record preparation : Type := mkPreparation {
  sampled : bool;
  resampled : option (string * string);
  grouped : option string
}.

(** Lines 552-578: the rule and the function of the resampling, if any.
    Line 556 takes the x axis out of the columns before it reads the y
    axis: KeyError when the two are the same column. *)
Definition resampling (pd : Pandas) (d : DataFrame) (ct : chart_type)
    (o : options) (sampled : bool) (x_axis y_axis : string)
  : chart_error + option (string * string) :=
  if decide (ct = Timeseries) then
    match resample_freq o with
    | None => inl (UnboundName "resample_freq")
    | Some f =>
        match freq_map f with
        | None => inr None
        | Some rule =>
            match getitem d x_axis with
            | None => inl (ColumnKeyError x_axis)
            | Some s =>
                if decide (dtype_of s = Datetime) then
                  if decide (y_axis = x_axis) then inl (ColumnKeyError y_axis)
                  else
                    match getitem d y_axis with
                    | None => inl (ColumnKeyError y_axis)
                    | Some _ =>
                        match agg_func (agg_method o) with
                        | None => inl (MethodKeyError (agg_method o))
                        | Some func =>
                            match
                              resample_error pd d sampled x_axis y_axis rule func
                            with
                            | Some text => inl (LibraryError text)
                            | None => inr (Some (rule, func))
                            end
                        end
                    end
                else inr None
            end
        end
    end
  else inr None.

(** Lines 581-587: the function of the grouping, if any; [group_col] is
    [None] for the first entry of its selectbox. *)
Definition grouping (ct : chart_type) (o : options)
    (group_col : option string) : option (string * string) :=
  if bool_decide (agg_method o ≠ AggNone)
     && bool_decide (ct ∈ [Line; Bar; Area]) then
    match group_col with
    | Some column =>
        Some (column,
              match agg_method o with
              | AggMean => "mean"
              | AggSum => "sum"
              | _ => "count"
              end)
    | None => None
    end
  else None.

(** Lines 544-587, for the chart types that have an x axis and a y
    axis. *)
Definition prepare (pd : Pandas) (d : DataFrame) (ct : chart_type)
    (o : options) (x_axis y_axis : string) (group_col : option string)
  : chart_error + preparation :=
  let sampled := sample_data o && (10000 <? nrows d) in
  match resampling pd d ct o sampled x_axis y_axis with
  | inl e => inl e
  | inr resampled =>
      match grouping ct o group_col with
      | None => inr (mkPreparation sampled resampled None)
      | Some (column, func) =>
          match groupby_error pd d sampled x_axis column y_axis func with
          | Some text => inl (LibraryError text)
          | None => inr (mkPreparation sampled resampled (Some func))
          end
      end
  end.

End Chart.

(** ** Example sessions *)

Module Sessions.

(** The session before any table is loaded (lines 172-187). *)
Definition fresh : App :=
  {| app_df := None; app_original_df := None; app_selected_columns := [];
     app_date_columns := []; app_date_conversions := ∅ |}.

(** The session after the table of [ts] and [d] is uploaded. *)
Definition uploaded : App :=
  {| app_df := Some (df Examples.both_converted);
     app_original_df := Some Examples.both;
     app_selected_columns := [];
     app_date_columns := ["ts_datetime"; "d"];
     app_date_conversions := {["ts" := "ts_datetime"]} |}.

(** A table with a column that holds no value. *)
Definition with_gap : DataFrame :=
  [("d", Examples.three_dates);
   ("e", mkSeries Numeric [Missing; Missing; Missing])].

(** Five visits: at 01:00 of day 0 and of day 1, one without a date, at
    00:00 and at 01:00 of day 3. *)
Definition when : Series :=
  mkSeries Datetime
    [Stamp 3600000000000; Stamp 90000000000000; Missing;
     Stamp 259200000000000; Stamp 262800000000000].

Definition visits : DataFrame :=
  [("when", when);
   ("n", mkSeries Numeric [Num 1; Num 2; Num 3; Num 4; Num 5])].

(** The session that holds the visits, with [when] as its date column. *)
Definition visiting : App :=
  {| app_df := Some visits; app_original_df := Some visits;
     app_selected_columns := []; app_date_columns := ["when"];
     app_date_conversions := ∅ |}.

(** The visits of days 0 to 3, and of days 1 to 3. *)
Definition visits_0_3 : DataFrame :=
  [("when", mkSeries Datetime [Stamp 3600000000000; Stamp 90000000000000;
                               Stamp 259200000000000]);
   ("n", mkSeries Numeric [Num 1; Num 2; Num 4])].

Definition visits_1_3 : DataFrame :=
  [("when", mkSeries Datetime [Stamp 90000000000000; Stamp 259200000000000]);
   ("n", mkSeries Numeric [Num 2; Num 4])].

(** Only the box of [b] holds a state, unticked. *)
Definition b_unticked (column : string) : option bool :=
  if String.eqb column "b" then Some false else None.

(** Every box holds a state, unticked. *)
Definition all_unticked (column : string) : option bool := Some false.

(** Three chunks of three rows. *)
Definition chunks : list (list nat) := [[1; 2; 3]; [4; 5; 6]; [7; 8; 9]].

(** A table of 10001 rows. *)
Definition long_table : DataFrame :=
  [("when", mkSeries Datetime (replicate 10001 (Stamp 0)));
   ("n", mkSeries Numeric (replicate 10001 (Num 1)))].

(** The zone database cut down to UTC: no offset, and every wall-clock
    time is its own instant. *)
Definition utc : Zones :=
  {| utcoffset := λ _ _, 0%Z; localize := λ _ t, inr t |}.

(** A pandas that accepts the two calls on the chart data. *)
Definition accepting : Chart.Pandas :=
  {| Chart.resample_error := λ _ _ _ _ _ _, None;
     Chart.groupby_error := λ _ _ _ _ _ _, None |}.

(** The session after the sample-data button gave the table of [ts] and
    [d]. *)
Definition generated : App := uploaded.

End Sessions.

(** ** Predicates of the further properties *)

(** Two states that differ in the generator at most. *)
Definition same_tables (st st' : State) : Prop :=
  df st = df st' ∧ date_cols st = date_cols st' ∧
  converted_cols st = converted_cols st'.

Definition same_outcome (o o' : outcome) : Prop :=
  match o, o' with
  | Returned st, Returned st' => same_tables st st'
  | Raised e st, Raised e' st' => e = e' ∧ same_tables st st'
  | _, _ => False
  end.

(** What the loop of line 407 leaves of a list it iterates and shortens at
    the same time: after an unticked column, which is removed, the column
    that follows takes its index and is passed over. *)
Fixpoint skipping (widget : string → option bool) (l : list string)
  : list string :=
  match l with
  | [] => []
  | c :: rest =>
      if checkbox widget true c then c :: skipping widget rest
      else
        match rest with
        | [] => []
        | c' :: rest' => c' :: skipping widget rest'
        end
  end.

(** * Proofs *)

(** A decidable statement about concrete values, settled by evaluation. *)
Ltac by_compute := apply (bool_decide_unpack _); vm_compute; exact I.

(** ** Tables: reading and writing columns *)

Section Tables.

Implicit Types (d : DataFrame) (s : Series) (name : string).

Lemma getitem_Some_elem d name s :
  getitem d name = Some s → (name, s) ∈ d.
Proof.
  induction d as [|[n s0] d IH]; simpl; [done|].
  case_decide; intros Hg.
  - simplify_eq. left.
  - right. auto.
Qed.

Lemma getitem_is_Some d name : is_Some (getitem d name) ↔ name ∈ columns d.
Proof.
  unfold columns. induction d as [|[n s0] d IH]; simpl.
  - split; [intros [? ?]; done | intros H; inversion H].
  - case_decide; subst.
    + split; [intros _; left | eauto].
    + rewrite IH. rewrite elem_of_cons. naive_solver.
Qed.

Lemma getitem_None d name : getitem d name = None ↔ name ∉ columns d.
Proof. rewrite <- getitem_is_Some, eq_None_not_Some. done. Qed.

Lemma getitem_setitem_eq d name s : getitem (setitem d name s) name = Some s.
Proof.
  induction d as [|[n s0] d IH]; simpl.
  - by rewrite decide_True.
  - case_decide; simpl; [by rewrite decide_True | by rewrite decide_False].
Qed.

Lemma getitem_setitem_ne d name name' s :
  name ≠ name' → getitem (setitem d name s) name' = getitem d name'.
Proof.
  intros Hne. induction d as [|[n s0] d IH]; simpl.
  - by rewrite decide_False.
  - case_decide; simpl; subst.
    + by rewrite !decide_False.
    + case_decide; done.
Qed.

Lemma getitem_setitem d name name' s :
  getitem (setitem d name s) name' =
  if decide (name = name') then Some s else getitem d name'.
Proof.
  case_decide; subst; [apply getitem_setitem_eq | by apply getitem_setitem_ne].
Qed.

(** Writing an existing column keeps the column index as it is. *)
Lemma columns_setitem_old d name s :
  name ∈ columns d → columns (setitem d name s) = columns d.
Proof.
  unfold columns. induction d as [|[n s0] d IH]; simpl; intros H.
  - inversion H.
  - case_decide; simpl; subst; [done|].
    f_equal. apply IH. apply elem_of_cons in H as [?|?]; done.
Qed.

(** Writing a new column adds its name after the last one. *)
Lemma columns_setitem_new d name s :
  name ∉ columns d → columns (setitem d name s) = columns d ++ [name].
Proof.
  unfold columns. induction d as [|[n s0] d IH]; simpl; intros Hn; [done|].
  apply not_elem_of_cons in Hn as [Hne Hd].
  rewrite decide_False by done. simpl. f_equal. by apply IH.
Qed.

Lemma columns_setitem d name s :
  columns (setitem d name s) =
  if decide (name ∈ columns d) then columns d else columns d ++ [name].
Proof.
  case_decide; [by apply columns_setitem_old | by apply columns_setitem_new].
Qed.

Lemma columns_setitem_prefix d name s :
  columns d `prefix_of` columns (setitem d name s).
Proof.
  rewrite columns_setitem. case_decide; [done | by apply prefix_app_r].
Qed.

Lemma elem_of_columns_setitem d name s c :
  c ∈ columns (setitem d name s) ↔ c = name ∨ c ∈ columns d.
Proof.
  rewrite columns_setitem. case_decide.
  - naive_solver.
  - rewrite elem_of_app, list_elem_of_singleton. naive_solver.
Qed.

Lemma NoDup_columns_setitem d name s :
  NoDup (columns d) → NoDup (columns (setitem d name s)).
Proof.
  intros H. rewrite columns_setitem. case_decide; [done|].
  apply NoDup_app. split_and!; [done | | apply NoDup_singleton].
  intros x Hx Hx'. apply list_elem_of_singleton in Hx'. by subst.
Qed.

Lemma length_setitem d name s :
  length (setitem d name s) =
  if decide (name ∈ columns d) then length d else S (length d).
Proof.
  rewrite <- !(length_fmap fst). fold (columns (setitem d name s)).
  fold (columns d). rewrite columns_setitem.
  case_decide; [done|]. rewrite length_app. simpl. lia.
Qed.

(** What a table holds after a write: the new column, or what it held. *)
Lemma elem_of_setitem d name s c x :
  (c, x) ∈ setitem d name s → (c = name ∧ x = s) ∨ (c, x) ∈ d.
Proof.
  induction d as [|[n s0] d IH]; simpl.
  - intros H. apply list_elem_of_singleton in H. simplify_eq. by left.
  - case_decide; subst; intros Hin; apply elem_of_cons in Hin as [Hin|Hin].
    + simplify_eq. by left.
    + right. by right.
    + simplify_eq. right. left.
    + destruct (IH Hin) as [?|?]; [by left | right; by right].
Qed.

End Tables.

Lemma string_length_app (a b : string) :
  String.length (a +:+ b) = String.length a + String.length b.
Proof. induction a as [|x a IH]; simpl; [done | by rewrite IH]. Qed.

(** The name of a derived column is never the name it derives from. *)
Lemma datetime_name_ne (col : string) : datetime_name col ≠ col.
Proof.
  unfold datetime_name. intros H.
  apply (f_equal String.length) in H.
  rewrite string_length_app in H. simpl in H. lia.
Qed.

(** ** Sampling *)

Lemma sample_length (r : Rng) (n : nat) (xs : list cell) :
  length (sample r n xs).1 = min n (length xs).
Proof.
  revert r xs. induction n as [|n IH]; intros r xs; [done|].
  cbn [sample].
  destruct (xs !! (hd 0 r mod length xs)) as [x|] eqn:Hx.
  - specialize (IH (tl r) (delete (hd 0 r mod length xs) xs)).
    destruct (sample (tl r) n (delete (hd 0 r mod length xs) xs)) as [ys r'].
    cbn [fst length] in *. rewrite IH, length_delete by eauto.
    apply lookup_lt_Some in Hx. lia.
  - apply lookup_ge_None in Hx. cbn [fst length].
    destruct (decide (length xs = 0)) as [Hlen|Hlen]; [lia|].
    pose proof (Nat.mod_upper_bound (hd 0 r) (length xs) Hlen). lia.
Qed.

(** What is drawn is drawn from the values, none of them twice. *)
Lemma sample_submseteq (r : Rng) (n : nat) (xs : list cell) :
  (sample r n xs).1 ⊆+ xs.
Proof.
  revert r xs. induction n as [|n IH]; intros r xs; simpl.
  - apply submseteq_nil_l.
  - destruct (xs !! (hd 0 r mod length xs)) as [x|] eqn:Hx;
      [|apply submseteq_nil_l].
    specialize (IH (tl r) (delete (hd 0 r mod length xs) xs)).
    destruct (sample (tl r) n (delete (hd 0 r mod length xs) xs)) as [ys r'].
    simpl in *. rewrite (delete_Permutation xs _ x Hx).
    by apply submseteq_skip.
Qed.

Lemma sample_elem_of (r : Rng) (n : nat) (xs : list cell) (c : cell) :
  c ∈ (sample r n xs).1 → c ∈ xs.
Proof. intros H. by eapply elem_of_submseteq, sample_submseteq. Qed.

(** Every choice of [n] of the values, in any order, is the sample of some
    state of the generator. *)
Lemma sample_complete (n : nat) (xs ys : list cell) :
  ys ⊆+ xs → length ys = min n (length xs) →
  ∃ r, (sample r n xs).1 = ys.
Proof.
  revert xs ys. induction n as [|n IH]; intros xs ys Hsub Hlen.
  - exists []. destruct ys; [done|]. cbn [length] in Hlen. lia.
  - destruct ys as [|y ys].
    + exists []. cbn [length] in Hlen.
      destruct xs as [|x xs]; [done|]. cbn [length] in Hlen. lia.
    + assert (y ∈ xs) as Hy.
      { eapply elem_of_submseteq; [|exact Hsub]. left. }
      apply list_elem_of_lookup in Hy as [i Hi].
      pose proof (lookup_lt_Some _ _ _ Hi) as Hlt.
      assert (ys ⊆+ delete i xs) as Hsub'.
      { rewrite (delete_Permutation xs i y Hi) in Hsub.
        by apply (submseteq_app_inv_l _ _ [y]). }
      destruct (IH (delete i xs) ys Hsub') as [r Hr].
      { rewrite length_delete by eauto. cbn [length] in Hlen. lia. }
      exists (i :: r). cbn [sample hd tl].
      rewrite Nat.mod_small by done. rewrite Hi.
      destruct (sample r n (delete i xs)) as [zs r']. simpl in *. by subst.
Qed.

Lemma sample_nil (r : Rng) (n : nat) : sample r n [] = ([], r).
Proof. by destruct n. Qed.

(** The sample of line 93 is empty exactly when nothing is left to draw. *)
Lemma sample_dropna_nil (r : Rng) (s : Series) :
  (sample r (min 10 (length (dropna s))) (dropna s)).1 = [] ↔ dropna s = [].
Proof.
  rewrite <- !length_zero_iff_nil, sample_length. lia.
Qed.

Lemma dropna_nil (s : Series) :
  dropna s = [] ↔ Forall (λ c, c = Missing) (values s).
Proof.
  unfold dropna. induction (values s) as [|c l IH]; [by split|].
  rewrite Forall_cons, <- IH.
  destruct c; [rewrite filter_cons_False by done | rewrite filter_cons_True by done ..];
    naive_solver.
Qed.

Lemma elem_of_dropna (s : Series) (c : cell) :
  c ∈ dropna s ↔ c ≠ Missing ∧ c ∈ values s.
Proof.
  unfold dropna. rewrite list_elem_of_filter. destruct c; naive_solver.
Qed.

(** ** The threshold on floats *)

(** On the sample sizes of line 93 (at most 10 values, of which at most all
    parse), the float comparison [date_count / len(sample) > 0.7] decides
    [date_count / len(sample) > 7/10] on the rationals: the quotient 7/10
    rounds to the very float the literal 0.7 denotes. *)
Lemma truediv_gt_0_7 (k n : nat) :
  k ≤ n → 0 < n → n ≤ 10 →
  gt_0_7 (PrimFloat.div (float_of_nat k) (float_of_nat n)) =
  bool_decide (7 * n < 10 * k).
Proof.
  intros Hk H0 Hn.
  do 11 (destruct n as [|n];
         [ try lia;
           do 11 (destruct k as [|k]; [vm_compute; reflexivity|]); lia |]).
  lia.
Qed.

Lemma truediv_all_parsed (n : nat) :
  0 < n → n ≤ 10 →
  gt_0_7 (PrimFloat.div (float_of_nat n) (float_of_nat n)) = true.
Proof.
  intros H0 Hn. rewrite truediv_gt_0_7 by lia.
  apply bool_decide_eq_true. lia.
Qed.

(** ** What [pd.to_datetime] returns *)

Section Conversion.

Variable lib : Library.

Implicit Types (s converted : Series) (h : how) (e : errors).

Lemma read_cell_stamp h s c c' :
  read_cell lib h s c = Some c' → stamp_or_missing c'.
Proof.
  destruct c; simpl; [by intros [= <-]|..];
    (destruct (convert lib h s _); simpl; [by intros [= <-] | done]).
Qed.

Lemma read_cell_default_stamp h s c :
  stamp_or_missing (default Missing (read_cell lib h s c)).
Proof.
  destruct (read_cell lib h s c) eqn:H; simpl; [|done].
  by eapply read_cell_stamp.
Qed.

Lemma read_cell_present h s c c' :
  read_cell lib h s c = Some c' → c ≠ Missing → c' ≠ Missing.
Proof.
  destruct c; simpl; [done|..];
    (destruct (convert lib h s _); simpl; [by intros [= <-] | done]).
Qed.

(** The result has one value per value of the column, each a Timestamp or
    NaT, and is of date/time dtype. *)
Lemma to_datetime_values s h e converted :
  to_datetime lib s h e = inr converted →
  converted =
  mkSeries Datetime (map (λ c, default Missing (read_cell lib h s c)) (values s)).
Proof.
  unfold to_datetime. destruct (refuses lib h s); [done|].
  destruct e; [|by intros [= <-]].
  destruct (list_find _ _) as [[? ?]|]; [done | by intros [= <-]].
Qed.

Lemma to_datetime_dtype s h e converted :
  to_datetime lib s h e = inr converted → dtype_of converted = Datetime.
Proof. intros H. by rewrite (to_datetime_values _ _ _ _ H). Qed.

Lemma to_datetime_length s h e converted :
  to_datetime lib s h e = inr converted →
  length (values converted) = length (values s).
Proof.
  intros H. rewrite (to_datetime_values _ _ _ _ H). simpl.
  by rewrite length_map.
Qed.

Lemma to_datetime_typed s h e converted :
  to_datetime lib s h e = inr converted → typed_datetime converted.
Proof.
  intros H _. rewrite (to_datetime_values _ _ _ _ H). simpl.
  apply Forall_map, Forall_forall. intros c _. apply read_cell_default_stamp.
Qed.

(** Under [errors='coerce'] only a refused call raises. *)
Lemma to_datetime_coerce s h :
  to_datetime lib s h Coerce =
  match refuses lib h s with
  | Some text => inl (ConversionError text)
  | None =>
      inr (mkSeries Datetime
             (map (λ c, default Missing (read_cell lib h s c)) (values s)))
  end.
Proof. reflexivity. Qed.

(** Under [errors='raise'] a result means that every value was read. *)
Lemma to_datetime_raise_all s h converted :
  to_datetime lib s h Raise = inr converted →
  Forall (λ c, is_Some (read_cell lib h s c)) (values s).
Proof.
  unfold to_datetime. destruct (refuses lib h s); [done|].
  destruct (list_find _ _) as [[? ?]|] eqn:Hf; [done|]. intros _.
  apply list_find_None in Hf. eapply Forall_impl; [exact Hf|].
  intros c Hc. simpl in Hc. by apply not_eq_None_Some.
Qed.

(** ... so a present value stays present in the result. *)
Lemma to_datetime_raise_present s h converted :
  to_datetime lib s h Raise = inr converted →
  dropna s ≠ [] → dropna converted ≠ [].
Proof.
  intros H Hs.
  assert (∃ c, c ∈ dropna s) as [c Hc].
  { destruct (dropna s) as [|c l]; [done|]. exists c. left. }
  apply elem_of_dropna in Hc as [Hc Hin].
  pose proof (to_datetime_raise_all _ _ _ H) as Hall.
  rewrite Forall_forall in Hall. destruct (Hall c Hin) as [c' Hc'].
  intros Hnil.
  assert (c' ∈ dropna converted) as Hin'; [|rewrite Hnil in Hin'; inversion Hin'].
  apply elem_of_dropna. split; [by eapply read_cell_present|].
  rewrite (to_datetime_values _ _ _ _ H). simpl.
  apply list_elem_of_fmap. exists c. by rewrite Hc'.
Qed.

End Conversion.

(** ** The cases of the loop body *)

Section Body.

Variable lib : Library.

Implicit Types (st : State) (col : string) (s converted : Series).

Lemma sample_branch_unfold col s st :
  sample_branch lib col s st =
  match truediv (count_parsed lib (drawn st s).1) (length (drawn st s).1) with
  | inl e => Raised e (with_rng (drawn st s).2 st)
  | inr q =>
      if gt_0_7 q then
        match to_datetime lib s Infer Coerce with
        | inr converted =>
            Returned (convert_in_place col converted (with_rng (drawn st s).2 st))
        | inl _ => Returned (with_rng (drawn st s).2 st)
        end
      else Returned (with_rng (drawn st s).2 st)
  end.
Proof.
  unfold sample_branch, drawn.
  by destruct (sample (rng st) (min 10 (length (dropna s))) (dropna s)).
Qed.

Lemma timestamp_branch_Some col s st st' :
  timestamp_branch lib col s st = Some st' →
  is_numeric_dtype s = true ∧ max_gt_1e9 s = true ∧
  ((∃ converted, to_datetime lib s Unit_s Raise = inr converted ∧
                 st' = derive col converted st) ∨
   (∃ e converted, to_datetime lib s Unit_s Raise = inl e ∧
                   to_datetime lib s Unit_ms Raise = inr converted ∧
                   st' = derive col converted st)).
Proof.
  unfold timestamp_branch, try_unit.
  destruct (is_numeric_dtype s); [|done].
  destruct (max_gt_1e9 s); [|done]. simpl.
  destruct (to_datetime lib s Unit_s Raise) as [e|c1] eqn:H1.
  - destruct (to_datetime lib s Unit_ms Raise) as [e2|c2] eqn:H2; [done|].
    intros [= <-]. split_and!; [done..|]. right. by exists e, c2.
  - intros [= <-]. split_and!; [done..|]. left. by exists c1.
Qed.

Lemma loop_body_case col st : body_case lib col st (loop_body lib col st).
Proof.
  unfold loop_body.
  destruct (getitem (df st) col) as [s|] eqn:Hs; [|by constructor].
  destruct (timestamp_branch lib col s st) as [st'|] eqn:Ht.
  - apply timestamp_branch_Some in Ht
      as (Hnum & Hmax & [(c & Hc & ->)|(e & c & He & Hc & ->)]).
    + by eapply case_seconds.
    + by eapply case_milliseconds.
  - rewrite sample_branch_unfold. unfold truediv.
    destruct (length (drawn st s).1) eqn:Hlen.
    + apply length_zero_iff_nil in Hlen. by eapply case_empty_sample.
    + assert ((drawn st s).1 ≠ []) as Hne.
      { intros Hnil. by rewrite Hnil in Hlen. }
      rewrite <- Hlen.
      destruct (gt_0_7 _) eqn:Hgt.
      * destruct (to_datetime lib s Infer Coerce) as [e|c] eqn:Hc.
        -- eapply case_left_alone; eauto.
        -- by eapply case_in_place.
      * eapply case_left_alone; eauto.
Qed.

Lemma loop_body_one_write col st :
  one_write lib (df st) (df (state_of (loop_body lib col st))).
Proof.
  destruct (loop_body_case col st) as
    [H|s c Hs _ _ Hc|s e c Hs _ _ _ Hc|s Hs _ _|s c Hs _ _ _ Hc|s Hs _ _ _];
    simpl; try (by left); right.
  all: apply getitem_Some_elem in Hs.
  all: assert (s ∈ (df st).*2) as Hin
    by (apply list_elem_of_fmap; by exists (col, s)).
  - by exists (datetime_name col), s, c, Unit_s, Raise.
  - by exists (datetime_name col), s, c, Unit_ms, Raise.
  - by exists col, s, c, Infer, Coerce.
Qed.

End Body.

(** ** Reasoning about the loop *)

Section Loop.

Variable lib : Library.

Implicit Types (st : State) (col : string) (cols : list string).

(** Induction over the iterations, for a property that may depend on the
    columns still to be visited. *)
Lemma for_each_ind (I : list string → State → Prop) (Q : outcome → Prop) :
  (∀ st, I [] st → Q (Returned st)) →
  (∀ col rest st, I (col :: rest) st →
     match loop_body lib col st with
     | Returned st' => I rest st'
     | Raised e st' => Q (Raised e st')
     end) →
  ∀ cols st, I cols st → Q (for_each lib cols st).
Proof.
  intros Hend Hstep cols. induction cols as [|col rest IH]; intros st HI.
  - by apply Hend.
  - simpl. specialize (Hstep col rest st HI).
    destruct (loop_body lib col st); [by apply IH | done].
Qed.

(** A property of the state that every iteration keeps holds when the loop
    is left, by [return] or by an exception. *)
Lemma for_each_preserves (I : State → Prop) :
  (∀ col st, I st → I (state_of (loop_body lib col st))) →
  ∀ cols st, I st → I (state_of (for_each lib cols st)).
Proof.
  intros Hstep cols st HI.
  apply (for_each_ind (λ _, I) (λ o, I (state_of o))); [done| |done].
  intros col rest st0 HI0. specialize (Hstep col st0 HI0).
  by destruct (loop_body lib col st0).
Qed.

(** The same for a relation between the state before and the state after. *)
Lemma for_each_related (R : State → State → Prop) :
  (∀ st, R st st) → (∀ a b c, R a b → R b c → R a c) →
  (∀ col st, R st (state_of (loop_body lib col st))) →
  ∀ cols st, R st (state_of (for_each lib cols st)).
Proof.
  intros Hrefl Htrans Hstep cols st.
  apply (for_each_preserves (R st)); [|done].
  intros col st0 H0. eapply Htrans; [exact H0 | apply Hstep].
Qed.

Lemma one_write_prefix (d d' : DataFrame) :
  one_write lib d d' → columns d `prefix_of` columns d'.
Proof.
  intros [->|(name & s & c & h & e & _ & _ & ->)];
    [done | apply columns_setitem_prefix].
Qed.

(** No iteration removes or moves a column. *)
Lemma loop_body_columns col st :
  columns (df st) `prefix_of` columns (df (state_of (loop_body lib col st))).
Proof. apply one_write_prefix, loop_body_one_write. Qed.

Lemma for_each_columns cols st :
  columns (df st) `prefix_of` columns (df (state_of (for_each lib cols st))).
Proof.
  apply (for_each_related
           (λ a b, columns (df a) `prefix_of` columns (df b))); [done| |].
  - intros a b c ? ?. by etrans.
  - apply loop_body_columns.
Qed.

Lemma one_write_rows (n : nat) (d d' : DataFrame) :
  one_write lib d d' →
  Forall (λ x, length (values x.2) = n) d →
  Forall (λ x, length (values x.2) = n) d'.
Proof.
  intros [->|(name & s & c & h & e & Hs & Hc & ->)] Hd; [done|].
  rewrite Forall_forall in Hd |- *. intros [k x] Hx.
  apply elem_of_setitem in Hx as [[-> ->]|Hx]; [|by apply Hd]. simpl.
  rewrite (to_datetime_length _ _ _ _ _ Hc).
  apply list_elem_of_fmap in Hs as ([k' s'] & -> & Hin). by apply (Hd _ Hin).
Qed.

Lemma for_each_rows (n : nat) cols st :
  Forall (λ x, length (values x.2) = n) (df st) →
  Forall (λ x, length (values x.2) = n) (df (state_of (for_each lib cols st))).
Proof.
  apply (for_each_preserves
           (λ st, Forall (λ x, length (values x.2) = n) (df st))).
  intros col st0. apply one_write_rows, loop_body_one_write.
Qed.

(** What a column holds after an iteration: what it held, or a date/time
    column. *)
Lemma one_write_getitem (d d' : DataFrame) (c : string) (s : Series) :
  one_write lib d d' → getitem d c = Some s →
  ∃ s', getitem d' c = Some s' ∧ (s' = s ∨ dtype_of s' = Datetime).
Proof.
  intros [->|(name & s0 & conv & h & e & _ & Hc & ->)] Hs; [by eauto|].
  rewrite getitem_setitem. case_decide; [|by eauto].
  exists conv. split; [done|]. right. by eapply to_datetime_dtype.
Qed.

Lemma for_each_getitem cols st (c : string) (s : Series) :
  getitem (df st) c = Some s →
  ∃ s', getitem (df (state_of (for_each lib cols st))) c = Some s' ∧
        (s' = s ∨ dtype_of s' = Datetime).
Proof.
  intros Hs.
  apply (for_each_preserves
    (λ st', ∃ s', getitem (df st') c = Some s' ∧
                  (s' = s ∨ dtype_of s' = Datetime))); [|by eauto].
  intros col st0 (s0 & Hs0 & Hor).
  destruct (one_write_getitem _ _ c s0 (loop_body_one_write lib col st0) Hs0)
    as (s' & Hs' & Hor').
  exists s'. split; [done|]. destruct Hor' as [->|?]; [done | by right].
Qed.

(** A date/time column stays one. *)
Lemma for_each_datetime cols st (c : string) (s : Series) :
  getitem (df st) c = Some s → dtype_of s = Datetime →
  ∃ s', getitem (df (state_of (for_each lib cols st))) c = Some s' ∧
        dtype_of s' = Datetime.
Proof.
  intros Hs Hd. destruct (for_each_getitem cols st c s Hs) as (s' & Hs' & Hor).
  exists s'. split; [done|]. by destruct Hor as [->|?].
Qed.

(** The date/time columns of the table hold Timestamps and NaT only. *)
Lemma one_write_typed (d d' : DataFrame) :
  one_write lib d d' →
  Forall (λ x, typed_datetime x.2) d → Forall (λ x, typed_datetime x.2) d'.
Proof.
  intros [->|(name & s & c & h & e & Hs & Hc & ->)] Hd; [done|].
  rewrite Forall_forall in Hd |- *. intros [k x] Hx.
  apply elem_of_setitem in Hx as [[-> ->]|Hx]; [|by apply Hd]. simpl.
  by eapply to_datetime_typed.
Qed.

Lemma for_each_typed cols st :
  Forall (λ x, typed_datetime x.2) (df st) →
  Forall (λ x, typed_datetime x.2) (df (state_of (for_each lib cols st))).
Proof.
  apply (for_each_preserves (λ st, Forall (λ x, typed_datetime x.2) (df st))).
  intros col st0. apply one_write_typed, loop_body_one_write.
Qed.

Lemma loop_body_conversions col st :
  conversions_recorded st →
  conversions_recorded (state_of (loop_body lib col st)).
Proof.
  intros Hst.
  assert (∀ conv, conversions_recorded (derive col conv st)) as Hderive.
  { intros conv k v. simpl. rewrite lookup_insert. case_decide.
    - intros [= <-]. subst. split; [done|].
      apply elem_of_columns_setitem. by left.
    - intros Hk. destruct (Hst k v Hk) as [-> Hin]. split; [done|].
      apply elem_of_columns_setitem. by right. }
  destruct (loop_body_case lib col st) as
    [H|s c Hs _ _ Hc|s e c Hs _ _ _ Hc|s Hs _ _|s c Hs _ _ _ Hc|s Hs _ _ _];
    simpl; try done.
  intros k v Hk. simpl in *. destruct (Hst k v Hk) as [-> Hin].
  split; [done|]. apply elem_of_columns_setitem. by right.
Qed.

Lemma for_each_conversions cols st :
  conversions_recorded st →
  conversions_recorded (state_of (for_each lib cols st)).
Proof. apply for_each_preserves. intros col st0. apply loop_body_conversions. Qed.

End Loop.

(** ** Columns without a value *)

Lemma series_max_all_missing (vs : list cell) (dt : dtype) :
  Forall (λ c, c = Missing) vs → series_max (mkSeries dt vs) = None.
Proof.
  unfold series_max. simpl. induction 1 as [|c l -> _ IH]; simpl; [done|].
  by rewrite IH.
Qed.

(** A column of missing values only reaches the division of line 105 with
    an empty sample, whatever the library and the generator. *)
Lemma loop_body_all_missing (lib : Library) (col : string) (s : Series)
    (st : State) :
  getitem (df st) col = Some s →
  Forall (λ c, c = Missing) (values s) →
  loop_body lib col st = Raised ZeroDivisionError st.
Proof.
  intros Hs Hall. unfold loop_body. rewrite Hs.
  assert (timestamp_branch lib col s st = None) as ->.
  { unfold timestamp_branch, max_gt_1e9. destruct s as [dt vs].
    rewrite series_max_all_missing by done. by rewrite andb_false_r. }
  rewrite sample_branch_unfold. unfold drawn.
  apply dropna_nil in Hall. rewrite Hall. simpl. by destruct st.
Qed.

(** C1.  A table whose only column holds missing values only: the call does
    not complete, it raises ZeroDivisionError at line 105 (the sample is
    empty and [date_count / len(sample)] is [0 / 0]), for every library,
    generator state, column name, dtype and number of rows. *)
Theorem all_missing_column_raises (lib : Library) (r : Rng) (name : string)
    (dt : dtype) (n : nat) :
  auto_convert_datetime lib r [(name, mkSeries dt (replicate n Missing))] =
  Raised ZeroDivisionError
    (initial r [(name, mkSeries dt (replicate n Missing))]).
Proof.
  unfold auto_convert_datetime. simpl.
  rewrite (loop_body_all_missing lib name (mkSeries dt (replicate n Missing)));
    [done | simpl; by rewrite decide_True | simpl].
  apply Forall_replicate. done.
Qed.

(** C2.  With the reference library, on the table
    [d = ["2023-01-01", "2023-01-02"], e = [NaN, NaN],
     ts = [1700000000, 1700086400]]: the first column is converted, the
    second raises ZeroDivisionError out of the function, and the third, a
    column of valid timestamps, is never visited. *)
Theorem failure_in_one_column_ends_detection :
  auto_convert_datetime Reference.lib []
    [("d", mkSeries Object [Str "2023-01-01"; Str "2023-01-02"]);
     ("e", mkSeries Numeric [Missing; Missing]);
     ("ts", mkSeries Numeric [Num 1700000000; Num 1700086400])] =
  Raised ZeroDivisionError
    {| df := [("d", mkSeries Datetime [Stamp 1672531200000000000;
                                       Stamp 1672617600000000000]);
              ("e", mkSeries Numeric [Missing; Missing]);
              ("ts", mkSeries Numeric [Num 1700000000; Num 1700086400])];
       date_cols := ["d"]; converted_cols := ∅; rng := [] |}.
Proof. vm_compute. reflexivity. Qed.

(** More generally, on a table with a column of missing values only (one
    that no derived column overwrites), the call never returns. *)
Lemma all_missing_column_never_returns (lib : Library) (r : Rng)
    (d : DataFrame) (c : string) (s : Series) :
  getitem d c = Some s →
  Forall (λ x, x = Missing) (values s) →
  (∀ y, y ∈ columns d → c ≠ datetime_name y) →
  ∃ st, auto_convert_datetime lib r d = Raised ZeroDivisionError st.
Proof.
  intros Hs Hall Hname. unfold auto_convert_datetime.
  apply (for_each_ind lib
    (λ rest st, c ∈ rest ∧ getitem (df st) c = Some s ∧
                (∀ y, y ∈ rest → c ≠ datetime_name y) ∧
                (∀ y, y ∈ rest → y ∈ columns (df st)))
    (λ o, ∃ st, o = Raised ZeroDivisionError st)).
  - intros st (Hin & _). inversion Hin.
  - intros col rest st (Hin & Hget & Hne & Hcols).
    destruct (decide (col = c)) as [->|Hcol].
    { rewrite (loop_body_all_missing lib c s st Hget Hall). by eexists. }
    apply elem_of_cons in Hin as [?|Hin]; [done|].
    pose proof (loop_body_columns lib col st) as Hpre.
    assert (c ≠ datetime_name col) as Hdn by (apply Hne; left).
    assert (∀ y, y ∈ rest → c ≠ datetime_name y) as Hne'
      by (intros y Hy; apply Hne; by right).
    destruct (loop_body_case lib col st) as
      [H|s0 c0 Hs0 _ _ Hc|s0 e c0 Hs0 _ _ _ Hc|s0 Hs0 _ _|s0 c0 Hs0 _ _ _ Hc
       |s0 Hs0 _ _ _]; simpl in *;
      [ apply getitem_None in H; destruct H; apply Hcols; left
      | | | by eexists | | ].
    all: split_and!; [done| |done|];
      [ by rewrite ?getitem_setitem_ne
      | intros y Hy; eapply elem_of_prefix; [|exact Hpre];
        apply Hcols; by right ].
  - split_and!; [|done|done|done].
    apply getitem_is_Some. by eexists.
Qed.

(** When every column holds a value, the call returns: no column is missing
    from the table when its turn comes, and no sample is empty. *)
Lemma auto_convert_datetime_returns (lib : Library) (r : Rng) (d : DataFrame) :
  NoDup (columns d) →
  Forall (λ x, dropna x.2 ≠ []) d →
  ∃ st, auto_convert_datetime lib r d = Returned st.
Proof.
  intros Hnd Hd. unfold auto_convert_datetime.
  apply (for_each_ind lib
    (λ rest st, NoDup rest ∧
       ∀ c, c ∈ rest → ∃ s, getitem (df st) c = Some s ∧ dropna s ≠ [])
    (λ o, ∃ st, o = Returned st)).
  - intros st _. by eexists.
  - intros col rest st [Hnd' Hrest].
    apply NoDup_cons in Hnd' as [Hcol Hnd'].
    destruct (Hrest col) as (s & Hs & Hne); [left|].
    assert (∀ name conv, (name = datetime_name col → dropna conv ≠ []) →
              name ∉ rest ∨ name = datetime_name col →
              ∀ c, c ∈ rest →
              ∃ s', getitem (setitem (df st) name conv) c = Some s' ∧
                    dropna s' ≠ []) as Hwrite.
    { intros name conv Hconv Hname c Hc. rewrite getitem_setitem.
      case_decide; subst; [|apply Hrest; by right].
      destruct Hname as [?|Hname]; [done|]. exists conv. auto. }
    destruct (loop_body_case lib col st) as
      [H|s0 c Hs0 _ _ Hc|s0 e c Hs0 _ _ _ Hc|s0 Hs0 _ Hsmp
       |s0 c Hs0 _ _ _ Hc|s0 Hs0 _ _ _]; simplify_eq; simpl.
    + split; [done|]. apply Hwrite; [|by right]. intros _.
      by eapply to_datetime_raise_present.
    + split; [done|]. apply Hwrite; [|by right]. intros _.
      by eapply to_datetime_raise_present.
    + apply sample_dropna_nil in Hsmp. done.
    + split; [done|]. apply Hwrite; [|by left].
      intros Heq. by destruct (datetime_name_ne col).
    + split; [done|]. intros c Hc. apply Hrest. by right.
  - split; [done|]. intros c Hc.
    apply list_elem_of_fmap in Hc as ([c' s] & -> & Hin). simpl.
    assert (is_Some (getitem d c')) as [s' Hs'].
    { apply getitem_is_Some, list_elem_of_fmap. by exists (c', s). }
    exists s'. split; [done|].
    apply getitem_Some_elem in Hs'. rewrite Forall_forall in Hd.
    apply (Hd _ Hs').
Qed.

(** The only exception that leaves the function is the ZeroDivisionError of
    line 105: every column of the loop is in the table when its turn
    comes. *)
Lemma only_zero_division_leaves (lib : Library) (r : Rng) (d : DataFrame)
    (e : exn) (st : State) :
  auto_convert_datetime lib r d = Raised e st → e = ZeroDivisionError.
Proof.
  unfold auto_convert_datetime. revert e st.
  apply (for_each_ind lib
    (λ rest st, ∀ c, c ∈ rest → c ∈ columns (df st))
    (λ o, ∀ e st, o = Raised e st → e = ZeroDivisionError)); [done| |done].
  intros col rest st Hin.
  pose proof (loop_body_columns lib col st) as Hpre.
  destruct (loop_body_case lib col st) as
    [H|s c Hs _ _ Hc|s e c Hs _ _ _ Hc|s Hs _ _|s c Hs _ _ _ Hc|s Hs _ _ _];
    try (intros c' Hc'; eapply elem_of_prefix; [|exact Hpre];
         apply Hin; by right).
  - apply getitem_None in H. destruct H. apply Hin. left.
  - by intros e st' [= <- _].
Qed.

(** ** The sampling step *)

Section SamplingStep.

Variable lib : Library.

Implicit Types (st : State) (col : string) (s converted : Series).

Lemma count_parsed_le (smp : list cell) : count_parsed lib smp ≤ length smp.
Proof. apply length_filter. Qed.

Lemma drawn_length st s : length (drawn st s).1 ≤ 10.
Proof. unfold drawn. rewrite sample_length. lia. Qed.

Lemma convert_in_place_ne col converted st : convert_in_place col converted st ≠ st.
Proof.
  intros H. apply (f_equal date_cols) in H. simpl in H.
  apply (f_equal length) in H. rewrite length_app in H. simpl in H. lia.
Qed.

(** The sampling step, with the comparison on floats of line 105 read on
    the rationals: the column is converted when more than 7 in 10 of the
    sampled values parse, and left alone otherwise. *)
Lemma sample_branch_exact col s st :
  sample_branch lib col s st =
  let smp := (drawn st s).1 in
  let st1 := with_rng (drawn st s).2 st in
  if decide (length smp = 0) then Raised ZeroDivisionError st1
  else if decide (7 * length smp < 10 * count_parsed lib smp) then
    match to_datetime lib s Infer Coerce with
    | inr converted => Returned (convert_in_place col converted st1)
    | inl _ => Returned st1
    end
  else Returned st1.
Proof.
  rewrite sample_branch_unfold. cbv zeta. unfold truediv.
  pose proof (count_parsed_le (drawn st s).1) as Hk.
  pose proof (drawn_length st s) as Hn.
  destruct (length (drawn st s).1) as [|n] eqn:Hlen; [done|].
  rewrite decide_False by done.
  rewrite truediv_gt_0_7 by lia.
  by destruct (decide (7 * S n < 10 * count_parsed lib (drawn st s).1));
    [rewrite bool_decide_eq_true_2 | rewrite bool_decide_eq_false_2].
Qed.

(** C3, as the code has it.  A column that reaches the sampling step
    (lines 93-110) with [k] of its [n] sampled values parsing: with no
    value sampled the division of line 105 raises; otherwise the iteration
    returns, no other column and no record is touched, and the column is
    replaced where it stands by its conversion, of date/time dtype, and
    listed, exactly when [k/n > 7/10] and pandas accepts the call; at
    [k/n <= 7/10], for 7 of 10 in particular, and when pandas refuses the
    call (the [except] of line 109), the table and the list are as they
    were. *)
Theorem sample_branch_threshold col s st :
  let smp := (drawn st s).1 in
  let k := count_parsed lib smp in
  let n := length smp in
  let converted :=
    mkSeries Datetime
      (map (λ c, default Missing (read_cell lib Infer s c)) (values s)) in
  getitem (df st) col = Some s →
  timestamp_branch lib col s st = None →
  if decide (n = 0) then
    loop_body lib col st =
      Raised ZeroDivisionError (with_rng (drawn st s).2 st)
  else
    ∃ st',
      loop_body lib col st = Returned st' ∧
      columns (df st') = columns (df st) ∧
      (∀ c, c ≠ col → getitem (df st') c = getitem (df st) c) ∧
      converted_cols st' = converted_cols st ∧
      (if decide (7 * n < 10 * k ∧ refuses lib Infer s = None)
       then getitem (df st') col = Some converted ∧
            date_cols st' = date_cols st ++ [col]
       else df st' = df st ∧ date_cols st' = date_cols st) ∧
      (k = 7 → n = 10 → df st' = df st ∧ date_cols st' = date_cols st).
Proof.
  intros smp k n converted Hs Ht.
  unfold loop_body. rewrite Hs, Ht, sample_branch_exact. cbv zeta.
  fold smp k n. rewrite to_datetime_coerce. fold converted.
  assert (k ≤ n) as Hk by apply count_parsed_le.
  destruct (decide (n = 0)) as [Hn|Hn]; [done|].
  destruct (decide (7 * n < 10 * k)) as [Hgt|Hle].
  - destruct (refuses lib Infer s) as [text|] eqn:Hr.
    + eexists. split; [done|]. simpl. split_and!; try done.
      rewrite decide_False by (by intros [_ ?]). done.
    + eexists. split; [done|]. simpl. split_and!; try done.
      * apply columns_setitem_old. apply getitem_is_Some. by eexists.
      * intros c Hc. by apply getitem_setitem_ne.
      * rewrite decide_True by done. split; [apply getitem_setitem_eq | done].
      * intros -> ->. lia.
  - eexists. split; [done|]. simpl. split_and!; try done.
    rewrite decide_False by (by intros [? _]). done.
Qed.


End SamplingStep.

(** ** The timestamp branch *)

Section TimestampBranch.

Variable lib : Library.

Implicit Types (st : State) (col : string) (s converted : Series).

(** What lines 75-77 leave behind. *)
Lemma derive_effect col s converted st :
  getitem (df st) col = Some s →
  let st' := derive col converted st in
  getitem (df st') (datetime_name col) = Some converted ∧
  getitem (df st') col = Some s ∧
  (∀ c, c ≠ datetime_name col → getitem (df st') c = getitem (df st) c) ∧
  columns (df st') =
    (if decide (datetime_name col ∈ columns (df st)) then columns (df st)
     else columns (df st) ++ [datetime_name col]) ∧
  converted_cols st' !! col = Some (datetime_name col) ∧
  date_cols st' = date_cols st ++ [datetime_name col] ∧
  rng st' = rng st.
Proof.
  intros Hs st'. simpl. split_and!; try done.
  - apply getitem_setitem_eq.
  - rewrite getitem_setitem_ne; [done | apply datetime_name_ne].
  - intros c Hc. by rewrite getitem_setitem_ne.
  - apply columns_setitem.
  - apply lookup_insert_eq.
Qed.

(** A numeric column with a maximum above 10^9 that reads as seconds
    since the epoch: the iteration ends with the column
    [<original>_datetime] holding the parsed values (one column of that
    name, written last or where a column of that name stood), the
    conversion recorded, the new name listed as a date column, no sample
    drawn, and the original column as it was. *)
Lemma loop_body_seconds col s converted st :
  getitem (df st) col = Some s →
  is_numeric_dtype s = true → max_gt_1e9 s = true →
  to_datetime lib s Unit_s Raise = inr converted →
  let st' := derive col converted st in
  loop_body lib col st = Returned st' ∧
  getitem (df st') (datetime_name col) = Some converted ∧
  dtype_of converted = Datetime ∧
  getitem (df st') col = Some s ∧
  (∀ c, c ≠ datetime_name col → getitem (df st') c = getitem (df st) c) ∧
  columns (df st') =
    (if decide (datetime_name col ∈ columns (df st)) then columns (df st)
     else columns (df st) ++ [datetime_name col]) ∧
  converted_cols st' !! col = Some (datetime_name col) ∧
  date_cols st' = date_cols st ++ [datetime_name col] ∧
  rng st' = rng st.
Proof.
  intros Hs Hnum Hmax Hc st'.
  split; [|split; [|split]].
  - unfold loop_body, timestamp_branch, try_unit.
    by rewrite Hs, Hnum, Hmax, Hc.
  - apply getitem_setitem_eq.
  - by eapply to_datetime_dtype.
  - by apply derive_effect.
Qed.

(** A numeric column with a maximum above 10^9 that pandas refuses
    to read as seconds and reads as milliseconds: the iteration writes the
    column [<original>_datetime] once, with the values read as
    milliseconds; the table has one column more when the name is new and
    as many as before when it stood there already; the conversion is
    recorded and the new name listed. *)
Lemma loop_body_milliseconds col s e converted st :
  getitem (df st) col = Some s →
  is_numeric_dtype s = true → max_gt_1e9 s = true →
  to_datetime lib s Unit_s Raise = inl e →
  to_datetime lib s Unit_ms Raise = inr converted →
  let st' := derive col converted st in
  loop_body lib col st = Returned st' ∧
  getitem (df st') (datetime_name col) = Some converted ∧
  columns (df st') =
    (if decide (datetime_name col ∈ columns (df st)) then columns (df st)
     else columns (df st) ++ [datetime_name col]) ∧
  length (df st') =
    (if decide (datetime_name col ∈ columns (df st)) then length (df st)
     else S (length (df st))) ∧
  (NoDup (columns (df st)) →
   length (filter (λ c, c = datetime_name col) (columns (df st'))) = 1) ∧
  (∀ c, c ≠ datetime_name col → getitem (df st') c = getitem (df st) c) ∧
  converted_cols st' !! col = Some (datetime_name col) ∧
  date_cols st' = date_cols st ++ [datetime_name col].
Proof.
  intros Hs Hnum Hmax He Hc st'.
  destruct (derive_effect col s converted st Hs)
    as (Hget & _ & Hother & Hcols & Hconv & Hdate & _).
  split_and!; try done.
  - unfold loop_body, timestamp_branch, try_unit.
    by rewrite Hs, Hnum, Hmax, He, Hc.
  - simpl. apply length_setitem.
  - intros Hnd.
    assert (NoDup (columns (df st'))) as Hnd'
      by (by apply NoDup_columns_setitem).
    assert (datetime_name col ∈ columns (df st')) as Hin
      by (apply elem_of_columns_setitem; by left).
    clear -Hnd' Hin. induction Hnd' as [|x l Hx Hl IH]; [inversion Hin|].
    apply elem_of_cons in Hin as [<-|Hin].
    + rewrite filter_cons_True by done. simpl. f_equal.
      apply length_zero_iff_nil. clear IH.
      induction l as [|y l IH]; [done|].
      apply not_elem_of_cons in Hx as [Hne Hx]. apply NoDup_cons in Hl as [_ Hl].
      rewrite filter_cons_False by done. by apply IH.
    + rewrite filter_cons_False; [by apply IH|]. intros ->. done.
Qed.

End TimestampBranch.

(** ** Running the detector on its own output *)

Section SecondRun.

Variable lib : Library.

Implicit Types (st : State) (col : string) (s converted : Series)
  (d : DataFrame).

Lemma timestamp_branch_None col s st :
  timestamp_branch lib col s st = None → ¬ qualifies lib s.
Proof.
  unfold timestamp_branch, try_unit. intros H (Hnum & Hmax & c & Hc).
  rewrite Hnum, Hmax in H. simpl in H.
  destruct (to_datetime lib s Unit_s Raise) as [e1|c1]; [|done].
  destruct (to_datetime lib s Unit_ms Raise) as [e2|c2]; [|done].
  by destruct Hc.
Qed.

Lemma qualifies_not_datetime s : qualifies lib s → dtype_of s ≠ Datetime.
Proof.
  intros (Hnum & _) Hd. unfold is_numeric_dtype in Hnum. by rewrite Hd in Hnum.
Qed.

Lemma saturated_setitem pending d name converted :
  dtype_of converted = Datetime →
  saturated lib pending d → saturated lib pending (setitem d name converted).
Proof.
  intros Hdt Hsat c s Hs Hq. rewrite getitem_setitem in Hs.
  case_decide; simplify_eq; [by apply qualifies_not_datetime in Hq|].
  destruct (Hsat c s Hs Hq) as [?|?]; [by left|right].
  apply elem_of_columns_setitem. by right.
Qed.

Lemma saturated_visited col (rest : list string) d :
  saturated lib (col :: rest) d →
  (∀ s, getitem d col = Some s → qualifies lib s → datetime_name col ∈ columns d) →
  saturated lib rest d.
Proof.
  intros Hsat Hcol c s Hs Hq.
  destruct (Hsat c s Hs Hq) as [Hin|?]; [|by right].
  apply elem_of_cons in Hin as [->|?]; [right; by eapply Hcol | by left].
Qed.

Lemma loop_body_saturated col (rest : list string) st :
  saturated lib (col :: rest) (df st) →
  saturated lib rest (df (state_of (loop_body lib col st))).
Proof.
  intros Hsat.
  destruct (loop_body_case lib col st) as
    [H|s c Hs _ _ Hc|s e c Hs _ _ _ Hc|s Hs Ht _|s c Hs Ht _ _ Hc|s Hs Ht _ _];
    simpl.
  - apply (saturated_visited col); [done|]. intros s Hs. by rewrite H in Hs.
  - apply (saturated_visited col).
    + apply saturated_setitem; [by eapply to_datetime_dtype | done].
    + intros _ _ _. apply elem_of_columns_setitem. by left.
  - apply (saturated_visited col).
    + apply saturated_setitem; [by eapply to_datetime_dtype | done].
    + intros _ _ _. apply elem_of_columns_setitem. by left.
  - apply (saturated_visited col); [done|]. intros s' Hs' Hq. simplify_eq.
    by apply timestamp_branch_None in Ht.
  - apply saturated_setitem; [by eapply to_datetime_dtype|].
    apply (saturated_visited col); [done|]. intros s' Hs' Hq. simplify_eq.
    by apply timestamp_branch_None in Ht.
  - apply (saturated_visited col); [done|]. intros s' Hs' Hq. simplify_eq.
    by apply timestamp_branch_None in Ht.
Qed.

(** After a run that returned, every derived column is there. *)
Lemma auto_convert_datetime_saturated (r : Rng) d st1 :
  auto_convert_datetime lib r d = Returned st1 → saturated lib [] (df st1).
Proof.
  unfold auto_convert_datetime. intros Hrun.
  apply (for_each_ind lib (λ rest st, saturated lib rest (df st))
           (λ o, ∀ st', o = Returned st' → saturated lib [] (df st')))
    with (cols := columns d)
         (st := (initial r d));
    [| | |done].
  - by intros st Hst st' [= <-].
  - intros col rest st Hsat. pose proof (loop_body_saturated col rest st Hsat).
    by destruct (loop_body lib col st).
  - intros c s Hs _. left. simpl in Hs. apply getitem_is_Some. by eexists.
Qed.

(** On such a table an iteration writes existing columns only. *)
Lemma loop_body_no_new_column col st :
  saturated lib [] (df st) →
  columns (df (state_of (loop_body lib col st))) = columns (df st) ∧
  saturated lib [] (df (state_of (loop_body lib col st))).
Proof.
  intros Hsat. split.
  - destruct (loop_body_case lib col st) as
      [H|s c Hs Hn Hm Hc|s e c Hs Hn Hm _ Hc|s Hs Ht _|s c Hs Ht _ _ Hc
       |s Hs Ht _ _]; simpl; try done.
    + apply columns_setitem_old.
      destruct (Hsat col s Hs) as [Hin|?]; [|inversion Hin|done].
      split_and!; [done..|]. exists c. by left.
    + apply columns_setitem_old.
      destruct (Hsat col s Hs) as [Hin|?]; [|inversion Hin|done].
      split_and!; [done..|]. exists c. by right.
    + apply columns_setitem_old, getitem_is_Some. by eexists.
  - apply loop_body_saturated. intros c s Hs Hq.
    destruct (Hsat c s Hs Hq) as [Hin|?]; [inversion Hin | by right].
Qed.

Lemma for_each_no_new_column (cols : list string) st :
  saturated lib [] (df st) →
  columns (df (state_of (for_each lib cols st))) = columns (df st).
Proof.
  intros Hsat.
  apply (for_each_preserves lib
    (λ st', columns (df st') = columns (df st) ∧ saturated lib [] (df st')));
    [|done].
  intros col st0 [Hcols Hsat0].
  destruct (loop_body_no_new_column col st0 Hsat0) as [Hcols' Hsat'].
  split; [congruence | done].
Qed.

Lemma for_each_NoDup (cols : list string) st :
  NoDup (columns (df st)) →
  NoDup (columns (df (state_of (for_each lib cols st)))).
Proof.
  apply (for_each_preserves lib (λ st, NoDup (columns (df st)))).
  intros col st0 Hnd.
  destruct (loop_body_one_write lib col st0)
    as [->|(name & s & c & h & e & _ & _ & ->)];
    [done | by apply NoDup_columns_setitem].
Qed.

(** The list of date columns only grows. *)
Lemma loop_body_date_cols col st :
  date_cols st `prefix_of` date_cols (state_of (loop_body lib col st)).
Proof.
  destruct (loop_body_case lib col st); simpl; try done;
    by apply prefix_app_r.
Qed.

(** Under a library that parses the text of a Timestamp and converts
    date/time columns, an iteration that returns on a date/time column
    lists it. *)
Lemma loop_body_lists_datetime col st st' s :
  (∀ ns, parse lib (Stamp ns) = true) →
  (∀ s, dtype_of s = Datetime → refuses lib Infer s = None) →
  getitem (df st) col = Some s → dtype_of s = Datetime →
  Forall stamp_or_missing (values s) →
  loop_body lib col st = Returned st' →
  col ∈ date_cols st'.
Proof.
  intros Hparse Href Hs Hdt Htyped Hret.
  assert (is_numeric_dtype s = false) as Hnum.
  { unfold is_numeric_dtype. by rewrite Hdt. }
  destruct (loop_body_case lib col st) as
    [H|s0 c Hs0 Hn _ _|s0 e c Hs0 Hn _ _ _|s0 Hs0 _ _|s0 c Hs0 _ _ _ Hc
     |s0 Hs0 _ Hne Hor]; try done;
    rewrite Hs in Hs0; injection Hs0 as <-;
    try congruence; injection Hret as <-; simpl.
  - apply elem_of_app. right. left.
  - exfalso. destruct Hor as [Hgt|[e He]].
    + assert (count_parsed lib (drawn st s).1 = length (drawn st s).1) as Hk.
      { unfold count_parsed.
        assert (Forall (λ c, parse lib c = true) (drawn st s).1) as Hall.
        { apply Forall_forall. intros c Hc. apply sample_elem_of in Hc.
          apply elem_of_dropna in Hc as [Hc Hin].
          rewrite Forall_forall in Htyped. specialize (Htyped c Hin).
          destruct c; try done; apply Hparse. }
        clear -Hall. induction Hall as [|c l Hc _ IH]; [done|].
        rewrite filter_cons_True by done. simpl. by rewrite IH. }
      assert (0 < length (drawn st s).1) as Hpos.
      { destruct (drawn st s).1; [done | simpl; lia]. }
      pose proof (drawn_length st s) as Hten.
      rewrite Hk in Hgt. by rewrite truediv_all_parsed in Hgt.
    + rewrite to_datetime_coerce, Href in He; done.
Qed.

(** *** Date/time columns keep their values *)

Lemma string_app_inj_suffix (a b suffix : string) :
  a +:+ suffix = b +:+ suffix → a = b.
Proof.
  revert b. induction a as [|x a IH]; intros [|y b] H.
  - done.
  - apply (f_equal String.length) in H.
    rewrite !string_length_app in H. simpl in H. lia.
  - apply (f_equal String.length) in H.
    rewrite !string_length_app in H. simpl in H. lia.
  - cbn [String.append] in H. injection H as -> H. f_equal. by apply IH.
Qed.

Lemma datetime_name_inj (x y : string) :
  datetime_name x = datetime_name y → x = y.
Proof. apply string_app_inj_suffix. Qed.

(** A library that reads a Timestamp as itself converts a date/time
    column to itself. *)
Lemma to_datetime_datetime s converted :
  (∀ s0 ns, convert lib Infer s0 (Stamp ns) = Some ns) →
  dtype_of s = Datetime → Forall stamp_or_missing (values s) →
  to_datetime lib s Infer Coerce = inr converted → converted = s.
Proof.
  intros Hid Hdt Hty Hc. rewrite (to_datetime_values _ _ _ _ _ Hc).
  assert (∀ s0, map (λ c, default Missing (read_cell lib Infer s0 c))
                    (values s) = values s) as ->.
  { intros s0. induction Hty as [|c l Hc' _ IH]; [done|].
    simpl. rewrite IH. f_equal.
    destruct c; try done. simpl. by rewrite Hid. }
  destruct s as [dt vs]. simpl in *. by subst dt.
Qed.

Lemma derived_of_Some s converted :
  derived_of lib s = Some converted →
  dtype_of converted = Datetime ∧ Forall stamp_or_missing (values converted).
Proof.
  unfold derived_of. intros H.
  destruct (to_datetime lib s Unit_s Raise) as [e1|c1] eqn:H1.
  - destruct (to_datetime lib s Unit_ms Raise) as [e2|c2] eqn:H2; [done|].
    injection H as <-. split; [by eapply to_datetime_dtype|].
    eapply to_datetime_typed; [done|]. by eapply to_datetime_dtype.
  - injection H as <-. split; [by eapply to_datetime_dtype|].
    eapply to_datetime_typed; [done|]. by eapply to_datetime_dtype.
Qed.

Lemma timestamp_branch_None_derived col s st :
  timestamp_branch lib col s st = None →
  is_numeric_dtype s = true → max_gt_1e9 s = true → derived_of lib s = None.
Proof.
  unfold timestamp_branch, try_unit, derived_of. intros H Hn Hm.
  rewrite Hn, Hm in H. simpl in H.
  destruct (to_datetime lib s Unit_s Raise) as [e1|c1]; [|done].
  by destruct (to_datetime lib s Unit_ms Raise) as [e2|c2].
Qed.

Lemma derived_kept_weaken (pending pending' : list string) d :
  (∀ x, x ∈ pending → x ∈ pending') →
  derived_kept lib pending d → derived_kept lib pending' d.
Proof.
  intros Hsub Hk x sx c Hx Hn Hm Hd.
  destruct (Hk x sx c Hx Hn Hm Hd) as [?|?]; [left; auto | by right].
Qed.

Lemma numeric_not_datetime s : is_numeric_dtype s = true → dtype_of s ≠ Datetime.
Proof. unfold is_numeric_dtype. intros H Hd. by rewrite Hd in H. Qed.

(** One iteration keeps the derived columns as derived. *)
Lemma loop_body_derived_kept col (rest : list string) st :
  (∀ s0 ns, convert lib Infer s0 (Stamp ns) = Some ns) →
  derived_kept lib (col :: rest) (df st) →
  derived_kept lib rest (df (state_of (loop_body lib col st))).
Proof.
  intros Hid Hk.
  assert (∀ conv, ∀ s, getitem (df st) col = Some s →
            is_numeric_dtype s = true → max_gt_1e9 s = true →
            derived_of lib s = Some conv →
            dtype_of conv = Datetime →
            derived_kept lib rest (setitem (df st) (datetime_name col) conv))
    as Hderive.
  { intros conv s Hs Hn Hm Hd Hdt x sx c Hx Hnx Hmx Hdx.
    rewrite getitem_setitem in Hx. case_decide as Heq.
    { simplify_eq. by apply numeric_not_datetime in Hnx. }
    rewrite getitem_setitem.
    destruct (decide (x = col)) as [->|Hne].
    { right. rewrite decide_True by done. congruence. }
    destruct (Hk x sx c Hx Hnx Hmx Hdx) as [Hin|Hget].
    - apply elem_of_cons in Hin as [?|?]; [done | by left].
    - right. case_decide as Heq'; [|done].
      apply datetime_name_inj in Heq'. by subst. }
  destruct (loop_body_case lib col st) as
    [H|s c Hs Hn Hm Hc|s e c Hs Hn Hm He Hc|s Hs Ht _|s c Hs Ht _ _ Hc
     |s Hs Ht _ _]; simpl.
  - intros x sx c Hx Hnx Hmx Hdx.
    destruct (Hk x sx c Hx Hnx Hmx Hdx) as [Hin|?]; [|by right].
    apply elem_of_cons in Hin as [->|?]; [congruence | by left].
  - apply (Hderive c s); try done; [|by eapply to_datetime_dtype].
    unfold derived_of. by rewrite Hc.
  - apply (Hderive c s); try done; [|by eapply to_datetime_dtype].
    unfold derived_of. by rewrite He, Hc.
  - intros x sx c Hx Hnx Hmx Hdx.
    destruct (Hk x sx c Hx Hnx Hmx Hdx) as [Hin|?]; [|by right].
    apply elem_of_cons in Hin as [->|?]; [|by left]. simplify_eq.
    by rewrite (timestamp_branch_None_derived _ _ _ Ht Hnx Hmx) in Hdx.
  - intros x sx c' Hx Hnx Hmx Hdx.
    rewrite getitem_setitem in Hx. case_decide as Heq.
    { simplify_eq. apply numeric_not_datetime in Hnx.
      destruct Hnx. by eapply to_datetime_dtype. }
    destruct (Hk x sx c' Hx Hnx Hmx Hdx) as [Hin|Hget].
    + apply elem_of_cons in Hin as [->|?]; [done | by left].
    + right. rewrite getitem_setitem. case_decide as Heq'; [|done].
      f_equal. rewrite <- Heq' in Hget. simplify_eq.
      destruct (derived_of_Some _ _ Hdx) as [Hdt Hty].
      by apply to_datetime_datetime.
  - intros x sx c Hx Hnx Hmx Hdx.
    destruct (Hk x sx c Hx Hnx Hmx Hdx) as [Hin|?]; [|by right].
    apply elem_of_cons in Hin as [->|?]; [|by left]. simplify_eq.
    by rewrite (timestamp_branch_None_derived _ _ _ Ht Hnx Hmx) in Hdx.
Qed.

Lemma auto_convert_datetime_derived_kept (r : Rng) d st1 :
  (∀ s0 ns, convert lib Infer s0 (Stamp ns) = Some ns) →
  auto_convert_datetime lib r d = Returned st1 → derived_kept lib [] (df st1).
Proof.
  unfold auto_convert_datetime. intros Hid Hrun.
  apply (for_each_ind lib (λ rest st, derived_kept lib rest (df st))
           (λ o, ∀ st', o = Returned st' → derived_kept lib [] (df st')))
    with (cols := columns d) (st := initial r d); [| | |done].
  - by intros st Hst st' [= <-].
  - intros col rest st Hk.
    pose proof (loop_body_derived_kept col rest st Hid Hk).
    by destruct (loop_body lib col st).
  - intros x sx c Hx _ _ _. left. simpl in Hx. apply getitem_is_Some. by eexists.
Qed.

(** On a table where the derived columns are as derived, an iteration
    leaves every typed date/time column as it is. *)
Lemma loop_body_keeps_datetime col st (c : string) (s : Series) :
  (∀ s0 ns, convert lib Infer s0 (Stamp ns) = Some ns) →
  derived_kept lib [] (df st) →
  getitem (df st) c = Some s → dtype_of s = Datetime →
  Forall stamp_or_missing (values s) →
  getitem (df (state_of (loop_body lib col st))) c = Some s.
Proof.
  intros Hid Hk Hs Hdt Hty.
  destruct (loop_body_case lib col st) as
    [H|s0 c0 Hs0 Hn Hm Hc|s0 e c0 Hs0 Hn Hm He Hc|s0 Hs0 Ht _
     |s0 c0 Hs0 Ht _ _ Hc|s0 Hs0 Ht _ _]; simpl; try done.
  - rewrite getitem_setitem. case_decide as Heq; [|done]. subst c.
    destruct (Hk col s0 c0 Hs0 Hn Hm) as [Hin|Hget];
      [unfold derived_of; by rewrite Hc | inversion Hin | congruence].
  - rewrite getitem_setitem. case_decide as Heq; [|done]. subst c.
    destruct (Hk col s0 c0 Hs0 Hn Hm) as [Hin|Hget];
      [unfold derived_of; by rewrite He, Hc | inversion Hin | congruence].
  - rewrite getitem_setitem. case_decide as Heq; [|done]. subst c.
    simplify_eq. f_equal. by apply to_datetime_datetime.
Qed.

Lemma for_each_keeps_datetime (cols : list string) st (c : string)
    (s : Series) :
  (∀ s0 ns, convert lib Infer s0 (Stamp ns) = Some ns) →
  derived_kept lib [] (df st) →
  getitem (df st) c = Some s → dtype_of s = Datetime →
  Forall stamp_or_missing (values s) →
  getitem (df (state_of (for_each lib cols st))) c = Some s.
Proof.
  intros Hid Hk Hs Hdt Hty.
  apply (for_each_preserves lib
    (λ st', derived_kept lib [] (df st') ∧ getitem (df st') c = Some s));
    [|done].
  intros col st0 [Hk0 Hs0]. split.
  - apply loop_body_derived_kept; [done|].
    eapply derived_kept_weaken; [|exact Hk0]. intros x Hx. inversion Hx.
  - by apply loop_body_keeps_datetime.
Qed.

End SecondRun.

(** ** The timestamp branch in a whole run *)

Section WholeRun.

Variable lib : Library.

Implicit Types (st : State) (col : string) (s converted : Series)
  (d : DataFrame).






End WholeRun.



(** ** The properties of a whole run *)

(** C10.  Whether the call returns or raises, the table it leaves has
    every column of the input, in the same order and before any new one;
    each of them holds what it held or has become a date/time column; and
    every column has as many rows as the columns of the input. *)
Theorem columns_and_rows_preserved (lib : Library) (r : Rng) (d : DataFrame) :
  let d' := df (state_of (auto_convert_datetime lib r d)) in
  columns d `prefix_of` columns d' ∧
  (∀ c s, getitem d c = Some s →
          ∃ s', getitem d' c = Some s' ∧ (s' = s ∨ dtype_of s' = Datetime)) ∧
  (∀ n, Forall (λ x, length (values x.2) = n) d →
        Forall (λ x, length (values x.2) = n) d').
Proof.
  unfold auto_convert_datetime. split_and!.
  - apply (for_each_columns lib (columns d)
             (initial r d)).
  - intros c s Hs.
    by apply (for_each_getitem lib (columns d)
                (initial r d)).
  - intros n Hn.
    by apply (for_each_rows lib n (columns d)
                (initial r d)).
Qed.

(** C8.  Every entry of the mapping the call returns goes from a name to
    that name followed by [_datetime], and the latter is a column of the
    table returned. *)
Theorem conversions_exist (lib : Library) (r : Rng) (d : DataFrame)
    (st : State) (source derived : string) :
  auto_convert_datetime lib r d = Returned st →
  converted_cols st !! source = Some derived →
  derived = datetime_name source ∧ derived ∈ columns (df st).
Proof.
  unfold auto_convert_datetime. intros Hrun.
  pose proof (for_each_conversions lib (columns d)
    (initial r d)) as H.
  rewrite Hrun in H. simpl in H. apply H.
  intros k v Hk. simpl in Hk. by rewrite lookup_empty in Hk.
Qed.

(** C7.  A second run on the table a first run returned: it adds no column
    (the derived columns are written over themselves, and no column is
    derived from a derived one), so that column names stay unique; a
    date/time column is still a date/time column afterwards; when the
    library parses the text of a Timestamp and converts date/time columns,
    a second run that returns lists every one of them as a date column;
    and when the library reads a Timestamp as itself, every date/time
    column holds after the second run the values it held before. *)
Theorem second_run_keeps_table (lib : Library) (r1 r2 : Rng) (d : DataFrame)
    (st1 : State) :
  auto_convert_datetime lib r1 d = Returned st1 →
  let o2 := auto_convert_datetime lib r2 (df st1) in
  columns (df (state_of o2)) = columns (df st1) ∧
  (NoDup (columns d) → NoDup (columns (df (state_of o2)))) ∧
  (∀ c s, getitem (df st1) c = Some s → dtype_of s = Datetime →
          ∃ s', getitem (df (state_of o2)) c = Some s' ∧
                dtype_of s' = Datetime) ∧
  ((∀ ns, parse lib (Stamp ns) = true) →
   (∀ s, dtype_of s = Datetime → refuses lib Infer s = None) →
   Forall (λ x, typed_datetime x.2) d →
   ∀ st2, o2 = Returned st2 →
          ∀ c s, getitem (df st1) c = Some s → dtype_of s = Datetime →
                 c ∈ date_cols st2) ∧
  ((∀ s ns, convert lib Infer s (Stamp ns) = Some ns) →
   Forall (λ x, typed_datetime x.2) d →
   ∀ c s, getitem (df st1) c = Some s → dtype_of s = Datetime →
          getitem (df (state_of o2)) c = Some s).
Proof.
  intros Hrun o2.
  pose proof (auto_convert_datetime_saturated lib r1 d st1 Hrun) as Hsat.
  set (st0 := initial r2 (df st1)).
  assert (columns (df (state_of o2)) = columns (df st1)) as Hcols.
  { apply (for_each_no_new_column lib (columns (df st1)) st0 Hsat). }
  split_and!.
  - done.
  - intros Hnd. rewrite Hcols.
    pose proof (for_each_NoDup lib (columns d)
      (initial r1 d) Hnd) as H.
    unfold auto_convert_datetime in Hrun. by rewrite Hrun in H.
  - intros c s Hs Hdt.
    by apply (for_each_datetime lib (columns (df st1)) st0 c s).
  - intros Hparse Href Htyped st2 Hret c s Hs Hdt.
    assert (Forall (λ x, typed_datetime x.2) (df st1)) as Htyped1.
    { pose proof (for_each_typed lib (columns d)
        (initial r1 d)
        Htyped) as H.
      unfold auto_convert_datetime in Hrun. by rewrite Hrun in H. }
    assert (c ∈ columns (df st1)) as Hc
      by (apply getitem_is_Some; by eexists).
    revert st2 Hret. unfold o2, auto_convert_datetime.
    apply (for_each_ind lib
      (λ rest st,
         Forall (λ x, typed_datetime x.2) (df st) ∧
         (∃ s', getitem (df st) c = Some s' ∧ dtype_of s' = Datetime) ∧
         (c ∈ rest ∨ c ∈ date_cols st))
      (λ o, ∀ st2, o = Returned st2 → c ∈ date_cols st2)).
    + intros st (_ & _ & [Hin|Hin]) st2 [= <-]; [inversion Hin | done].
    + intros col rest st (Hty & (s' & Hs' & Hdt') & Hor).
      destruct (loop_body lib col st) as [st'|e st'] eqn:Hbody; [|done].
      pose proof (loop_body_one_write lib col st) as Hw.
      pose proof (loop_body_date_cols lib col st) as Hmono.
      rewrite Hbody in Hw, Hmono. simpl in Hw, Hmono.
      split_and!.
      * by eapply one_write_typed.
      * destruct (one_write_getitem lib _ _ c s' Hw Hs') as (s'' & Hs'' & Hor').
        exists s''. split; [done|]. by destruct Hor' as [->|?].
      * destruct Hor as [Hin|Hin].
        -- apply elem_of_cons in Hin as [->|Hin]; [|by left]. right.
           eapply loop_body_lists_datetime; eauto.
           rewrite Forall_forall in Hty.
           apply (Hty (col, s') (getitem_Some_elem _ _ _ Hs') Hdt').
        -- right. by eapply elem_of_prefix.
    + split_and!; [done | by eauto | by left].
  - intros Hid Htyped c s Hs Hdt.
    assert (Forall (λ x, typed_datetime x.2) (df st1)) as Htyped1.
    { pose proof (for_each_typed lib (columns d) (initial r1 d) Htyped) as H.
      unfold auto_convert_datetime in Hrun. by rewrite Hrun in H. }
    apply (for_each_keeps_datetime lib (columns (df st1)) st0 c s).
    + exact Hid.
    + exact (auto_convert_datetime_derived_kept lib r1 d st1 Hid Hrun).
    + exact Hs.
    + exact Hdt.
    + rewrite Forall_forall in Htyped1.
      apply (Htyped1 (c, s) (getitem_Some_elem _ _ _ Hs) Hdt).
Qed.

(** C9, as the code has it.  The handler reports a failure exactly when
    pandas refuses the call as a whole, and then shows the error text and
    leaves the session as it was; otherwise, a format that does not match
    the data included, it writes the new column, the values pandas cannot
    read being missing there, lists it, and reports success. *)
Theorem convert_button_outcome (lib : Library) (f : date_format)
    (date_col new_col_name : string) (ss : Session) (s : Series) :
  getitem (session_df ss) date_col = Some s →
  match refuses lib (how_of f) s with
  | Some text =>
      convert_button lib f date_col new_col_name ss = (ss, Error text)
  | None =>
      ∃ ss',
        convert_button lib f date_col new_col_name ss =
          (ss', Success new_col_name) ∧
        getitem (session_df ss') new_col_name =
          Some (mkSeries Datetime
                  (map (λ c, default Missing (read_cell lib (how_of f) s c))
                       (values s))) ∧
        new_col_name ∈ date_columns ss'
  end.
Proof.
  intros Hs. unfold convert_button. rewrite Hs, to_datetime_coerce.
  destruct (refuses lib (how_of f) s) as [text|]; [done|].
  eexists. split; [done|]. simpl. split; [apply getitem_setitem_eq|].
  case_decide; [done|]. apply elem_of_app. right. left.
Qed.

(** C9 as stated does not hold: with the ISO format chosen for a column of
    US dates, nothing is reported as a failure; the column
    [d_converted] is added, all of it missing, and success is shown. *)
Lemma mismatched_format_adds_column :
  convert_button Reference.lib IsoFormat "d" "d_converted"
    {| session_df := [("d", mkSeries Object [Str "01/02/2023"; Str "03/04/2023"])];
       date_columns := [] |} =
  ({| session_df :=
        [("d", mkSeries Object [Str "01/02/2023"; Str "03/04/2023"]);
         ("d_converted", mkSeries Datetime [Missing; Missing])];
      date_columns := ["d_converted"] |},
   Success "d_converted").
Proof. vm_compute. reflexivity. Qed.

(** ** The theorems at the example tables *)

(** 7 of 10 sampled values parse: the column is left alone; 4 of 5 parse:
    it is converted. *)
Lemma sample_branch_threshold_witness :
  (count_parsed Reference.lib
     (drawn (Examples.start [("d", Examples.seven_of_ten)])
            Examples.seven_of_ten).1 = 7 ∧
   length (drawn (Examples.start [("d", Examples.seven_of_ten)])
                 Examples.seven_of_ten).1 = 10 ∧
   ∃ st', loop_body Reference.lib "d"
            (Examples.start [("d", Examples.seven_of_ten)]) = Returned st' ∧
          df st' = [("d", Examples.seven_of_ten)] ∧ date_cols st' = []) ∧
  (count_parsed Reference.lib
     (drawn (Examples.start [("d", Examples.four_of_five)])
            Examples.four_of_five).1 = 4 ∧
   length (drawn (Examples.start [("d", Examples.four_of_five)])
                 Examples.four_of_five).1 = 5 ∧
   ∃ st', loop_body Reference.lib "d"
            (Examples.start [("d", Examples.four_of_five)]) = Returned st' ∧
          getitem (df st') "d" = Some Examples.four_of_five_datetime ∧
          date_cols st' = ["d"]).
Proof.
  split.
  - split; [vm_compute; reflexivity|]. split; [vm_compute; reflexivity|].
    pose proof (sample_branch_threshold Reference.lib "d"
                  Examples.seven_of_ten
                  (Examples.start [("d", Examples.seven_of_ten)])
                  eq_refl eq_refl) as H.
    cbv zeta in H. rewrite decide_False in H by (vm_compute; discriminate).
    destruct H as (st' & Hbody & _ & _ & _ & _ & Hseven).
    exists st'. split; [exact Hbody|].
    apply Hseven; vm_compute; reflexivity.
  - split; [vm_compute; reflexivity|]. split; [vm_compute; reflexivity|].
    pose proof (sample_branch_threshold Reference.lib "d"
                  Examples.four_of_five
                  (Examples.start [("d", Examples.four_of_five)])
                  eq_refl eq_refl) as H.
    cbv zeta in H. rewrite decide_False in H by (vm_compute; discriminate).
    destruct H as (st' & Hbody & _ & _ & _ & Hconv & _).
    exists st'. split; [exact Hbody|].
    rewrite decide_True in Hconv
      by (split; [vm_compute; lia | reflexivity]).
    exact Hconv.
Defined.

(** C3 as stated does not hold: every sampled value of this column
    parses, yet the texts having different UTC offsets, pandas refuses the
    conversion call as a whole; the exception is caught at line 109 and
    the column is left as it was, not listed. *)
Lemma refused_conversion_leaves_column :
  count_parsed Reference.lib
    (drawn (Examples.start [("d", Examples.mixed_offsets)])
           Examples.mixed_offsets).1 = 3 ∧
  length (drawn (Examples.start [("d", Examples.mixed_offsets)])
                Examples.mixed_offsets).1 = 3 ∧
  refuses Reference.lib Infer Examples.mixed_offsets =
    Some "Mixed timezones detected. Pass utc=True in to_datetime or tz='UTC' in DatetimeIndex to convert to a common timezone." ∧
  loop_body Reference.lib "d" (Examples.start [("d", Examples.mixed_offsets)]) =
  Returned {| df := [("d", Examples.mixed_offsets)]; date_cols := [];
              converted_cols := ∅; rng := [] |}.
Proof. vm_compute. by split_and!. Qed.






(** The run on the table of [ts] and [d] records [ts -> ts_datetime]. *)
Lemma conversions_exist_witness :
  auto_convert_datetime Reference.lib [] Examples.both =
    Returned Examples.both_converted ∧
  "ts_datetime" = datetime_name "ts" ∧
  "ts_datetime" ∈ columns (df Examples.both_converted).
Proof.
  assert (auto_convert_datetime Reference.lib [] Examples.both =
          Returned Examples.both_converted) as Hrun
    by (vm_compute; reflexivity).
  split; [exact Hrun|].
  apply (conversions_exist Reference.lib [] Examples.both
           Examples.both_converted "ts" "ts_datetime" Hrun).
  vm_compute; reflexivity.
Defined.

(** A second run on that table returns the same table, with both
    date/time columns listed. *)
Lemma second_run_keeps_table_witness :
  auto_convert_datetime Reference.lib [] Examples.both =
    Returned Examples.both_converted ∧
  auto_convert_datetime Reference.lib [] (df Examples.both_converted) =
    Returned Examples.both_again ∧
  columns (df Examples.both_again) = ["ts"; "d"; "ts_datetime"] ∧
  "ts_datetime" ∈ date_cols Examples.both_again ∧
  "d" ∈ date_cols Examples.both_again.
Proof.
  assert (auto_convert_datetime Reference.lib [] Examples.both =
          Returned Examples.both_converted) as Hrun
    by (vm_compute; reflexivity).
  assert (auto_convert_datetime Reference.lib [] (df Examples.both_converted) =
          Returned Examples.both_again) as Hret
    by (vm_compute; reflexivity).
  split; [exact Hrun|]. split; [exact Hret|].
  destruct (second_run_keeps_table Reference.lib [] [] Examples.both
              Examples.both_converted Hrun) as (Hcols & _ & _ & Hlist & _).
  rewrite Hret in Hcols. split; [exact Hcols|].
  assert (Forall (λ x : string * Series, typed_datetime x.2) Examples.both)
    as Htyped.
  { repeat (apply Forall_cons_2; [intros Hdt; discriminate Hdt|]).
    apply Forall_nil_2. }
  assert (∀ s, dtype_of s = Datetime → refuses Reference.lib Infer s = None)
    as Haccepts.
  { intros s Hdt. simpl. unfold Reference.ref_refuses. by rewrite Hdt. }
  split.
  - apply (Hlist (λ _, eq_refl) Haccepts Htyped Examples.both_again
             Hret "ts_datetime" Examples.ts_datetime);
      vm_compute; reflexivity.
  - apply (Hlist (λ _, eq_refl) Haccepts Htyped Examples.both_again
             Hret "d" Examples.three_dates_datetime);
      vm_compute; reflexivity.
Defined.

(** A format string with an unknown directive is refused: the error text
    is shown and the session is as it was. *)
Lemma convert_button_outcome_witness :
  convert_button Reference.lib (Custom "%Q") "d" "d_converted"
    {| session_df := [("d", Examples.four_of_five)]; date_columns := [] |} =
  ({| session_df := [("d", Examples.four_of_five)]; date_columns := [] |},
   Error "Q is a bad directive in format").
Proof.
  apply (convert_button_outcome Reference.lib (Custom "%Q") "d" "d_converted"
           {| session_df := [("d", Examples.four_of_five)];
              date_columns := [] |} Examples.four_of_five).
  vm_compute; reflexivity.
Defined.

(** * Further properties *)

(** ** The detector *)

Section DetectorMore.

Variable lib : Library.

Implicit Types (st : State) (col : string) (s converted : Series)
  (d : DataFrame).

Lemma drawn_short st s :
  length (dropna s) ≤ 10 → (drawn st s).1 ≡ₚ dropna s.
Proof.
  intros Hlen. apply submseteq_length_Permutation.
  - apply sample_submseteq.
  - unfold drawn. rewrite sample_length. lia.
Qed.

Lemma count_parsed_Permutation (l k : list cell) :
  l ≡ₚ k → count_parsed lib l = count_parsed lib k.
Proof. intros H. unfold count_parsed. by rewrite H. Qed.

(** The sample of line 93 holds [min(10, n)] of the [n] values of the
    column that are not missing, none of them twice, and all of them when
    there are at most ten. *)
Theorem sample_of_column st s :
  length (drawn st s).1 = min 10 (length (dropna s)) ∧
  (drawn st s).1 ⊆+ dropna s ∧
  Forall (λ c, c ≠ Missing ∧ c ∈ values s) (drawn st s).1 ∧
  (length (dropna s) ≤ 10 → (drawn st s).1 ≡ₚ dropna s).
Proof.
  split_and!.
  - unfold drawn. rewrite sample_length. lia.
  - apply sample_submseteq.
  - apply Forall_forall. intros c Hc. apply sample_elem_of in Hc.
    by apply elem_of_dropna.
  - apply drawn_short.
Qed.

Lemma timestamp_branch_same col s st st' :
  same_tables st st' →
  match timestamp_branch lib col s st, timestamp_branch lib col s st' with
  | Some st1, Some st1' => same_tables st1 st1'
  | None, None => True
  | _, _ => False
  end.
Proof.
  intros (Hdf & Hdc & Hcc). unfold timestamp_branch, try_unit.
  destruct (is_numeric_dtype s && max_gt_1e9 s); [|done].
  destruct (to_datetime lib s Unit_s Raise) as [e1|c1].
  - destruct (to_datetime lib s Unit_ms Raise) as [e2|c2]; [done|].
    unfold same_tables, derive. simpl. by rewrite Hdf, Hdc, Hcc.
  - unfold same_tables, derive. simpl. by rewrite Hdf, Hdc, Hcc.
Qed.

Lemma loop_body_same col st st' :
  same_tables st st' →
  Forall (λ x, length (values x.2) ≤ 10) (df st) →
  same_outcome (loop_body lib col st) (loop_body lib col st').
Proof.
  intros Hsame Hrows. pose proof Hsame as (Hdf & Hdc & Hcc).
  unfold loop_body. rewrite <- Hdf.
  destruct (getitem (df st) col) as [s|] eqn:Hs; [|done].
  pose proof (timestamp_branch_same col s st st' Hsame) as Ht.
  destruct (timestamp_branch lib col s st) as [st1|],
           (timestamp_branch lib col s st') as [st1'|]; try done.
  assert (length (dropna s) ≤ 10) as Hlen.
  { rewrite Forall_forall in Hrows.
    pose proof (Hrows _ (getitem_Some_elem _ _ _ Hs)) as Hn. simpl in Hn.
    unfold dropna. pose proof (length_filter (λ c, is_missing c = false)
                                 (values s)). lia. }
  rewrite !sample_branch_exact. cbv zeta.
  rewrite (Permutation_length (drawn_short st s Hlen)).
  rewrite (Permutation_length (drawn_short st' s Hlen)).
  rewrite (count_parsed_Permutation _ _ (drawn_short st s Hlen)).
  rewrite (count_parsed_Permutation _ _ (drawn_short st' s Hlen)).
  assert (∀ r r', same_tables (with_rng r st) (with_rng r' st')) as Hw.
  { intros r r'. by unfold same_tables. }
  destruct (decide (length (dropna s) = 0)); [by split|].
  destruct (decide (7 * length (dropna s) < 10 * count_parsed lib (dropna s)));
    [|apply Hw].
  destruct (to_datetime lib s Infer Coerce) as [e|c]; [apply Hw|].
  unfold same_outcome, same_tables, convert_in_place. simpl.
  by rewrite Hdf, Hdc.
Qed.

Lemma loop_body_rows_le (n : nat) col st :
  Forall (λ x, length (values x.2) ≤ n) (df st) →
  Forall (λ x, length (values x.2) ≤ n)
         (df (state_of (loop_body lib col st))).
Proof.
  intros Hd.
  destruct (loop_body_one_write lib col st)
    as [->|(name & s & c & h & e & Hs & Hc & ->)]; [done|].
  rewrite Forall_forall in Hd |- *. intros [k x] Hx.
  apply elem_of_setitem in Hx as [[-> ->]|Hx]; [|by apply Hd]. simpl.
  rewrite (to_datetime_length _ _ _ _ _ Hc).
  apply list_elem_of_fmap in Hs as ([k' s'] & -> & Hin). by apply (Hd _ Hin).
Qed.

(** On a table of at most ten rows the sample is the whole column, and
    what the detector does to the table, which columns it lists and which
    conversions it records do not depend on the random generator. *)
Theorem small_table_any_generator (r r' : Rng) d :
  Forall (λ x, length (values x.2) ≤ 10) d →
  same_outcome (auto_convert_datetime lib r d) (auto_convert_datetime lib r' d).
Proof.
  intros Hrows. unfold auto_convert_datetime.
  assert (same_tables (initial r d) (initial r' d)) as Hsame by done.
  assert (Forall (λ x, length (values x.2) ≤ 10) (df (initial r d)))
    as Hrows0 by done.
  revert Hsame Hrows0.
  generalize (initial r d), (initial r' d), (columns d).
  intros st st' cols. revert st st'.
  induction cols as [|col rest IH]; intros st st' Hsame Hrows0; [done|].
  simpl. pose proof (loop_body_same col st st' Hsame Hrows0) as Hstep.
  pose proof (loop_body_rows_le 10 col st Hrows0) as Hrows1.
  destruct (loop_body lib col st) as [st1|e st1],
           (loop_body lib col st') as [st1'|e' st1']; try done.
  by apply IH.
Qed.

(** Every name the detector lists as a date column is a column of the
    table it leaves, of date/time dtype. *)
Theorem date_cols_are_datetime_columns (r : Rng) d (c : string) :
  c ∈ date_cols (state_of (auto_convert_datetime lib r d)) →
  ∃ s, getitem (df (state_of (auto_convert_datetime lib r d))) c = Some s ∧
       dtype_of s = Datetime.
Proof.
  unfold auto_convert_datetime. revert c.
  apply (for_each_preserves lib
    (λ st, ∀ c, c ∈ date_cols st →
                ∃ s, getitem (df st) c = Some s ∧ dtype_of s = Datetime)).
  - intros col st Hst c.
    assert (∀ name conv c, dtype_of conv = Datetime →
              c ∈ date_cols st ++ [name] →
              ∃ s, getitem (setitem (df st) name conv) c = Some s ∧
                   dtype_of s = Datetime) as Hwrite.
    { intros name conv c0 Hdt Hin. rewrite getitem_setitem.
      case_decide; [by eauto|].
      apply elem_of_app in Hin as [Hin|Hin]; [by apply Hst|].
      apply list_elem_of_singleton in Hin. by subst. }
    destruct (loop_body_case lib col st) as
      [H|s c0 Hs _ _ Hc|s e c0 Hs _ _ _ Hc|s Hs _ _|s c0 Hs _ _ _ Hc
       |s Hs _ _ _]; simpl; try apply Hst;
      apply Hwrite; by eapply to_datetime_dtype.
  - intros c Hc. inversion Hc.
Qed.

(** A column the detector does not list as a date column holds, when the
    detector is left, exactly what it held in the table it was given. *)
Theorem unlisted_columns_untouched (r : Rng) d (c : string) :
  c ∈ date_cols (state_of (auto_convert_datetime lib r d)) ∨
  getitem (df (state_of (auto_convert_datetime lib r d))) c = getitem d c.
Proof.
  unfold auto_convert_datetime.
  apply (for_each_preserves lib
    (λ st, c ∈ date_cols st ∨ getitem (df st) c = getitem d c));
    [|by right].
  intros col st Hst.
  assert (∀ name conv,
            c ∈ date_cols st ++ [name] ∨
            getitem (setitem (df st) name conv) c = getitem d c) as Hwrite.
  { intros name conv. destruct Hst as [Hin|Heq].
    - left. apply elem_of_app. by left.
    - rewrite getitem_setitem. case_decide; [|by right].
      left. subst. apply elem_of_app. right. left. }
  destruct (loop_body_case lib col st); simpl; try done; apply Hwrite.
Qed.

(** Every source the detector records a conversion for is a column of the
    table it was given, numeric there, with a maximum above 10^9 and
    values that read as seconds or as milliseconds. *)
Theorem conversion_sources (r : Rng) d (source derived : string) :
  converted_cols (state_of (auto_convert_datetime lib r d)) !! source =
    Some derived →
  ∃ s, getitem d source = Some s ∧ qualifies lib s.
Proof.
  unfold auto_convert_datetime. intros H.
  assert ((∀ c s, getitem (df (state_of (for_each lib (columns d) (initial r d))))
                    c = Some s →
                  dtype_of s ≠ Datetime → getitem d c = Some s) ∧
          (∀ k v, converted_cols (state_of
                    (for_each lib (columns d) (initial r d))) !! k = Some v →
                  ∃ s, getitem d k = Some s ∧ qualifies lib s)) as [_ Hk];
    [|by eapply Hk].
  apply (for_each_preserves lib
    (λ st, (∀ c s, getitem (df st) c = Some s → dtype_of s ≠ Datetime →
                   getitem d c = Some s) ∧
           (∀ k v, converted_cols st !! k = Some v →
                   ∃ s, getitem d k = Some s ∧ qualifies lib s))).
  - intros col st [Hin Hconv].
    assert (∀ name conv, dtype_of conv = Datetime →
              ∀ c s, getitem (setitem (df st) name conv) c = Some s →
                     dtype_of s ≠ Datetime → getitem d c = Some s) as Hwrite.
    { intros name conv Hdt c s. rewrite getitem_setitem.
      case_decide; [|by apply Hin]. intros [= <-]. done. }
    assert (∀ s, getitem (df st) col = Some s → qualifies lib s →
              ∀ k v, <[col := datetime_name col]> (converted_cols st) !! k
                     = Some v →
                     ∃ s, getitem d k = Some s ∧ qualifies lib s) as Hrec.
    { intros s Hs Hq k v. rewrite lookup_insert.
      case_decide; [|by apply Hconv]. subst. intros _. exists s.
      split; [|done]. apply Hin; [done|].
      by apply (qualifies_not_datetime lib). }
    destruct (loop_body_case lib col st) as
      [H0|s c0 Hs Hn Hm Hc|s e c0 Hs Hn Hm He Hc|s Hs _ _|s c0 Hs _ _ _ Hc
       |s Hs _ _ _]; simpl; try done.
    + split; [apply Hwrite; by eapply to_datetime_dtype|].
      apply (Hrec s Hs). split_and!; [done..|]. exists c0. by left.
    + split; [apply Hwrite; by eapply to_datetime_dtype|].
      apply (Hrec s Hs). split_and!; [done..|]. exists c0. by right.
    + split; [apply Hwrite; by eapply to_datetime_dtype | done].
  - split; [done|]. intros k v Hk. simpl in Hk. by rewrite lookup_empty in Hk.
Qed.

End DetectorMore.

(** ** The loaders *)

Section LoaderFacts.

Context {Row : Type}.

Implicit Types (chunks chunk_list : list (list Row)) (n : nat).

(** The loop reads a front part of the chunks: all of them, or just enough
    of them to hold more than [n] rows. *)
Lemma read_chunks_front n chunk_list chunks :
  length (concat chunk_list) ≤ n →
  ∃ k, k ≤ length chunks ∧
       read_chunks n chunk_list chunks = chunk_list ++ take k chunks ∧
       (k = length chunks ∨ n < length (concat (chunk_list ++ take k chunks))) ∧
       (k = 0 ∨ length (concat (chunk_list ++ take (k - 1) chunks)) ≤ n) ∧
       (chunks ≠ [] → k ≠ 0).
Proof.
  revert chunk_list. induction chunks as [|chunk rest IH]; intros acc Hacc.
  - exists 0. simpl. rewrite app_nil_r. split_and!; auto.
  - simpl. destruct (n <? length (concat (acc ++ [chunk]))) eqn:Hlt.
    + apply Nat.ltb_lt in Hlt. exists 1. simpl.
      split_and!; [lia | done | by right | right | done].
      by rewrite app_nil_r.
    + apply Nat.ltb_ge in Hlt.
      destruct (IH (acc ++ [chunk]) Hlt) as (k & Hk & Hread & Hend & Hprev & _).
      exists (S k). simpl. rewrite Nat.sub_0_r.
      replace (acc ++ chunk :: take k rest) with ((acc ++ [chunk]) ++ take k rest)
        by (by rewrite <- app_assoc).
      split_and!; [lia | done | | right | done].
      * destruct Hend as [->|?]; [by left | by right].
      * destruct k as [|k]; [simpl; by rewrite app_nil_r|].
        destruct Hprev as [?|Hprev]; [done|]. simpl in Hprev.
        rewrite Nat.sub_0_r in Hprev. simpl.
        by rewrite <- app_assoc in Hprev.
Qed.

Lemma read_large_csv_rows chunks n :
  match chunks with
  | [] => read_large_csv chunks n = LoadRaised ValueError
  | _ =>
      ∃ info, read_large_csv chunks n = Loaded (take n (concat chunks)) info ∧
              (is_Some info ↔ n < length (concat chunks))
  end.
Proof.
  destruct chunks as [|chunk rest]; [done|].
  set (chunks := chunk :: rest).
  destruct (read_chunks_front n [] chunks) as (k & Hk & Hread & Hend & _ & Hk0);
    [simpl; lia|].
  rewrite !app_nil_l in Hread, Hend. unfold read_large_csv. rewrite Hread.
  destruct (take k chunks) as [|c0 front] eqn:Hfront.
  { destruct k; [by destruct Hk0 | done]. }
  rewrite <- Hfront in *.
  assert (concat chunks = concat (take k chunks) ++ concat (drop k chunks))
    as Hsplit by (by rewrite <- concat_app, take_drop).
  destruct (n <? length (concat (take k chunks))) eqn:Hlt.
  - apply Nat.ltb_lt in Hlt. eexists. split.
    + f_equal. rewrite Hsplit. by rewrite take_app_le by lia.
    + split; [intros _|by eauto]. rewrite Hsplit, length_app.
      eapply Nat.lt_le_trans; [exact Hlt | apply Nat.le_add_r].
  - apply Nat.ltb_ge in Hlt. destruct Hend as [->|?]; [|lia].
    rewrite firstn_all in *. eexists. split.
    + f_equal. by rewrite take_ge.
    + split; [by intros [? ?]|lia].
Qed.

(** Whatever the chunks the file comes in, the CSV loader returns the
    first [sample_size] rows of the file, in the order of the file (all of
    them when there are no more), and shows its message exactly when the
    file has more rows than that; with no chunk at all it raises. *)
Theorem read_large_csv_head chunks n :
  match chunks with
  | [] => read_large_csv chunks n = LoadRaised ValueError
  | _ =>
      ∃ info, read_large_csv chunks n = Loaded (take n (concat chunks)) info ∧
              (is_Some info ↔ n < length (concat chunks))
  end.
Proof. apply read_large_csv_rows. Qed.

(** The loader stops reading as soon as it holds more than [sample_size]
    rows: with chunks of at most [chunksize] rows it never holds more than
    [sample_size + chunksize] of them, and the row count its message shows
    is the number of rows read so far, not the number of rows of the file. *)
Theorem read_large_csv_bounded chunks n (chunksize : nat) :
  Forall (λ chunk, length chunk ≤ chunksize) chunks →
  read_chunks n [] chunks `prefix_of` chunks ∧
  length (concat (read_chunks n [] chunks)) ≤ n + chunksize ∧
  ∀ rows m, read_large_csv chunks n = Loaded rows (Some m) →
            m = length (concat (read_chunks n [] chunks)) ∧
            n < m ≤ n + chunksize.
Proof.
  intros Hsize.
  destruct (read_chunks_front n [] chunks) as (k & Hk & Hread & _ & Hprev & _);
    [simpl; lia|].
  rewrite !app_nil_l in Hread, Hprev.
  assert (length (concat (take k chunks)) ≤ n + chunksize) as Hbound.
  { destruct Hprev as [->|Hprev]; [simpl; lia|].
    destruct k as [|k]; [simpl; lia|]. simpl in Hprev.
    rewrite Nat.sub_0_r in Hprev.
    destruct (chunks !! k) as [chunk|] eqn:Hchunk.
    - rewrite (take_S_r _ _ _ Hchunk), concat_app, length_app. simpl.
      rewrite app_nil_r. rewrite Forall_forall in Hsize.
      pose proof (Hsize chunk (list_elem_of_lookup_2 _ _ _ Hchunk)). lia.
    - apply lookup_ge_None in Hchunk. lia. }
  rewrite Hread. split_and!; [apply prefix_take | done |].
  intros rows m. unfold read_large_csv. rewrite Hread.
  destruct (take k chunks) as [|c0 front] eqn:Hfront; [done|].
  rewrite <- Hfront in *.
  destruct (n <? length (concat (take k chunks))) eqn:Hlt; [|done].
  apply Nat.ltb_lt in Hlt. intros [= _ <-]. lia.
Qed.

(** The two loaders agree: for a sheet that holds the rows of the CSV
    file, the Excel loader returns the same rows as the CSV loader and
    shows its message in the same cases. *)
Theorem loaders_agree chunks n (sheet_names : list string) (choice name : string)
    (sheet : string → list Row) :
  chunks ≠ [] →
  (if 1 <? length sheet_names then Some choice else sheet_names !! 0)
    = Some name →
  sheet name = concat chunks →
  ∃ rows info info',
    read_large_csv chunks n = Loaded rows info ∧
    read_excel_with_sampling sheet_names choice sheet n = Loaded rows info' ∧
    rows = take n (concat chunks) ∧
    (is_Some info ↔ is_Some info') ∧
    (∀ total, info' = Some total → total = length (concat chunks)).
Proof.
  intros Hne Hname Hsheet.
  pose proof (read_large_csv_rows chunks n) as Hcsv.
  destruct chunks as [|chunk rest]; [done|].
  destruct Hcsv as (info & Hcsv & Hinfo).
  unfold read_excel_with_sampling. rewrite Hname, Hsheet.
  destruct (n <? length (concat (chunk :: rest))) eqn:Hlt.
  - apply Nat.ltb_lt in Hlt.
    exists (take n (concat (chunk :: rest))), info,
           (Some (length (concat (chunk :: rest)))).
    split_and!; [done | done | done | | by intros total [= <-]].
    split; [by eauto | intros _; by apply Hinfo].
  - apply Nat.ltb_ge in Hlt. rewrite take_ge in Hcsv |- * by done.
    exists (concat (chunk :: rest)), info, None.
    split_and!; [done | done | done | | done].
    split; [intros H; apply Hinfo in H; lia | by intros [? ?]].
Qed.

End LoaderFacts.

(** ** The upload handler and the reset button *)

Section Upload.

Variable lib : Library.

Implicit Types (d : DataFrame) (app : App) (r : Rng).

(** Every derived column the detector records is listed as a date
    column. *)
Lemma for_each_conversions_listed (cols : list string) (st : State) :
  (∀ k v, converted_cols st !! k = Some v → v ∈ date_cols st) →
  ∀ k v, converted_cols (state_of (for_each lib cols st)) !! k = Some v →
         v ∈ date_cols (state_of (for_each lib cols st)).
Proof.
  apply (for_each_preserves lib
    (λ st, ∀ k v, converted_cols st !! k = Some v → v ∈ date_cols st)).
  intros col st0 Hst.
  destruct (loop_body_case lib col st0); simpl; try done.
  - intros k v. rewrite lookup_insert. case_decide.
    + intros [= <-]. apply elem_of_app. right. left.
    + intros Hk. apply elem_of_app. left. by eapply Hst.
  - intros k v. rewrite lookup_insert. case_decide.
    + intros [= <-]. apply elem_of_app. right. left.
    + intros Hk. apply elem_of_app. left. by eapply Hst.
  - intros k v Hk. apply elem_of_app. left. by eapply Hst.
Qed.

Lemma upload_loaded r (name : string) (use_sampling : bool) d app :
  file_kind_of name ≠ OtherFile →
  upload lib r name use_sampling (inr d) app =
  let notices :=
    match file_kind_of name with
    | CsvFile => if use_sampling then [] else [CsvLoaded]
    | _ => [ExcelLoaded]
    end in
  let app2 :=
    {| app_df := Some d; app_original_df := Some d;
       app_selected_columns := app_selected_columns app;
       app_date_columns := app_date_columns app;
       app_date_conversions := app_date_conversions app |} in
  match auto_convert_datetime lib r d with
  | Raised e st => read_failed (exn_text e) notices (rng st) app2
  | Returned st =>
      ({| app_df := Some (df st); app_original_df := Some d;
          app_selected_columns := app_selected_columns app;
          app_date_columns := date_cols st;
          app_date_conversions := converted_cols st |},
       notices ++
         [match date_cols st with
          | [] => NoDatesDetected
          | _ => DatesDetected (length (date_cols st))
          end],
       rng st)
  end.
Proof.
  intros Hkind. unfold upload. by destruct (file_kind_of name).
Qed.

(** A file with a column that holds no value cannot be loaded: the table
    is read, kept as [original_df], and then dropped; the session is left
    without a table, with the date columns it listed before, and the
    error shown as a reading error is the division by zero of the
    detector. *)
Theorem upload_rejects_empty_column r (name : string) (use_sampling : bool)
    d app (c : string) (s : Series) :
  file_kind_of name ≠ OtherFile →
  getitem d c = Some s →
  Forall (λ x, x = Missing) (values s) →
  (∀ y, y ∈ columns d → c ≠ datetime_name y) →
  ∃ notices r',
    upload lib r name use_sampling (inr d) app =
    ({| app_df := None; app_original_df := Some d;
        app_selected_columns := app_selected_columns app;
        app_date_columns := app_date_columns app;
        app_date_conversions := app_date_conversions app |},
     notices ++ [ReadError "division by zero"], r').
Proof.
  intros Hkind Hs Hall Hname. rewrite upload_loaded by done. cbv zeta.
  destruct (all_missing_column_never_returns lib r d c s Hs Hall Hname)
    as [st ->].
  by eexists _, _.
Qed.

(** Once the file is read, the only failure the handler can report is that
    division by zero. *)
Theorem upload_failure_is_division_by_zero r (name : string)
    (use_sampling : bool) d app app' (notices : list notice) r' :
  file_kind_of name ≠ OtherFile →
  upload lib r name use_sampling (inr d) app = (app', notices, r') →
  app_df app' = None →
  last notices = Some (ReadError "division by zero") ∧
  app_original_df app' = Some d ∧
  ∃ st, auto_convert_datetime lib r d = Raised ZeroDivisionError st.
Proof.
  intros Hkind. rewrite upload_loaded by done. cbv zeta.
  destruct (auto_convert_datetime lib r d) as [st|e st] eqn:Hrun.
  - by intros [= <- <- <-].
  - apply only_zero_division_leaves in Hrun as Hrun'. subst e.
    unfold read_failed. intros [= <- <- <-] _.
    split_and!; [by rewrite last_snoc | done | by eexists].
Qed.

(** After a successful upload the session is consistent: [original_df] is
    the table as read, its columns come first in the table of the
    session, every date column listed is a date/time column of that
    table, and every conversion recorded leads to a listed date column. *)
Theorem upload_consistent r (name : string) (use_sampling : bool) d app app'
    (notices : list notice) r' (current : DataFrame) :
  file_kind_of name ≠ OtherFile →
  upload lib r name use_sampling (inr d) app = (app', notices, r') →
  app_df app' = Some current →
  app_original_df app' = Some d ∧
  columns d `prefix_of` columns current ∧
  (∀ c, c ∈ app_date_columns app' →
        ∃ s, getitem current c = Some s ∧ dtype_of s = Datetime) ∧
  (∀ source derived, app_date_conversions app' !! source = Some derived →
        derived = datetime_name source ∧ derived ∈ app_date_columns app') ∧
  last notices = Some (match app_date_columns app' with
                       | [] => NoDatesDetected
                       | _ => DatesDetected (length (app_date_columns app'))
                       end).
Proof.
  intros Hkind. rewrite upload_loaded by done. cbv zeta.
  destruct (auto_convert_datetime lib r d) as [st|e st] eqn:Hrun;
    [|by intros [= <- <- <-]].
  intros [= <- <- <-] [= <-]. simpl.
  unfold auto_convert_datetime in Hrun.
  split_and!.
  - done.
  - pose proof (for_each_columns lib (columns d) (initial r d)) as H.
    by rewrite Hrun in H.
  - intros c Hc.
    assert (∀ st0 cols,
      (∀ c, c ∈ date_cols st0 →
            ∃ s, getitem (df st0) c = Some s ∧ dtype_of s = Datetime) →
      ∀ c, c ∈ date_cols (state_of (for_each lib cols st0)) →
           ∃ s, getitem (df (state_of (for_each lib cols st0))) c = Some s ∧
                dtype_of s = Datetime) as Hinv.
    { intros st0 cols. apply (for_each_preserves lib
        (λ st, ∀ c, c ∈ date_cols st →
                    ∃ s, getitem (df st) c = Some s ∧ dtype_of s = Datetime)).
      intros col st1 Hst c0 Hc0.
      pose proof (loop_body_one_write lib col st1) as Hw.
      destruct (loop_body_case lib col st1) as
        [H|s c1 Hs _ _ Hc1|s e c1 Hs _ _ _ Hc1|s Hs _ _|s c1 Hs _ _ _ Hc1
         |s Hs _ _ _]; simpl in *; try by apply Hst.
      all: rewrite getitem_setitem; case_decide;
        [eexists; split; [done | by eapply to_datetime_dtype]|];
        apply elem_of_app in Hc0 as [Hc0|Hc0]; [by apply Hst|];
        apply list_elem_of_singleton in Hc0; by subst. }
    specialize (Hinv (initial r d) (columns d)). rewrite Hrun in Hinv.
    apply Hinv; [|done]. intros c0 Hc0. inversion Hc0.
  - intros source derived Hk.
    pose proof (for_each_conversions lib (columns d) (initial r d)) as H1.
    pose proof (for_each_conversions_listed (columns d) (initial r d)) as H2.
    rewrite Hrun in H1, H2. simpl in H1, H2. split.
    + eapply H1; [|exact Hk]. intros k v Hkv. simpl in Hkv. by rewrite lookup_empty in Hkv.
    + eapply H2; [|exact Hk]. intros k v Hkv. simpl in Hkv. by rewrite lookup_empty in Hkv.
  - by rewrite last_snoc.
Qed.

(** With no file in the uploader (the table came from the sample-data
    button), the reset button brings back the table as generated but
    leaves the list of date columns as it is, and the run that follows
    leaves the session alone: a column the detector derived is listed and
    no longer in the table, and the date range section raises KeyError
    when it reads it (line 373). *)
Theorem reset_forgets_derived_columns (zones : Zones)
    (selected_tz column_tz : option string) r d app app'
    (notices : list notice) r' (r'' : Rng) (source derived : string)
    (start_date end_date : option Z) (pressed : bool) :
  generate lib r d app = inr (app', notices, r') →
  app_date_conversions app' !! source = Some derived →
  derived ∉ columns d →
  ∃ app'',
    reset app' = inr app'' ∧
    data_processing lib r'' (NoFile None) app'' = inr (app'', [], r'') ∧
    app_df app'' = Some d ∧
    app_selected_columns app'' = columns d ∧
    derived ∈ app_date_columns app'' ∧
    date_filter zones selected_tz column_tz derived start_date end_date
      pressed app'' = inl (LookupKeyError derived).
Proof.
  unfold generate.
  destruct (auto_convert_datetime lib r d) as [st|e st] eqn:Hrun; [|done].
  intros [= <- <- <-]. simpl. intros Hk Hnot.
  unfold auto_convert_datetime in Hrun.
  pose proof (for_each_conversions_listed (columns d) (initial r d)) as H2.
  rewrite Hrun in H2. simpl in H2.
  assert (derived ∈ date_cols st) as Hin.
  { eapply H2; [|exact Hk]. intros k v Hkv. simpl in Hkv.
    by rewrite lookup_empty in Hkv. }
  eexists. split; [done|]. simpl. split_and!; try done.
  unfold date_filter, date_section. simpl.
  destruct (date_cols st) as [|c0 l]; [inversion Hin|].
  apply getitem_None in Hnot. by rewrite Hnot.
Qed.


End Upload.

(** ** The date range filter *)

Section DateFilter.

Variable zones : Zones.

Implicit Types (d : DataFrame) (s : Series) (mask : list bool).

Lemma select_mask_nil_r {A : Type} mask : select_mask mask (@nil A) = [].
Proof. by destruct mask. Qed.

Lemma select_mask_filter {A : Type} (f : A → bool) (l : list A) :
  select_mask (map f l) l = filter (λ x, f x = true) l.
Proof.
  induction l as [|x l IH]; [done|]. simpl. destruct (f x) eqn:Hf.
  - rewrite filter_cons_True by done. by rewrite IH.
  - rewrite filter_cons_False; [done|]. by rewrite Hf.
Qed.

Lemma select_mask_length {A B : Type} (f : B → bool) (vs : list B)
    (xs : list A) :
  length xs = length vs →
  length (select_mask (map f vs) xs) =
  length (filter (λ v, f v = true) vs).
Proof.
  revert xs. induction vs as [|v vs IH]; intros [|x xs] Hlen; try done.
  simpl. simpl in Hlen. destruct (f v) eqn:Hf.
  - rewrite filter_cons_True by done. simpl. f_equal. apply IH. lia.
  - rewrite filter_cons_False by (by rewrite Hf). apply IH. lia.
Qed.

(** Filtering what a filter left is filtering once with both tests. *)
Lemma select_mask_compose {A B : Type} (f g : B → bool) (vs : list B)
    (xs : list A) :
  select_mask (map g (select_mask (map f vs) vs))
              (select_mask (map f vs) xs) =
  select_mask (map (λ v, f v && g v) vs) xs.
Proof.
  revert xs. induction vs as [|v vs IH]; intros xs; [done|].
  destruct xs as [|x xs].
  { simpl. destruct (f v); simpl; [destruct (g v)|]; by rewrite ?select_mask_nil_r. }
  simpl. destruct (f v); simpl; [|apply IH].
  destruct (g v); [f_equal|]; apply IH.
Qed.

Lemma columns_loc mask d : columns (loc mask d) = columns d.
Proof.
  unfold columns, loc. rewrite <- list_fmap_compose. by apply list_fmap_ext.
Qed.

Lemma getitem_loc mask d (c : string) :
  getitem (loc mask d) c =
  (λ x, mkSeries (dtype_of x) (select_mask mask (values x))) <$> getitem d c.
Proof.
  induction d as [|[n x] d IH]; [done|]. simpl. by case_decide.
Qed.

Lemma loc_compose {B : Type} (f g : B → bool) (vs : list B) d :
  loc (map g (select_mask (map f vs) vs)) (loc (map f vs) d) =
  loc (map (λ v, f v && g v) vs) d.
Proof.
  unfold loc. rewrite <- list_fmap_compose. apply list_fmap_ext.
  intros i [n x] _. simpl. by rewrite select_mask_compose.
Qed.

Lemma between_and (lo hi lo' hi' : Z) (c : cell) :
  between lo hi c && between lo' hi' c =
  between (Z.max lo lo') (Z.min hi hi') c.
Proof.
  destruct c; try done. simpl.
  destruct (Z.leb_spec lo ns), (Z.leb_spec ns hi), (Z.leb_spec lo' ns),
    (Z.leb_spec ns hi'), (Z.leb_spec (Z.max lo lo') ns),
    (Z.leb_spec ns (Z.min hi hi')); simpl; try done; lia.
Qed.

Lemma timestamp_of_day_max (a b : Z) :
  timestamp_of_day (Z.max a b) = Z.max (timestamp_of_day a) (timestamp_of_day b).
Proof. unfold timestamp_of_day, day_ns. lia. Qed.

Lemma timestamp_of_day_min (a b : Z) :
  timestamp_of_day (Z.min a b) = Z.min (timestamp_of_day a) (timestamp_of_day b).
Proof. unfold timestamp_of_day, day_ns. lia. Qed.

(** The least and the greatest Timestamp of a column. *)
Lemma stamp_fold_min s (m : Z) :
  stamp_fold Z.min s = Some m →
  Stamp m ∈ values s ∧ ∀ t, Stamp t ∈ values s → (m ≤ t)%Z.
Proof.
  unfold stamp_fold. revert m.
  induction (values s) as [|c l IH]; intros m; [done|]. simpl.
  destruct c as [|v|x|t0];
    try (intros H; destruct (IH m H) as [Hin Hle]; split;
         [by right | intros t Ht; apply elem_of_cons in Ht as [?|?];
                     [done | by apply Hle]]).
  destruct (foldr _ None l) as [m0|] eqn:Hfold.
  - intros [= <-]. destruct (IH m0 eq_refl) as [Hin Hle]. split.
    + destruct (Z.min_spec t0 m0) as [[_ ->]|[_ ->]]; [left | by right].
    + intros t Ht. apply elem_of_cons in Ht as [[= ->]|Ht]; [lia|].
      specialize (Hle t Ht). lia.
  - intros [= <-]. split; [left|].
    intros t Ht. apply elem_of_cons in Ht as [[= ->]|Ht]; [lia|].
    exfalso. clear IH. induction l as [|c l IHl]; [inversion Ht|].
    simpl in Hfold. apply elem_of_cons in Ht as [<-|Ht].
    + by destruct (foldr _ None l).
    + apply IHl; [|done]. destruct c; try done.
      by destruct (foldr _ None l).
Qed.

Lemma stamp_fold_max s (m : Z) :
  stamp_fold Z.max s = Some m →
  Stamp m ∈ values s ∧ ∀ t, Stamp t ∈ values s → (t ≤ m)%Z.
Proof.
  unfold stamp_fold. revert m.
  induction (values s) as [|c l IH]; intros m; [done|]. simpl.
  destruct c as [|v|x|t0];
    try (intros H; destruct (IH m H) as [Hin Hle]; split;
         [by right | intros t Ht; apply elem_of_cons in Ht as [?|?];
                     [done | by apply Hle]]).
  destruct (foldr _ None l) as [m0|] eqn:Hfold.
  - intros [= <-]. destruct (IH m0 eq_refl) as [Hin Hle]. split.
    + destruct (Z.max_spec t0 m0) as [[_ ->]|[_ ->]]; [by right | left].
    + intros t Ht. apply elem_of_cons in Ht as [[= ->]|Ht]; [lia|].
      specialize (Hle t Ht). lia.
  - intros [= <-]. split; [left|].
    intros t Ht. apply elem_of_cons in Ht as [[= ->]|Ht]; [lia|].
    exfalso. clear IH. induction l as [|c l IHl]; [inversion Ht|].
    simpl in Hfold. apply elem_of_cons in Ht as [<-|Ht].
    + by destruct (foldr _ None l).
    + apply IHl; [|done]. destruct c; try done.
      by destruct (foldr _ None l).
Qed.

Lemma stamp_fold_is_Some (f : Z → Z → Z) s :
  notnull_any s = true → Forall stamp_or_missing (values s) →
  is_Some (stamp_fold f s).
Proof.
  unfold notnull_any, stamp_fold. intros Hany Hty.
  induction Hty as [|c l Hc _ IH]; [done|]. simpl in *.
  destruct c; try done; simpl in Hany.
  - by apply IH.
  - destruct (foldr _ None l); by eauto.
Qed.

(** What the section does when the button is pressed on a tz-naive
    date/time column that holds a value, with no time zone selected. *)
Lemma date_section_pressed (date_columns : list string) (sel : string)
    (start_date end_date : option Z) d s :
  date_columns ≠ [] → getitem d sel = Some s →
  notnull_any s = true → Forall stamp_or_missing (values s) →
  ∃ min_date max_date,
    stamp_fold Z.min s = Some min_date ∧ stamp_fold Z.max s = Some max_date ∧
    date_section zones None None date_columns sel start_date end_date true d =
    inr (Filtered
           (loc (map (between
                        (timestamp_of_day (default (date_of min_date) start_date))
                        (timestamp_of_day (default (date_of max_date) end_date)))
                     (values s)) d)
           (nrows (loc (map (between
                        (timestamp_of_day (default (date_of min_date) start_date))
                        (timestamp_of_day (default (date_of max_date) end_date)))
                     (values s)) d))).
Proof.
  intros Hdc Hs Hany Hty.
  destruct (stamp_fold_is_Some Z.min s Hany Hty) as [lo Hlo].
  destruct (stamp_fold_is_Some Z.max s Hany Hty) as [hi Hhi].
  exists lo, hi. split_and!; [done..|].
  unfold date_section. destruct date_columns; [done|].
  by rewrite Hs, Hany, Hlo, Hhi.
Qed.

(** Two filters with no time zone, one on the result of the other. *)
Lemma date_section_compose (date_columns : list string) (sel : string)
    (a b a' b' : Z) d d1 d2 (n1 n2 : nat) :
  date_section zones None None date_columns sel (Some a) (Some b) true d
    = inr (Filtered d1 n1) →
  date_section zones None None date_columns sel (Some a') (Some b') true d1
    = inr (Filtered d2 n2) →
  date_section zones None None date_columns sel
    (Some (Z.max a a')) (Some (Z.min b b')) true d
    = inr (Filtered d2 n2).
Proof.
  unfold date_section. destruct date_columns as [|c0 dc]; [done|].
  destruct (getitem d sel) as [s|] eqn:Hs; [|done].
  destruct (notnull_any s); [|done].
  destruct (stamp_fold Z.min s) as [mn|]; [|done].
  destruct (stamp_fold Z.max s) as [mx|]; [|done].
  simpl. intros [= <- <-]. rewrite getitem_loc, Hs. simpl.
  destruct (notnull_any _); [|done].
  destruct (stamp_fold Z.min _) as [mn'|]; [|done].
  destruct (stamp_fold Z.max _) as [mx'|]; [|done].
  intros [= <- <-].
  rewrite loc_compose.
  rewrite timestamp_of_day_max, timestamp_of_day_min.
  assert (map (λ v, between (timestamp_of_day a) (timestamp_of_day b) v &&
                    between (timestamp_of_day a') (timestamp_of_day b') v)
              (values s) =
          map (between (Z.max (timestamp_of_day a) (timestamp_of_day a'))
                       (Z.min (timestamp_of_day b) (timestamp_of_day b')))
              (values s)) as ->; [|done].
  apply map_ext. intros c. apply between_and.
Qed.

Lemma nrows_loc mask d s (sel : string) (n : nat) :
  getitem d sel = Some s →
  Forall (λ x, length (values x.2) = n) (loc mask d) →
  nrows (loc mask d) = n.
Proof.
  intros Hs Hall. destruct d as [|[c x] d]; [done|].
  simpl in *. by apply Forall_cons in Hall as [? _].
Qed.

End DateFilter.

Section DateFilterProperties.

Variable lib : Library.
Variable zones : Zones.

Implicit Types (d : DataFrame) (s : Series) (app : App).

(** With no time zone selected and a tz-naive column, pressing the filter
    button with the dates [a] and [b] keeps exactly the rows whose date
    lies between midnight of [a] and midnight of [b]: every column keeps
    its name, its dtype and its values at those rows, in order; rows
    without a date are dropped; the table stays rectangular and the row
    count shown is its number of rows. *)
Theorem date_filter_rows (date_columns : list string) (sel : string)
    (a b : Z) d s :
  date_columns ≠ [] → getitem d sel = Some s →
  notnull_any s = true → Forall stamp_or_missing (values s) →
  Forall (λ x, length (values x.2) = length (values s)) d →
  let lo := timestamp_of_day a in
  let hi := timestamp_of_day b in
  let kept := filter (λ c, between lo hi c = true) (values s) in
  ∃ d',
    date_section zones None None date_columns sel (Some a) (Some b) true d =
      inr (Filtered d' (length kept)) ∧
    columns d' = columns d ∧
    Forall (λ x, length (values x.2) = length kept) d' ∧
    getitem d' sel = Some (mkSeries (dtype_of s) kept) ∧
    Forall (λ c, ∃ t, c = Stamp t ∧ (lo ≤ t ≤ hi)%Z) kept ∧
    ∀ c x, getitem d c = Some x →
           getitem d' c =
           Some (mkSeries (dtype_of x)
                   (select_mask (map (between lo hi) (values s)) (values x))).
Proof.
  intros Hdc Hs Hany Hty Hrect lo hi kept.
  destruct (date_section_pressed zones date_columns sel (Some a) (Some b) d s
              Hdc Hs Hany Hty) as (mn & mx & _ & _ & Hsec).
  simpl in Hsec. fold lo hi in Hsec.
  set (d' := loc (map (between lo hi) (values s)) d) in *.
  assert (Forall (λ x, length (values x.2) = length kept) d') as Hrect'.
  { unfold d', loc. apply Forall_map. eapply Forall_impl; [exact Hrect|].
    intros [c x] Hlen. simpl in *. by apply select_mask_length. }
  exists d'. split_and!.
  - rewrite Hsec. do 2 f_equal. by eapply nrows_loc.
  - apply columns_loc.
  - done.
  - unfold d'. rewrite getitem_loc, Hs. simpl.
    by rewrite select_mask_filter.
  - apply Forall_forall. intros c Hc. apply list_elem_of_filter in Hc as [Hc _].
    destruct c; try done. simpl in Hc. exists ns. split; [done|].
    apply andb_true_iff in Hc as [?%Z.leb_le ?%Z.leb_le]. lia.
  - intros c x Hx. unfold d'. by rewrite getitem_loc, Hx.
Qed.

(** With no file in the uploader, no time zone selected and a tz-naive
    column: a filter in one run and a second filter in the run that
    follows leave the session as one filter with the later of the start
    dates and the earlier of the end dates does, and show the same row
    count. *)
Theorem date_filters_compose (sel : string) (a b a' b' : Z) app app1 app1'
    app2 (d1 d2 : DataFrame) (n1 n2 : nat) (r r' : Rng)
    (notices : list notice) :
  date_filter zones None None sel (Some a) (Some b) true app
    = inr (app1, Some (Filtered d1 n1)) →
  data_processing lib r (NoFile None) app1 = inr (app1', notices, r') →
  date_filter zones None None sel (Some a') (Some b') true app1'
    = inr (app2, Some (Filtered d2 n2)) →
  date_filter zones None None sel (Some (Z.max a a')) (Some (Z.min b b')) true
    app = inr (app2, Some (Filtered d2 n2)).
Proof.
  unfold date_filter, data_processing.
  destruct (app_df app) as [d|] eqn:Hd; [|done].
  destruct (date_section zones None None (app_date_columns app) sel (Some a)
              (Some b) true d) as [e|res] eqn:H1; [done|].
  destruct res as [| |mn mx|d1' n1']; try done.
  intros [= <- <- <-] [= <- _ _]. simpl.
  destruct (date_section zones None None (app_date_columns app) sel (Some a')
              (Some b') true d1') as [e|res] eqn:H2; [done|].
  destruct res as [| |mn mx|d2' n2']; try done.
  intros [= <- <- <-].
  by rewrite (date_section_compose zones _ _ _ _ _ _ _ _ _ _ _ H1 H2).
Qed.

(** With no time zone selected, a tz-naive column and the dates the two
    inputs show by default, the button keeps the rows up to midnight of
    the day of the greatest date only: when that date is later in its
    day, the rows that hold it are dropped, although the range shown
    covers every date of the column. *)
Theorem default_range_drops_last_day (date_columns : list string)
    (sel : string) d s (max_date : Z) :
  date_columns ≠ [] → getitem d sel = Some s →
  notnull_any s = true → Forall stamp_or_missing (values s) →
  stamp_fold Z.max s = Some max_date →
  ∃ d' rows s',
    date_section zones None None date_columns sel None None true d
      = inr (Filtered d' rows) ∧
    getitem d' sel = Some s' ∧
    (∀ t, Stamp t ∈ values s' ↔
          Stamp t ∈ values s ∧ (t ≤ timestamp_of_day (date_of max_date))%Z) ∧
    ((max_date mod day_ns ≠ 0)%Z →
     Stamp max_date ∈ values s ∧ (Stamp max_date ∉ values s') ∧
     length (values s') < length (values s)).
Proof.
  intros Hdc Hs Hany Hty Hmax.
  destruct (date_section_pressed zones date_columns sel None None d s
              Hdc Hs Hany Hty) as (mn & mx & Hmn & Hmx & Hsec).
  rewrite Hmax in Hmx. injection Hmx as <-. simpl in Hsec.
  destruct (stamp_fold_min s mn Hmn) as [_ Hle].
  destruct (stamp_fold_max s max_date Hmax) as [Hin _].
  eexists _, _, _. split; [exact Hsec|]. split.
  { rewrite getitem_loc, Hs. simpl. done. }
  assert (timestamp_of_day (date_of mn) ≤ mn)%Z as Hfloor.
  { unfold timestamp_of_day, date_of, day_ns.
    pose proof (Z.mul_div_le mn 86400000000000). lia. }
  simpl. rewrite select_mask_filter.
  assert (∀ t, Stamp t ∈ filter
                 (λ c, between (timestamp_of_day (date_of mn))
                               (timestamp_of_day (date_of max_date)) c = true)
                 (values s) ↔
               Stamp t ∈ values s ∧
               (t ≤ timestamp_of_day (date_of max_date))%Z) as Hkept.
  { intros t. rewrite list_elem_of_filter. simpl. rewrite andb_true_iff.
    rewrite !Z.leb_le. split; [naive_solver|].
    intros [Ht ?]. specialize (Hle t Ht). split; [lia | done]. }
  split; [exact Hkept|].
  intros Hmod.
  assert (timestamp_of_day (date_of max_date) < max_date)%Z as Hlt.
  { unfold timestamp_of_day, date_of, day_ns in *.
    pose proof (Z.div_mod max_date 86400000000000).
    pose proof (Z.mod_pos_bound max_date 86400000000000). lia. }
  split_and!; [done | |].
  - rewrite Hkept. lia.
  - apply (length_filter_lt _ _ (Stamp max_date)); [done|].
    simpl. rewrite andb_true_iff, !Z.leb_le. lia.
Qed.


End DateFilterProperties.

(** ** The column selector *)

Section ColumnSelector.

Variable widget : string → option bool.

Implicit Types (c x : string) (l pre rem all_columns selected : list string).

Lemma elem_of_list_remove_ne c x l :
  x ≠ c → x ∈ list_remove c l ↔ x ∈ l.
Proof.
  intros Hne. induction l as [|y l IH]; [done|]. simpl.
  case_decide.
  - subst. rewrite elem_of_cons. naive_solver.
  - by rewrite !elem_of_cons, IH.
Qed.

Lemma list_remove_notin c l : NoDup l → c ∉ list_remove c l.
Proof.
  induction 1 as [|y l Hy Hnd IH]; simpl; [apply not_elem_of_nil|].
  case_decide; [by subst|]. apply not_elem_of_cons. by split.
Qed.

Lemma NoDup_list_remove c l : NoDup l → NoDup (list_remove c l).
Proof.
  induction 1 as [|y l Hy Hnd IH]; simpl; [constructor|].
  case_decide; [done|]. constructor; [|done].
  by rewrite elem_of_list_remove_ne.
Qed.

Lemma list_remove_middle c pre rem :
  c ∉ pre → list_remove c (pre ++ c :: rem) = pre ++ rem.
Proof.
  induction pre as [|y pre IH]; simpl; intros Hn.
  - by rewrite decide_True.
  - apply not_elem_of_cons in Hn as [Hne Hn].
    rewrite decide_False by done. f_equal. by apply IH.
Qed.

Lemma elem_of_tick_ne c x selected :
  x ≠ c → x ∈ tick widget c selected ↔ x ∈ selected.
Proof.
  intros Hne. unfold tick.
  destruct (checkbox _ _ _); case_bool_decide; try done.
  - rewrite elem_of_app, list_elem_of_singleton. naive_solver.
  - by apply elem_of_list_remove_ne.
Qed.

Lemma elem_of_tick_eq c selected :
  NoDup selected →
  c ∈ tick widget c selected ↔
  checkbox widget (bool_decide (c ∈ selected)) c = true.
Proof.
  intros Hnd. unfold tick.
  destruct (checkbox _ _ _) eqn:Hbox; case_bool_decide as Hin.
  - done.
  - rewrite elem_of_app, list_elem_of_singleton. naive_solver.
  - split; [|done]. intros H. by apply list_remove_notin in H.
  - done.
Qed.

Lemma NoDup_tick c selected : NoDup selected → NoDup (tick widget c selected).
Proof.
  intros Hnd. unfold tick.
  destruct (checkbox _ _ _); case_bool_decide as Hin; try done.
  - apply NoDup_app. split_and!; [done | | apply NoDup_singleton].
    intros x Hx Hx'. apply list_elem_of_singleton in Hx'. by subst.
  - by apply NoDup_list_remove.
Qed.

(** When the selection is a list of its own, the loop is a fold over the
    columns of the table. *)
Lemma checkbox_loop_unaliased (fuel i : nat) all_columns selected :
  length all_columns ≤ i + fuel →
  checkbox_loop widget false fuel i all_columns selected =
  foldl (λ sel c, tick widget c sel) selected (drop i all_columns).
Proof.
  revert i selected. induction fuel as [|fuel IH]; intros i selected Hlen.
  - simpl. rewrite drop_ge by lia. done.
  - simpl. destruct (all_columns !! i) as [column|] eqn:Hi.
    + rewrite (drop_S _ _ _ Hi). simpl. apply IH. lia.
    + apply lookup_ge_None in Hi. by rewrite drop_ge.
Qed.

Lemma foldl_tick l selected :
  NoDup l → NoDup selected →
  NoDup (foldl (λ sel c, tick widget c sel) selected l) ∧
  ∀ x, x ∈ foldl (λ sel c, tick widget c sel) selected l ↔
       if decide (x ∈ l)
       then checkbox widget (bool_decide (x ∈ selected)) x = true
       else x ∈ selected.
Proof.
  intros Hl. revert selected.
  induction Hl as [|c l Hc Hl IH]; intros selected Hsel.
  - simpl. by split.
  - simpl. destruct (IH (tick widget c selected) (NoDup_tick c selected Hsel))
      as [Hnd Hmem].
    split; [done|]. intros x. rewrite Hmem.
    destruct (decide (x = c)) as [->|Hne].
    + rewrite decide_False by done. rewrite decide_True by left.
      by apply elem_of_tick_eq.
    + assert (bool_decide (x ∈ tick widget c selected) =
              bool_decide (x ∈ selected)) as ->.
      { apply bool_decide_ext. by apply elem_of_tick_ne. }
      destruct (decide (x ∈ l)) as [Hin|Hin].
      * rewrite decide_True by (by right). done.
      * rewrite decide_False by (apply not_elem_of_cons; by split).
        by apply elem_of_tick_ne.
Qed.

Lemma foldl_tick_other l selected x :
  x ∉ l → x ∈ foldl (λ sel c, tick widget c sel) selected l ↔ x ∈ selected.
Proof.
  revert selected. induction l as [|c l IH]; intros selected Hx; [done|].
  apply not_elem_of_cons in Hx as [Hne Hx]. simpl.
  rewrite IH by done. by apply elem_of_tick_ne.
Qed.

Lemma column_selector_unaliased all_columns selected :
  selected ≠ [] →
  column_selector widget all_columns selected =
  foldl (λ sel c, tick widget c sel) selected all_columns.
Proof.
  intros Hne. unfold column_selector. destruct selected as [|c0 sel]; [done|].
  rewrite checkbox_loop_unaliased by lia. by rewrite drop_0.
Qed.

(** When the selection is the list under iteration, the loop passes over
    the column that follows each column it removes. *)
Lemma checkbox_loop_aliased (fuel : nat) pre rem :
  NoDup (pre ++ rem) → length rem ≤ fuel →
  checkbox_loop widget true fuel (length pre) (pre ++ rem) (pre ++ rem) =
  pre ++ skipping widget rem.
Proof.
  revert pre rem. induction fuel as [|fuel IH]; intros pre rem Hnd Hlen.
  { destruct rem; [done | simpl in Hlen; lia]. }
  destruct rem as [|c rem].
  { simpl. rewrite lookup_ge_None_2; [done|]. rewrite length_app. simpl. lia. }
  cbn [checkbox_loop]. rewrite list_lookup_middle by done.
  apply NoDup_app in Hnd as Hparts. destruct Hparts as (Hpre & Hdisj & Hrem).
  assert (c ∉ pre) as Hc by (intros Hin; apply (Hdisj c Hin); left).
  unfold tick. rewrite bool_decide_eq_true_2
    by (apply elem_of_app; right; left).
  cbn [skipping]. destruct (checkbox widget true c).
  - replace (pre ++ c :: rem) with ((pre ++ [c]) ++ rem)
      by (by rewrite <- app_assoc).
    replace (S (length pre)) with (length (pre ++ [c]))
      by (rewrite length_app; simpl; lia).
    rewrite IH; [by rewrite <- app_assoc| |simpl in Hlen; lia].
    by rewrite <- app_assoc.
  - rewrite list_remove_middle by done.
    destruct rem as [|c' rem].
    { destruct fuel; [done|]. simpl.
      rewrite lookup_ge_None_2; [done|]. rewrite length_app. simpl. lia. }
    replace (pre ++ c' :: rem) with ((pre ++ [c']) ++ rem)
      by (by rewrite <- app_assoc).
    replace (S (length pre)) with (length (pre ++ [c']))
      by (rewrite length_app; simpl; lia).
    rewrite IH; [by rewrite <- app_assoc| |simpl in Hlen; lia].
    rewrite <- app_assoc. simpl.
    apply NoDup_app. split_and!; [done| |].
    + intros x Hx Hx'. apply (Hdisj x Hx). by right.
    + by apply NoDup_cons in Hrem as [_ ?].
Qed.

Lemma column_selector_aliased all_columns :
  NoDup all_columns →
  column_selector widget all_columns [] = skipping widget all_columns.
Proof.
  intros Hnd. unfold column_selector.
  exact (checkbox_loop_aliased (length all_columns) [] all_columns Hnd
           (Nat.le_refl _)).
Qed.

Lemma skipping_ticked l :
  (∀ x, x ∈ l → checkbox widget true x = true → x ∈ skipping widget l) ∧
  (∀ c x, x ∈ c :: l → checkbox widget true x = true →
          x ∈ skipping widget (c :: l)).
Proof.
  induction l as [|a l [IH1 IH2]].
  - split; [by intros x Hx; inversion Hx|].
    intros c x Hx Hbox. apply list_elem_of_singleton in Hx as ->.
    simpl. rewrite Hbox. left.
  - split; [apply IH2|]. intros c x Hx Hbox.
    cbn [skipping]. fold (skipping widget (a :: l)).
    destruct (checkbox widget true c) eqn:Hc.
    + apply elem_of_cons in Hx as [->|Hx]; [left|]. right. by apply IH2.
    + apply elem_of_cons in Hx as [->|Hx]; [congruence|].
      apply elem_of_cons in Hx as [->|Hx]; [left|]. right. by apply IH1.
Qed.

Lemma skipping_unticked l :
  (∀ x, x ∈ l → widget x = Some false) →
  (∀ x, x ∈ skipping widget l ↔ ∃ i, l !! i = Some x ∧ Nat.odd i = true) ∧
  (∀ c, widget c = Some false →
        ∀ x, x ∈ skipping widget (c :: l) ↔
             ∃ i, (c :: l) !! i = Some x ∧ Nat.odd i = true).
Proof.
  induction l as [|a l IH]; intros Hall.
  - split.
    + intros x. split; [by intros H; inversion H | by intros (i & ? & _)].
    + intros c Hc x. unfold skipping, checkbox. rewrite Hc. simpl.
      split; [by intros H; inversion H|].
      intros ([|i] & Hi & Hodd); done.
  - destruct IH as [IH1 IH2]; [intros x Hx; apply Hall; by right|].
    split; [apply IH2, Hall; left|].
    intros c Hc x. cbn [skipping]. unfold checkbox at 1. rewrite Hc. simpl.
    rewrite elem_of_cons, IH1. split.
    + intros [->|(i & Hi & Hodd)]; [by exists 1|].
      exists (S (S i)). split; [done|]. by rewrite Nat.odd_succ_succ.
    + intros ([|[|i]] & Hi & Hodd); [done | left | right].
      * simpl in Hi. congruence.
      * exists i. split; [done|]. by rewrite Nat.odd_succ_succ in Hodd.
Qed.

(** When the session holds a selection, each column of the table is
    selected after the boxes are drawn exactly when its box is ticked (a
    box drawn for the first time being ticked when the column was
    selected); a selected name that is no column of the table has no box
    and stays selected. *)
Theorem column_selector_follows_boxes all_columns selected c :
  selected ≠ [] → NoDup all_columns → NoDup selected →
  NoDup (column_selector widget all_columns selected) ∧
  (c ∈ column_selector widget all_columns selected ↔
   if decide (c ∈ all_columns)
   then checkbox widget (bool_decide (c ∈ selected)) c = true
   else c ∈ selected).
Proof.
  intros Hne Hall Hsel. rewrite column_selector_unaliased by done.
  destruct (foldl_tick all_columns selected Hall Hsel) as [Hnd Hmem].
  split; [done | apply Hmem].
Qed.

(** When the session holds no selection, the selection becomes the list
    of columns the loop iterates, and a removal shifts the columns under
    the loop: a ticked column is always selected, but once every box has
    been unticked the columns at the odd positions are selected again. *)
Theorem emptied_selection_skips_columns all_columns :
  NoDup all_columns →
  (∀ c, c ∈ all_columns → checkbox widget true c = true →
        c ∈ column_selector widget all_columns []) ∧
  ((∀ c, c ∈ all_columns → widget c = Some false) →
   ∀ i c, all_columns !! i = Some c →
          (c ∈ column_selector widget all_columns [] ↔ Nat.odd i = true)).
Proof.
  intros Hnd. rewrite column_selector_aliased by done. split.
  - apply skipping_ticked.
  - intros Hall i c Hi.
    destruct (skipping_unticked all_columns Hall) as [Hmem _].
    rewrite Hmem. split.
    + intros (j & Hj & Hodd).
      by rewrite (NoDup_lookup _ _ _ _ Hnd Hi Hj).
    + intros Hodd. by exists i.
Qed.

End ColumnSelector.

(** ** Applying the selection *)

Section Selection.

Variable lib : Library.
Variable widget : string → option bool.

Implicit Types (d : DataFrame) (names : list string) (app : App).

Lemma getitems_present d names :
  (∀ c, c ∈ names → c ∈ columns d) →
  ∃ d', getitems d names = inr d' ∧ columns d' = names ∧
        ∀ c, c ∈ names → getitem d' c = getitem d c.
Proof.
  induction names as [|c names IH]; intros Hall.
  - exists []. split_and!; [done..|]. intros c Hc. inversion Hc.
  - destruct IH as (d' & Hd' & Hcols & Hget);
      [intros x Hx; apply Hall; by right|].
    assert (is_Some (getitem d c)) as [s Hs]
      by (apply getitem_is_Some, Hall; left).
    exists ((c, s) :: d'). simpl. rewrite Hs, Hd'.
    split_and!; [done | by rewrite <- Hcols |].
    intros x Hx. case_decide; [by subst|].
    apply Hget. by apply elem_of_cons in Hx as [?|?].
Qed.

Lemma getitems_missing d names (c : string) :
  c ∈ names → c ∉ columns d →
  ∃ c', getitems d names = inl (LookupKeyError c') ∧
        c' ∈ names ∧ c' ∉ columns d.
Proof.
  induction names as [|x names IH]; intros Hin Hc; [inversion Hin|].
  simpl. destruct (getitem d x) as [s|] eqn:Hx.
  - apply elem_of_cons in Hin as [->|Hin].
    { apply getitem_None in Hc. congruence. }
    destruct (IH Hin Hc) as (c' & -> & Hc' & Hn).
    exists c'. split_and!; [done | by right | done].
  - exists x. split_and!; [done | left | by apply getitem_None].
Qed.

(** Ticking boxes and pressing the button leaves the table with exactly
    the columns whose box is ticked, each holding what it held. *)
Theorem selected_columns_applied d app :
  NoDup (columns d) →
  app_selected_columns app ≠ [] → NoDup (app_selected_columns app) →
  (∀ c, c ∈ app_selected_columns app → c ∈ columns d) →
  ∃ d',
    apply_selection d (draw_selector widget d app) =
      inr (set_df (Some d') (draw_selector widget d app)) ∧
    NoDup (columns d') ∧
    ∀ c, getitem d' c =
         if checkbox widget (bool_decide (c ∈ app_selected_columns app)) c
         then getitem d c else None.
Proof.
  intros Hd Hne Hsel Hsub. unfold apply_selection, draw_selector. simpl.
  rewrite column_selector_unaliased by done.
  destruct (foldl_tick widget (columns d) (app_selected_columns app) Hd Hsel)
    as [Hnd Hmem].
  set (chosen := foldl (λ sel c, tick widget c sel)
                       (app_selected_columns app) (columns d)) in *.
  assert (∀ c, c ∈ chosen → c ∈ columns d) as Hin.
  { intros c Hc. apply Hmem in Hc. case_decide; by auto. }
  destruct (getitems_present d chosen Hin) as (d' & -> & Hcols & Hget).
  exists d'. split_and!; [done | by rewrite Hcols |].
  intros c. destruct (decide (c ∈ chosen)) as [Hc|Hc].
  - rewrite (Hget c Hc). apply Hmem in Hc.
    rewrite decide_True in Hc by (apply Hin; by apply Hmem; case_decide).
    by rewrite Hc.
  - assert (getitem d' c = None) as -> by (apply getitem_None; by rewrite Hcols).
    destruct (checkbox _ _ _) eqn:Hbox; [|done].
    symmetry. apply getitem_None. intros Hcd. apply Hc, Hmem.
    by rewrite decide_True.
Qed.

(** The upload handler leaves the selection of the session as it is, and
    a selected name that is no column of the new table has no box to
    untick it: the button that applies the selection then raises
    KeyError, whatever the boxes. *)
Theorem stale_selection_raises (r : Rng) (name : string) (use_sampling : bool)
    d app app' (notices : list notice) (r' : Rng) (current : DataFrame)
    (c : string) :
  file_kind_of name ≠ OtherFile →
  upload lib r name use_sampling (inr d) app = (app', notices, r') →
  app_df app' = Some current →
  c ∈ app_selected_columns app → c ∉ columns current →
  ∃ c', apply_selection current (draw_selector widget current app') =
          inl (LookupKeyError c') ∧
        c' ∉ columns current.
Proof.
  intros Hkind. rewrite upload_loaded by done. cbv zeta.
  intros Hup Hcur Hc Hnot.
  assert (app_selected_columns app' = app_selected_columns app) as Hsame.
  { destruct (auto_convert_datetime lib r d); unfold read_failed in Hup;
      injection Hup as <- _ _; done. }
  unfold apply_selection, draw_selector. simpl. rewrite Hsame.
  assert (app_selected_columns app ≠ []) as Hne
    by (intros Heq; rewrite Heq in Hc; inversion Hc).
  rewrite column_selector_unaliased by done.
  destruct (getitems_missing current
              (foldl (λ sel c, tick widget c sel) (app_selected_columns app)
                     (columns current)) c) as (c' & -> & _ & Hc');
    [by apply foldl_tick_other | done |].
  by exists c'.
Qed.

Lemma for_each_date_cols_typed (cols : list string) (st : State) :
  (∀ c, c ∈ date_cols st →
        ∃ s, getitem (df st) c = Some s ∧ Forall stamp_or_missing (values s)) →
  ∀ c, c ∈ date_cols (state_of (for_each lib cols st)) →
       ∃ s, getitem (df (state_of (for_each lib cols st))) c = Some s ∧
            Forall stamp_or_missing (values s).
Proof.
  apply (for_each_preserves lib
    (λ st, ∀ c, c ∈ date_cols st →
                ∃ s, getitem (df st) c = Some s ∧
                     Forall stamp_or_missing (values s))).
  intros col st0 Hst c.
  assert (∀ name conv c, Forall stamp_or_missing (values conv) →
            c ∈ date_cols st0 ++ [name] →
            ∃ s, getitem (setitem (df st0) name conv) c = Some s ∧
                 Forall stamp_or_missing (values s)) as Hwrite.
  { intros name conv c0 Hty Hin. rewrite getitem_setitem.
    case_decide; [by eauto|].
    apply elem_of_app in Hin as [Hin|Hin]; [by apply Hst|].
    apply list_elem_of_singleton in Hin. by subst. }
  destruct (loop_body_case lib col st0) as
    [H|s c0 Hs _ _ Hc|s e c0 Hs _ _ _ Hc|s Hs _ _|s c0 Hs _ _ _ Hc
     |s Hs _ _ _]; simpl; try apply Hst;
    apply Hwrite; (eapply to_datetime_typed; [exact Hc|]);
    by eapply to_datetime_dtype.
Qed.

(** Every date column listed after a successful upload can be opened in
    the date range section of the same run without an exception, whatever
    the dates: as long as the button is not pressed the section shows its
    warning or offers the range, for any time zone setting; with the
    button pressed it filters, for a tz-naive column and no time zone
    selected. *)
Theorem detected_columns_can_be_filtered (zones : Zones)
    (selected_tz column_tz : option string) (r : Rng) (name : string)
    (use_sampling : bool) d app app' (notices : list notice) (r' : Rng)
    (current : DataFrame) (c : string) (start_date end_date : option Z)
    (pressed : bool) :
  file_kind_of name ≠ OtherFile →
  upload lib r name use_sampling (inr d) app = (app', notices, r') →
  app_df app' = Some current →
  c ∈ app_date_columns app' →
  (pressed = true → selected_tz = None ∧ column_tz = None) →
  ∃ res, date_section zones selected_tz column_tz (app_date_columns app') c
           start_date end_date pressed current = inr res ∧
         (res = CannotFilter ∨
          (pressed = false ∧
           ∃ min_date max_date, res = Offered min_date max_date) ∨
          (pressed = true ∧ ∃ d' rows, res = Filtered d' rows)).
Proof.
  intros Hkind. rewrite upload_loaded by done. cbv zeta.
  destruct (auto_convert_datetime lib r d) as [st|e st] eqn:Hrun;
    [|by intros [= <- <- <-]].
  intros [= <- <- <-] [= <-]. simpl. intros Hc Hzone.
  unfold auto_convert_datetime in Hrun.
  pose proof (for_each_date_cols_typed (columns d) (initial r d)) as Hty.
  rewrite Hrun in Hty. simpl in Hty.
  destruct (Hty (λ c0 H0, False_ind _ (not_elem_of_nil c0 H0)) c Hc)
    as (s & Hs & Htyped).
  unfold date_section. destruct (date_cols st) as [|c0 l]; [inversion Hc|].
  rewrite Hs. destruct (notnull_any s) eqn:Hany;
    [|eexists; split; [done | by left]].
  destruct (stamp_fold_is_Some Z.min s Hany Htyped) as [mn ->].
  destruct (stamp_fold_is_Some Z.max s Hany Htyped) as [mx ->].
  destruct pressed.
  - destruct (Hzone eq_refl) as [-> ->]. simpl.
    eexists. split; [done|]. right. right. split; [done|]. by eexists _, _.
  - eexists. split; [done|]. right. left. split; [done|]. by eexists _, _.
Qed.

(** A file in which every column holds a value, under names that differ,
    is always loaded. *)
Theorem upload_succeeds (r : Rng) (name : string) (use_sampling : bool) d app :
  file_kind_of name ≠ OtherFile →
  NoDup (columns d) → Forall (λ x, dropna x.2 ≠ []) d →
  ∃ app' notices r' current,
    upload lib r name use_sampling (inr d) app = (app', notices, r') ∧
    app_df app' = Some current ∧ app_original_df app' = Some d ∧
    Forall (λ n, ∀ text, n ≠ ReadError text) notices.
Proof.
  intros Hkind Hnd Hd. rewrite upload_loaded by done. cbv zeta.
  destruct (auto_convert_datetime_returns lib r d Hnd Hd) as [st ->].
  eexists _, _, _, _. split_and!; [done..|].
  apply Forall_app. split.
  - destruct (file_kind_of name); [destruct use_sampling| |];
      repeat constructor; done.
  - repeat constructor. by destruct (date_cols st).
Qed.

End Selection.

(** ** The manual conversion button *)

Section ManualButton.

Variable lib : Library.

Implicit Types (ss : Session) (f : date_format).

Lemma setitem_setitem (d : DataFrame) (name : string) (s s' : Series) :
  setitem (setitem d name s) name s' = setitem d name s'.
Proof.
  induction d as [|[n x] d IH]; simpl.
  - by rewrite decide_True.
  - case_decide; simpl.
    + by rewrite decide_True.
    + rewrite decide_False by done. by rewrite IH.
Qed.

(** The button writes the one column [new_col_name]: the other columns
    hold what they held, in their places, and the list of date columns
    only grows, by that name at most and without listing a name twice. *)
Theorem convert_button_leaves_the_rest f (date_col new_col_name : string)
    ss ss' (shown : message) :
  convert_button lib f date_col new_col_name ss = (ss', shown) →
  columns (session_df ss) `prefix_of` columns (session_df ss') ∧
  (∀ c, c ≠ new_col_name →
        getitem (session_df ss') c = getitem (session_df ss) c) ∧
  (∀ c, c ∈ date_columns ss' ↔
        c ∈ date_columns ss ∨
        (c = new_col_name ∧ shown = Success new_col_name)) ∧
  (NoDup (date_columns ss) → NoDup (date_columns ss')).
Proof.
  unfold convert_button.
  destruct (getitem (session_df ss) date_col) as [s|];
    [|intros [= <- <-]; split_and!; [done | done | naive_solver | done]].
  destruct (to_datetime lib s (how_of f) Coerce) as [e|converted];
    [intros [= <- <-]; split_and!; [done | done | naive_solver | done]|].
  intros [= <- <-]. simpl. split_and!.
  - apply columns_setitem_prefix.
  - intros c Hc. by apply getitem_setitem_ne.
  - intros c. case_decide as Hin.
    + split; [by left|]. intros [?|[-> _]]; done.
    + rewrite elem_of_app, list_elem_of_singleton. naive_solver.
  - intros Hnd. case_decide as Hin; [done|].
    apply NoDup_app. split_and!; [done | | apply NoDup_singleton].
    intros x Hx Hx'. apply list_elem_of_singleton in Hx'. by subst.
Qed.

(** Pressing the button again with the same choices changes nothing, as
    long as the new column has a name of its own. *)
Theorem convert_button_twice f (date_col new_col_name : string) ss :
  new_col_name ≠ date_col →
  convert_button lib f date_col new_col_name
    (convert_button lib f date_col new_col_name ss).1 =
  convert_button lib f date_col new_col_name ss.
Proof.
  intros Hne. unfold convert_button at 2 3.
  destruct (getitem (session_df ss) date_col) as [s|] eqn:Hs; simpl.
  { destruct (to_datetime lib s (how_of f) Coerce) as [e|converted] eqn:Hc;
      simpl.
    - unfold convert_button. by rewrite Hs, Hc.
    - unfold convert_button. simpl.
      rewrite getitem_setitem_ne by done. rewrite Hs, Hc.
      rewrite setitem_setitem. do 2 f_equal.
      destruct (decide (new_col_name ∈ date_columns ss)) as [Hin|Hin].
      + by rewrite decide_True.
      + rewrite decide_True; [done|]. apply elem_of_app. right. left. }
  unfold convert_button. by rewrite Hs.
Qed.



End ManualButton.

(** ** The chart options *)

Section ChartFacts.

Import Chart.

Implicit Types (d : DataFrame) (w : widgets) (o : options) (ct : chart_type).

(** The options of a chart cannot be read for exactly one kind of input:
    a table of more than 10000 rows, a chart that is not the time series
    chart, and no aggregation chosen (the choice the selectbox shows
    first); line 531 then reads [resample_freq], which is not bound. *)
Theorem configure_fails_iff (n : nat) ct w :
  (is_Some (match configure n ct w with inl e => Some e | inr _ => None end) ↔
   10000 < n ∧ ct ≠ Timeseries ∧ large_table_method w = AggNone) ∧
  ∀ e, configure n ct w = inl e → e = NameError "resample_freq".
Proof.
  unfold configure.
  destruct (10000 <? n) eqn:Hn.
  - apply Nat.ltb_lt in Hn.
    destruct (decide (ct = Timeseries)) as [Hct|Hct].
    + split.
      * split; [|by intros (_ & ? & _)].
        destruct (decide (timeseries_method w = AggNone)); by intros [? ?].
      * intros e. by destruct (decide (timeseries_method w = AggNone)).
    + destruct (decide (large_table_method w = AggNone)) as [Hm|Hm].
      * split; [|by intros e [= <-]]. split; [done | by eauto].
      * split; [|done]. split; [by intros [? ?] | by intros (_ & _ & ?)].
  - apply Nat.ltb_ge in Hn. split; [|done].
    split; [by intros [? ?]|]. intros (Hlt & _). exfalso.
    apply (Nat.lt_irrefl n). by eapply Nat.le_lt_trans.
Qed.

(** On a table of at most 10000 rows the chart data are never sampled,
    grouped or resampled: the time series chart with a frequency other
    than the raw one on a date/time column always fails, with KeyError
    for the y axis when it is the x axis (line 556), and otherwise with
    KeyError for the label for none, by which line 537 has replaced the
    aggregation method chosen and which the dictionary of line 568 does
    not hold.  In every other case the data are passed on as they are. *)
Theorem small_table_preparation (pd : Pandas) d ct w o (x_axis y_axis : string)
    (group_col : option string) (s sy : Series) :
  nrows d ≤ 10000 →
  configure (nrows d) ct w = inr o →
  getitem d x_axis = Some s →
  getitem d y_axis = Some sy →
  prepare pd d ct o x_axis y_axis group_col =
  if decide (ct = Timeseries ∧ resample_choice w ≠ Raw ∧ dtype_of s = Datetime)
  then
    if decide (y_axis = x_axis) then inl (ColumnKeyError y_axis)
    else inl (MethodKeyError AggNone)
  else inr (mkPreparation false None None).
Proof.
  intros Hn. unfold configure.
  destruct (10000 <? nrows d) eqn:Hlt.
  { apply Nat.ltb_lt in Hlt. exfalso.
    apply (Nat.lt_irrefl (nrows d)). by eapply Nat.le_lt_trans. }
  intros [= <-] Hs Hy. unfold prepare, resampling, grouping.
  cbn -[Nat.ltb Nat.of_num_uint].
  destruct (decide (ct = Timeseries)) as [->|Hct];
    cbn -[Nat.ltb Nat.of_num_uint].
  - destruct (resample_choice w) eqn:Hf; cbn -[Nat.ltb Nat.of_num_uint];
      rewrite ?Hs;
      try (destruct (decide (dtype_of s = Datetime));
           cbn -[Nat.ltb Nat.of_num_uint];
           try (destruct (decide (y_axis = x_axis));
                cbn -[Nat.ltb Nat.of_num_uint]; rewrite ?Hy));
      case_decide as Hcase; try done; naive_solver.
  - case_decide as Hcase; [naive_solver | done].
Qed.

(** On a table of more than 10000 rows the time series chart with a
    frequency other than the raw one, a date/time x axis and another
    column as y axis asks pandas to resample with the rule of the
    frequency and the function of the method chosen (mean, sum, max or
    min), on the data sampled first unless the sampling box was unticked,
    and applies no grouping; the chart data are resampled exactly when
    pandas accepts that call, and its error is the outcome otherwise. *)
Theorem large_table_resampling (pd : Pandas) d w o (x_axis y_axis : string)
    (group_col : option string) (s sy : Series) (rule : string) :
  10000 < nrows d →
  timeseries_method w ∈ timeseries_methods →
  configure (nrows d) Timeseries w = inr o →
  getitem d x_axis = Some s → dtype_of s = Datetime →
  getitem d y_axis = Some sy → y_axis ≠ x_axis →
  freq_map (resample_choice w) = Some rule →
  ∃ func,
    agg_func (timeseries_method w) = Some func ∧
    prepare pd d Timeseries o x_axis y_axis group_col =
    match
      resample_error pd d (default true (sample_box w)) x_axis y_axis rule func
    with
    | Some text => inl (LibraryError text)
    | None =>
        inr (mkPreparation (default true (sample_box w))
               (Some (rule, func)) None)
    end.
Proof.
  intros Hn Hm. unfold configure.
  apply Nat.ltb_lt in Hn. rewrite Hn. cbn -[Nat.ltb Nat.of_num_uint].
  assert (timeseries_method w ≠ AggNone) as Hnone.
  { intros Heq. rewrite Heq in Hm. unfold timeseries_methods in Hm.
    repeat (apply elem_of_cons in Hm as [Hm|Hm]; [done|]). inversion Hm. }
  rewrite decide_False by done. intros [= <-] Hs Hdt Hy Hyx Hrule.
  assert (∃ func, agg_func (timeseries_method w) = Some func) as [func Hfunc].
  { unfold timeseries_methods in Hm.
    repeat (apply elem_of_cons in Hm as [->|Hm]; [by eexists|]). inversion Hm. }
  exists func. split; [done|].
  unfold prepare, resampling, grouping. cbn -[Nat.ltb Nat.of_num_uint].
  rewrite Hrule, Hs. destruct (decide (dtype_of s = Datetime)); [|done].
  destruct (decide (y_axis = x_axis)); [done|].
  rewrite Hy, Hfunc, Hn, andb_true_r.
  rewrite (bool_decide_eq_false_2 (Timeseries ∈ _)).
  - rewrite andb_false_r. by destruct (resample_error _ _ _ _ _ _ _).
  - intros Hin. repeat (apply elem_of_cons in Hin as [Hin|Hin]; [done|]).
    inversion Hin.
Qed.

End ChartFacts.

(** ** The selection and the date columns *)

Section SelectionAndDates.

Variable lib : Library.
Variable zones : Zones.

Implicit Types (d : DataFrame) (names : list string) (app : App).

Lemma getitems_columns d names d' :
  getitems d names = inr d' → columns d' = names.
Proof.
  revert d'. induction names as [|c names IH]; intros d'; simpl.
  - by intros [= <-].
  - destruct (getitem d c) as [s|]; [|done].
    destruct (getitems d names) as [e|d0]; [done|].
    intros [= <-]. simpl. f_equal. by apply IH.
Qed.

(** With no file in the uploader, applying a selection that leaves out a
    listed date column takes the column from the table but not from the
    list of date columns, and the run that follows leaves the session
    alone: the date range section raises KeyError when that column is
    picked (line 373). *)
Theorem dropped_date_column_raises (selected_tz column_tz : option string)
    d app app' (c : string) (start_date end_date : option Z)
    (pressed : bool) (r : Rng) :
  apply_selection d app = inr app' →
  c ∈ app_date_columns app → c ∉ app_selected_columns app →
  data_processing lib r (NoFile None) app' = inr (app', [], r) ∧
  ∃ d', app_df app' = Some d' ∧
        columns d' = app_selected_columns app ∧
        app_date_columns app' = app_date_columns app ∧
        date_filter zones selected_tz column_tz c start_date end_date pressed
          app' = inl (LookupKeyError c).
Proof.
  unfold apply_selection.
  destruct (getitems d (app_selected_columns app)) as [e|d'] eqn:Hget; [done|].
  intros [= <-] Hc Hnot. split; [done|]. exists d'. simpl.
  apply getitems_columns in Hget. split_and!; [done..|].
  unfold date_filter, date_section. simpl.
  destruct (app_date_columns app); [inversion Hc|].
  assert (getitem d' c = None) as -> by (apply getitem_None; by rewrite Hget).
  done.
Qed.

End SelectionAndDates.

(** ** The further properties at the example sessions *)

(** The table of [ts] and [d] is converted the same way under two
    generators. *)
Lemma small_table_any_generator_witness :
  same_outcome (auto_convert_datetime Reference.lib [] Examples.both)
               (auto_convert_datetime Reference.lib [3; 1; 4] Examples.both).
Proof.
  apply (small_table_any_generator Reference.lib [] [3; 1; 4] Examples.both).
  repeat constructor; simpl; lia.
Defined.

(** [d] is listed for the table of [ts] and [d], and is a date/time
    column afterwards. *)
Lemma date_cols_are_datetime_columns_witness :
  ∃ s, getitem (df (state_of (auto_convert_datetime Reference.lib []
                                Examples.both))) "d" = Some s ∧
       dtype_of s = Datetime.
Proof.
  apply (date_cols_are_datetime_columns Reference.lib [] Examples.both "d").
  by_compute.
Defined.

(** The conversion recorded for [ts] has a numeric source. *)
Lemma conversion_sources_witness :
  ∃ s, getitem Examples.both "ts" = Some s ∧ qualifies Reference.lib s.
Proof.
  apply (conversion_sources Reference.lib [] Examples.both "ts" "ts_datetime").
  vm_compute. reflexivity.
Defined.

(** With a sample size of 4 and chunks of 3 rows, the loader reads two
    chunks and no more. *)
Lemma read_large_csv_bounded_witness :
  read_chunks 4 [] Sessions.chunks `prefix_of` Sessions.chunks ∧
  length (concat (read_chunks 4 [] Sessions.chunks)) ≤ 4 + 3 ∧
  ∀ rows m, read_large_csv Sessions.chunks 4 = Loaded rows (Some m) →
            m = length (concat (read_chunks 4 [] Sessions.chunks)) ∧
            4 < m ≤ 4 + 3.
Proof.
  apply (read_large_csv_bounded Sessions.chunks 4 3).
  repeat constructor; simpl; lia.
Defined.

(** The same nine rows as a sheet. *)
Lemma loaders_agree_witness :
  ∃ rows info info',
    read_large_csv Sessions.chunks 4 = Loaded rows info ∧
    read_excel_with_sampling ["Sheet1"] "" (λ _, concat Sessions.chunks) 4
      = Loaded rows info' ∧
    rows = take 4 (concat Sessions.chunks) ∧
    (is_Some info ↔ is_Some info') ∧
    (∀ total, info' = Some total → total = length (concat Sessions.chunks)).
Proof.
  apply (loaders_agree Sessions.chunks 4 ["Sheet1"] "" "Sheet1"
           (λ _, concat Sessions.chunks)).
  - discriminate.
  - reflexivity.
  - reflexivity.
Defined.

(** The table with the empty column [e] is not loaded. *)
Lemma upload_rejects_empty_column_witness :
  ∃ notices r',
    upload Reference.lib [] "data.csv" true (inr Sessions.with_gap)
      Sessions.fresh =
    ({| app_df := None; app_original_df := Some Sessions.with_gap;
        app_selected_columns := []; app_date_columns := [];
        app_date_conversions := ∅ |},
     notices ++ [ReadError "division by zero"], r').
Proof.
  apply (upload_rejects_empty_column Reference.lib [] "data.csv" true
           Sessions.with_gap Sessions.fresh "e"
           (mkSeries Numeric [Missing; Missing; Missing])).
  - vm_compute. discriminate.
  - reflexivity.
  - repeat constructor.
  - apply Forall_forall. by_compute.
Defined.

(** The failure of that upload is the division by zero of the detector. *)
Lemma upload_failure_is_division_by_zero_witness :
  last [ReadError "division by zero"] = Some (ReadError "division by zero") ∧
  app_original_df
    {| app_df := None; app_original_df := Some Sessions.with_gap;
       app_selected_columns := []; app_date_columns := [];
       app_date_conversions := ∅ |} = Some Sessions.with_gap ∧
  ∃ st, auto_convert_datetime Reference.lib [] Sessions.with_gap =
        Raised ZeroDivisionError st.
Proof.
  apply (upload_failure_is_division_by_zero Reference.lib [] "data.csv" true
           Sessions.with_gap Sessions.fresh _ _ []).
  - vm_compute. discriminate.
  - vm_compute. reflexivity.
  - reflexivity.
Defined.

(** The upload of the table of [ts] and [d]. *)
Lemma upload_consistent_witness :
  upload Reference.lib [] "data.csv" true (inr Examples.both) Sessions.fresh =
    (Sessions.uploaded, [DatesDetected 2], []) ∧
  columns Examples.both `prefix_of` columns (df Examples.both_converted) ∧
  (∀ source derived,
     app_date_conversions Sessions.uploaded !! source = Some derived →
     derived = datetime_name source ∧
     derived ∈ app_date_columns Sessions.uploaded).
Proof.
  assert (upload Reference.lib [] "data.csv" true (inr Examples.both)
            Sessions.fresh = (Sessions.uploaded, [DatesDetected 2], []))
    as Hup by (vm_compute; reflexivity).
  split; [exact Hup|].
  destruct (upload_consistent Reference.lib [] "data.csv" true Examples.both
              Sessions.fresh Sessions.uploaded [DatesDetected 2] []
              (df Examples.both_converted))
    as (_ & Hpre & _ & Hconv & _);
    [vm_compute; discriminate | exact Hup | reflexivity |].
  split; [exact Hpre | exact Hconv].
Defined.

(** After the sample-data button gave the table of [ts] and [d], the
    reset button leaves [ts_datetime] listed and out of the table. *)
Lemma reset_forgets_derived_columns_witness :
  generate Reference.lib [] Examples.both Sessions.fresh =
    inr (Sessions.generated, [SampleGenerated 3], []) ∧
  ∃ app'',
    reset Sessions.generated = inr app'' ∧
    data_processing Reference.lib [] (NoFile None) app'' = inr (app'', [], []) ∧
    app_df app'' = Some Examples.both ∧
    app_selected_columns app'' = columns Examples.both ∧
    "ts_datetime" ∈ app_date_columns app'' ∧
    date_filter Sessions.utc (Some "UTC") None "ts_datetime" None None false
      app'' = inl (LookupKeyError "ts_datetime").
Proof.
  assert (generate Reference.lib [] Examples.both Sessions.fresh =
          inr (Sessions.generated, [SampleGenerated 3], [])) as Hgen
    by (vm_compute; reflexivity).
  split; [exact Hgen|].
  apply (reset_forgets_derived_columns Reference.lib Sessions.utc (Some "UTC")
           None [] Examples.both Sessions.fresh Sessions.generated
           [SampleGenerated 3] [] [] "ts" "ts_datetime" None None false Hgen).
  - vm_compute. reflexivity.
  - by_compute.
Defined.


(** The visits of days 0 to 3: three rows are kept, the visit without a
    date and the one at 01:00 of day 3 are dropped. *)
Lemma date_filter_rows_witness :
  ∃ d',
    date_section Sessions.utc None None ["when"] "when" (Some 0%Z) (Some 3%Z)
      true Sessions.visits = inr (Filtered d' 3) ∧
    columns d' = ["when"; "n"] ∧
    getitem d' "n" = Some (mkSeries Numeric [Num 1; Num 2; Num 4]).
Proof.
  pose proof (date_filter_rows Sessions.utc ["when"] "when" 0 3 Sessions.visits
                Sessions.when) as H.
  cbv zeta in H.
  destruct H as (d' & Hsec & Hcols & _ & _ & _ & Hget).
  - discriminate.
  - reflexivity.
  - reflexivity.
  - repeat constructor.
  - repeat constructor.
  - exists d'. split; [exact Hsec|]. split; [exact Hcols|].
    apply (Hget "n" (mkSeries Numeric [Num 1; Num 2; Num 3; Num 4; Num 5])).
    reflexivity.
Defined.

(** With no file in the uploader, filtering days 0 to 3 and, in the next
    run, days 1 to 5 is filtering days 1 to 3. *)
Lemma date_filters_compose_witness :
  date_filter Sessions.utc None None "when" (Some (Z.max 0 1))
    (Some (Z.min 3 5)) true Sessions.visiting =
  inr (set_df (Some Sessions.visits_1_3) Sessions.visiting,
       Some (Filtered Sessions.visits_1_3 2)).
Proof.
  apply (date_filters_compose Reference.lib Sessions.utc "when" 0 3 1 5
           Sessions.visiting
           (set_df (Some Sessions.visits_0_3) Sessions.visiting)
           (set_df (Some Sessions.visits_0_3) Sessions.visiting)
           (set_df (Some Sessions.visits_1_3) Sessions.visiting)
           Sessions.visits_0_3 Sessions.visits_1_3 3 2 [] [] []).
  - vm_compute. reflexivity.
  - reflexivity.
  - vm_compute. reflexivity.
Defined.

(** With the default dates the visit at 01:00 of day 3, the last one, is
    dropped. *)
Lemma default_range_drops_last_day_witness :
  ∃ d' rows s',
    date_section Sessions.utc None None ["when"] "when" None None true
      Sessions.visits = inr (Filtered d' rows) ∧
    getitem d' "when" = Some s' ∧
    Stamp 262800000000000 ∈ values Sessions.when ∧
    (Stamp 262800000000000 ∉ values s').
Proof.
  destruct (default_range_drops_last_day Sessions.utc ["when"] "when"
              Sessions.visits Sessions.when 262800000000000)
    as (d' & rows & s' & Hsec & Hget & _ & Hlast).
  - discriminate.
  - reflexivity.
  - reflexivity.
  - repeat constructor.
  - vm_compute. reflexivity.
  - exists d', rows, s'. split; [exact Hsec|]. split; [exact Hget|].
    destruct Hlast as (Hin & Hout & _); [vm_compute; discriminate|].
    split; [exact Hin | exact Hout].
Defined.


(** With [a] and [b] selected and the box of [b] unticked, [b] is taken
    out of the selection. *)
Lemma column_selector_follows_boxes_witness :
  NoDup (column_selector Sessions.b_unticked ["a"; "b"; "c"] ["a"; "b"]) ∧
  ("b" ∈ column_selector Sessions.b_unticked ["a"; "b"; "c"] ["a"; "b"] ↔
   if decide ("b" ∈ ["a"; "b"; "c"])
   then checkbox Sessions.b_unticked (bool_decide ("b" ∈ ["a"; "b"])) "b" = true
   else "b" ∈ ["a"; "b"]).
Proof.
  apply (column_selector_follows_boxes Sessions.b_unticked
           ["a"; "b"; "c"] ["a"; "b"] "b").
  - discriminate.
  - by_compute.
  - by_compute.
Defined.

(** With no selection and four boxes unticked, [b] and [d] are selected. *)
Lemma emptied_selection_skips_columns_witness :
  column_selector Sessions.all_unticked ["a"; "b"; "c"; "d"] [] = ["b"; "d"] ∧
  ((∀ c, c ∈ ["a"; "b"; "c"; "d"] → Sessions.all_unticked c = Some false) →
   ∀ i c, ["a"; "b"; "c"; "d"] !! i = Some c →
          (c ∈ column_selector Sessions.all_unticked ["a"; "b"; "c"; "d"] []
           ↔ Nat.odd i = true)).
Proof.
  split; [vm_compute; reflexivity|].
  apply (emptied_selection_skips_columns Sessions.all_unticked
           ["a"; "b"; "c"; "d"]).
  by_compute.
Defined.

(** With [ts] and [d] selected and the box of [ts] unticked, the button
    leaves the column [d] alone in the table. *)
Lemma selected_columns_applied_witness :
  ∃ d',
    apply_selection Examples.both
      (draw_selector (λ c, if String.eqb c "ts" then Some false else None)
         Examples.both
         {| app_df := Some Examples.both; app_original_df := Some Examples.both;
            app_selected_columns := ["ts"; "d"]; app_date_columns := [];
            app_date_conversions := ∅ |}) =
    inr (set_df (Some d')
           (draw_selector (λ c, if String.eqb c "ts" then Some false else None)
              Examples.both
              {| app_df := Some Examples.both;
                 app_original_df := Some Examples.both;
                 app_selected_columns := ["ts"; "d"]; app_date_columns := [];
                 app_date_conversions := ∅ |})) ∧
    getitem d' "ts" = None ∧
    getitem d' "d" = Some Examples.three_dates.
Proof.
  destruct (selected_columns_applied
              (λ c, if String.eqb c "ts" then Some false else None)
              Examples.both
              {| app_df := Some Examples.both;
                 app_original_df := Some Examples.both;
                 app_selected_columns := ["ts"; "d"]; app_date_columns := [];
                 app_date_conversions := ∅ |})
    as (d' & Happly & _ & Hget).
  - by_compute.
  - discriminate.
  - by_compute.
  - apply Forall_forall. by_compute.
  - exists d'. split; [exact Happly|].
    split; [exact (Hget "ts") | exact (Hget "d")].
Defined.

(** A session that had the column [old] selected: after the upload of
    the table of [ts] and [d] the button raises KeyError. *)
Lemma stale_selection_raises_witness :
  ∃ c',
    apply_selection (df Examples.both_converted)
      (draw_selector Sessions.all_unticked (df Examples.both_converted)
         {| app_df := Some (df Examples.both_converted);
            app_original_df := Some Examples.both;
            app_selected_columns := ["old"];
            app_date_columns := ["ts_datetime"; "d"];
            app_date_conversions := {["ts" := "ts_datetime"]} |}) =
      inl (LookupKeyError c') ∧
    c' ∉ columns (df Examples.both_converted).
Proof.
  apply (stale_selection_raises Reference.lib Sessions.all_unticked []
           "data.csv" true Examples.both
           {| app_df := None; app_original_df := None;
              app_selected_columns := ["old"]; app_date_columns := [];
              app_date_conversions := ∅ |}
           _ [DatesDetected 2] [] _ "old").
  - vm_compute. discriminate.
  - vm_compute. reflexivity.
  - reflexivity.
  - by_compute.
  - by_compute.
Defined.

(** The date column [d] of the uploaded table can be filtered. *)
Lemma detected_columns_can_be_filtered_witness :
  ∃ res,
    date_section Sessions.utc None None (app_date_columns Sessions.uploaded)
      "d" None None true (df Examples.both_converted) = inr res ∧
    (res = CannotFilter ∨
     (true = false ∧ ∃ min_date max_date, res = Offered min_date max_date) ∨
     (true = true ∧ ∃ d' rows, res = Filtered d' rows)).
Proof.
  apply (detected_columns_can_be_filtered Reference.lib Sessions.utc None None
           [] "data.csv" true Examples.both Sessions.fresh Sessions.uploaded
           [DatesDetected 2] [] (df Examples.both_converted) "d" None None
           true).
  - vm_compute. discriminate.
  - vm_compute. reflexivity.
  - reflexivity.
  - by_compute.
  - done.
Defined.

(** The table of [ts] and [d] is loaded. *)
Lemma upload_succeeds_witness :
  ∃ app' notices r' current,
    upload Reference.lib [] "data.xlsx" true (inr Examples.both)
      Sessions.fresh = (app', notices, r') ∧
    app_df app' = Some current ∧ app_original_df app' = Some Examples.both ∧
    Forall (λ n, ∀ text, n ≠ ReadError text) notices.
Proof.
  apply (upload_succeeds Reference.lib [] "data.xlsx" true Examples.both
           Sessions.fresh).
  - vm_compute. discriminate.
  - by_compute.
  - repeat constructor; vm_compute; discriminate.
Defined.

(** Converting [d] into [d_converted] leaves [d] as it is and lists the
    new column. *)
Lemma convert_button_leaves_the_rest_witness :
  convert_button Reference.lib AutoDetect "d" "d_converted"
    {| session_df := [("d", Examples.three_dates)]; date_columns := [] |} =
  ({| session_df := [("d", Examples.three_dates);
                     ("d_converted", Examples.three_dates_datetime)];
      date_columns := ["d_converted"] |}, Success "d_converted") ∧
  (∀ c, c ≠ "d_converted" →
        getitem [("d", Examples.three_dates);
                 ("d_converted", Examples.three_dates_datetime)] c =
        getitem [("d", Examples.three_dates)] c).
Proof.
  assert (convert_button Reference.lib AutoDetect "d" "d_converted"
            {| session_df := [("d", Examples.three_dates)];
               date_columns := [] |} =
          ({| session_df := [("d", Examples.three_dates);
                             ("d_converted", Examples.three_dates_datetime)];
              date_columns := ["d_converted"] |}, Success "d_converted"))
    as Hpress by (vm_compute; reflexivity).
  split; [exact Hpress|].
  destruct (convert_button_leaves_the_rest Reference.lib AutoDetect "d"
              "d_converted" _ _ _ Hpress) as (_ & Hrest & _).
  exact Hrest.
Defined.

(** Pressing the button a second time for [d_converted]. *)
Lemma convert_button_twice_witness :
  convert_button Reference.lib AutoDetect "d" "d_converted"
    (convert_button Reference.lib AutoDetect "d" "d_converted"
       {| session_df := [("d", Examples.three_dates)]; date_columns := [] |}).1 =
  convert_button Reference.lib AutoDetect "d" "d_converted"
    {| session_df := [("d", Examples.three_dates)]; date_columns := [] |}.
Proof.
  apply (convert_button_twice Reference.lib AutoDetect "d" "d_converted").
  by_compute.
Defined.


(** The time series chart of the five visits, by month, with [n] on the
    y axis: the preparation fails whatever the method chosen. *)
Lemma small_table_preparation_witness :
  Chart.prepare Sessions.accepting Sessions.visits Chart.Timeseries
    (Chart.mkOptions (Some Chart.Monthly) Chart.AggNone false) "when" "n" None
  = inl (Chart.MethodKeyError Chart.AggNone).
Proof.
  etransitivity.
  - apply (small_table_preparation Sessions.accepting Sessions.visits
             Chart.Timeseries
             (Chart.mkWidgets Chart.Monthly Chart.AggMean Chart.AggNone None)
             (Chart.mkOptions (Some Chart.Monthly) Chart.AggNone false)
             "when" "n" None Sessions.when
             (mkSeries Numeric [Num 1; Num 2; Num 3; Num 4; Num 5])).
    + apply Nat.leb_le. vm_compute. reflexivity.
    + vm_compute. reflexivity.
    + reflexivity.
    + reflexivity.
  - vm_compute. reflexivity.
Defined.

(** The same chart on a table of 10001 rows is resampled by month with
    the mean, after sampling, pandas accepting the call. *)
Lemma large_table_resampling_witness :
  Chart.prepare Sessions.accepting Sessions.long_table Chart.Timeseries
    (Chart.mkOptions (Some Chart.Monthly) Chart.AggMean true) "when" "n" None
  = inr (Chart.mkPreparation true (Some ("M", "mean")) None).
Proof.
  destruct (large_table_resampling Sessions.accepting Sessions.long_table
              (Chart.mkWidgets Chart.Monthly Chart.AggMean Chart.AggNone None)
              (Chart.mkOptions (Some Chart.Monthly) Chart.AggMean true)
              "when" "n" None
              (mkSeries Datetime (replicate 10001 (Stamp 0)))
              (mkSeries Numeric (replicate 10001 (Num 1))) "M")
    as (func & Hfunc & Hprep).
  - apply Nat.ltb_lt. vm_compute. reflexivity.
  - by_compute.
  - vm_compute. reflexivity.
  - reflexivity.
  - reflexivity.
  - reflexivity.
  - discriminate.
  - reflexivity.
  - injection Hfunc as <-. exact Hprep.
Defined.

(** With no file in the uploader, applying the selection of [ts] and [d]
    drops [ts_datetime], which stays listed. *)
Lemma dropped_date_column_raises_witness :
  ∃ d',
    getitems (df Examples.both_converted) ["ts"; "d"] = inr d' ∧
    columns d' = ["ts"; "d"] ∧
    date_filter Sessions.utc None None "ts_datetime" None None false
      {| app_df := Some d'; app_original_df := Some Examples.both;
         app_selected_columns := ["ts"; "d"];
         app_date_columns := ["ts_datetime"; "d"];
         app_date_conversions := {["ts" := "ts_datetime"]} |} =
      inl (LookupKeyError "ts_datetime").
Proof.
  destruct (dropped_date_column_raises Reference.lib Sessions.utc None None
              (df Examples.both_converted)
              {| app_df := Some (df Examples.both_converted);
                 app_original_df := Some Examples.both;
                 app_selected_columns := ["ts"; "d"];
                 app_date_columns := ["ts_datetime"; "d"];
                 app_date_conversions := {["ts" := "ts_datetime"]} |}
              {| app_df := Some [("ts", Examples.ts);
                                 ("d", Examples.three_dates_datetime)];
                 app_original_df := Some Examples.both;
                 app_selected_columns := ["ts"; "d"];
                 app_date_columns := ["ts_datetime"; "d"];
                 app_date_conversions := {["ts" := "ts_datetime"]} |}
              "ts_datetime" None None false [])
    as (_ & d' & Hdf & Hcols & _ & Hsec).
  - vm_compute. reflexivity.
  - by_compute.
  - by_compute.
  - exists d'. simpl in Hdf. injection Hdf as <-.
    split; [vm_compute; reflexivity|]. split; [exact Hcols | exact Hsec].
Defined.
